(** * Access control and task update of the Vikunja API, checked against the code

    A shallow embedding of
    - [models/namespace_rights.go] and [models/list_rights.go]: the rights
      predicates on namespaces and lists, with the SQL they issue;
    - the list model that follows the predicates in [models/list_rights.go]
      (the [List] of the session-based package): [ReadAll],
      [GetListSimpleByID], [addListDetails] and [CheckIsArchived];
    - [pkg/models/list_tasks_create_update.go]: [Update] and [updateDone].

    The relational store is a record of tables, a table is a list of rows in
    storage order, and a query is evaluated on it by the combinators of
    [SQL].  A query that the driver cannot run (the [err != nil] branches
    after a query) is outside the model: every query is answered. *)

From Stdlib Require Import ZArith List Bool String Lia.
Import ListNotations.
Local Open Scope Z_scope.
Local Open Scope bool_scope.

(** ** 64-bit integers *)

Module Int64.

Definition modulus : Z := 2 ^ 64.
Definition min_signed : Z := - 2 ^ 63.
Definition max_signed : Z := 2 ^ 63 - 1.

(** The value of an [int64] whose mathematical value would be [z]. *)
Definition wrap (z : Z) : Z :=
  (z + 2 ^ 63) mod modulus - 2 ^ 63.

(** Go's [+] on [int64]. *)
Definition add (a b : Z) : Z := wrap (a + b).

Definition in_range (z : Z) : Prop := min_signed <= z <= max_signed.

End Int64.

(** ** Query evaluation

    Rows of a joined table are nested pairs; the right-hand side of a
    [LEFT JOIN] is an [option], [None] standing for the all-NULL row. *)

Module SQL.

Section Combinators.
Context {A B C : Type}.

(** [rows LEFT JOIN tbl ON on]. *)
Definition left_join (rows : list A) (tbl : list B) (on : A -> B -> bool)
  : list (A * option B) :=
  flat_map
    (fun a =>
       match filter (on a) tbl with
       | [] => [(a, None)]
       | matches => map (fun b => (a, Some b)) matches
       end)
    rows.

(** [WHERE cond]. *)
Definition where_ (cond : A -> bool) (rows : list A) : list A :=
  filter cond rows.

(** [Get]: the first row of the result, if there is one. *)
Definition get (rows : list A) : option A := hd_error rows.

(** [Get]'s first return value. *)
Definition exists_ (rows : list A) : bool :=
  match get rows with
  | Some _ => true
  | None => false
  end.

(** A column of a row that may be all NULL. *)
Definition col (f : B -> C) (row : option B) : option C := option_map f row.

(** [rows INNER JOIN tbl ON on]. *)
Definition inner_join (rows : list A) (tbl : list B) (on : A -> B -> bool)
  : list (A * B) :=
  flat_map (fun a => map (fun b => (a, b)) (filter (on a) tbl)) rows.

End Combinators.

(** [c = v] for a column that may be NULL.  A comparison with NULL is
    unknown; the conditions below combine comparisons with AND and OR only,
    where unknown selects a row exactly when false does. *)
Definition eq_int (c : option Z) (v : Z) : bool :=
  match c with
  | Some z => z =? v
  | None => false
  end.

(** [c1 = c2] for two columns, the first of which may be NULL. *)
Definition eq_col (c1 : option Z) (c2 : Z) : bool := eq_int c1 c2.

End SQL.

(** ** [src/models]: the rights predicates on namespaces and lists *)

Module Models.

(** Modelled from the spec: the declaration of [TeamRight] and of its
    constants [TeamRightRead], [TeamRightWrite] and [TeamRightAdmin] is not
    under [src/].  The spec has the three stored levels Read < Write < Admin;
    the queries below only compare a stored right with a requested one for
    equality. *)
Inductive TeamRight : Type :=
| TeamRightRead
| TeamRightWrite
| TeamRightAdmin.

Definition TeamRight_eqb (a b : TeamRight) : bool :=
  match a, b with
  | TeamRightRead, TeamRightRead
  | TeamRightWrite, TeamRightWrite
  | TeamRightAdmin, TeamRightAdmin => true
  | _, _ => false
  end.

(** [c = r] for a right column that may be NULL. *)
Definition eq_right (c : option TeamRight) (r : TeamRight) : bool :=
  match c with
  | Some r' => TeamRight_eqb r' r
  | None => false
  end.

Module User.
Record t : Type := mk { ID : Z; Username : string }.
Definition zero : t := mk 0 "".
End User.

(** A namespace; [Owner] is filled in after loading and is not a column. *)
Module Namespace.
Record t : Type := mk { ID : Z; Name : string; OwnerID : Z; Owner : User.t }.
Definition zero : t := mk 0 "" 0 User.zero.
End Namespace.

(** A list; [Owner] is filled in after loading and is not a column. *)
Module List.
Record t : Type :=
  mk { ID : Z; Title : string; OwnerID : Z; NamespaceID : Z; Owner : User.t }.
Definition zero : t := mk 0 "" 0 0 User.zero.
End List.

(** Row of [team_namespaces]. *)
Module TeamNamespace.
Record t : Type := mk { ID : Z; TeamID : Z; NamespaceID : Z; Right : TeamRight }.
End TeamNamespace.

(** Row of [team_members]. *)
Module TeamMember.
Record t : Type := mk { ID : Z; TeamID : Z; UserID : Z }.
End TeamMember.

(** Row of [team_list]; its right column is called [rights]. *)
Module TeamList.
Record t : Type := mk { ID : Z; TeamID : Z; ListID : Z; Rights : TeamRight }.
End TeamList.

(** The tables the engine [x] answers from. *)
Record Engine : Type :=
  mkEngine {
      users : list User.t;
      namespaces : list Namespace.t;
      list_ : list List.t;
      team_namespaces : list TeamNamespace.t;
      team_members : list TeamMember.t;
      team_list : list TeamList.t
    }.

Inductive Error : Type :=
| ErrNamespaceDoesNotExist (ID : Z)
| ErrListDoesNotExist (ID : Z)
| ErrUserDoesNotExist (UserID : Z).

(** Modelled from the spec: [GetUserByID] is not under [src/]; a user is
    identified by its numeric id. *)
Definition GetUserByID (x : Engine) (id : Z) : User.t * option Error :=
  match find (fun u => User.ID u =? id) (users x) with
  | Some u => (u, None)
  | None => (User.zero, Some (ErrUserDoesNotExist id))
  end.

(** Modelled from the spec: [GetNamespaceByID] is not under [src/].  The
    spec's store contract is [GetNamespace(id) -> Namespace | NotFound]; with
    the not-found error comes the zero namespace, and a found namespace has
    its owner loaded. *)
Definition GetNamespaceByID (x : Engine) (id : Z) : Namespace.t * option Error :=
  match find (fun n => Namespace.ID n =? id) (namespaces x) with
  | Some n =>
      let (owner, err) := GetUserByID x (Namespace.OwnerID n) in
      (Namespace.mk (Namespace.ID n) (Namespace.Name n) (Namespace.OwnerID n) owner,
       err)
  | None => (Namespace.zero, Some (ErrNamespaceDoesNotExist id))
  end.

(** Modelled from the spec: [GetListByID] is not under [src/].  The spec's
    store contract is [GetList(id) -> List | NotFound]; with the not-found
    error comes the zero list, and a found list has its owner loaded. *)
Definition GetListByID (x : Engine) (id : Z) : List.t * option Error :=
  match find (fun l => List.ID l =? id) (list_ x) with
  | Some l =>
      let (owner, err) := GetUserByID x (List.OwnerID l) in
      (List.mk (List.ID l) (List.Title l) (List.OwnerID l) (List.NamespaceID l) owner,
       err)
  | None => (List.zero, Some (ErrListDoesNotExist id))
  end.

(** *** [models/namespace_rights.go] *)

Module NamespaceRights.

(** The query of [checkTeamRights]:
    [namespaces LEFT JOIN team_namespaces ON namespaces.id = team_namespaces.namespace_id
     LEFT JOIN team_members ON team_members.team_id = team_namespaces.team_id
     WHERE (team_members.user_id = ? AND team_namespaces.right = ?)
        OR namespaces.owner_id = ?].
    The bean handed to [Get] is an empty [Namespace], which adds no
    condition; the receiver [n] does not occur in the query. *)
Definition checkTeamRights_rows (x : Engine) (user : User.t) (r : TeamRight)
  : list (Namespace.t * option TeamNamespace.t * option TeamMember.t) :=
  SQL.where_
    (fun '(ns, tn, tm) =>
       (SQL.eq_int (SQL.col TeamMember.UserID tm) (User.ID user)
        && eq_right (SQL.col TeamNamespace.Right tn) r)
       || (Namespace.OwnerID ns =? User.ID user))
    (SQL.left_join
       (SQL.left_join (namespaces x) (team_namespaces x)
          (fun ns tn => Namespace.ID ns =? TeamNamespace.NamespaceID tn))
       (team_members x)
       (fun '(_, tn) tm =>
          SQL.eq_col (SQL.col TeamNamespace.TeamID tn) (TeamMember.TeamID tm))).

Definition checkTeamRights (x : Engine) (n : Namespace.t) (user : User.t)
  (r : TeamRight) : bool :=
  SQL.exists_ (checkTeamRights_rows x user r).

(** IsAdmin returns true or false if the user is admin on that namespace or
    not. *)
Definition IsAdmin (x : Engine) (n : Namespace.t) (user : User.t) : bool :=
  if User.ID user =? User.ID (Namespace.Owner n) then true
  else checkTeamRights x n user TeamRightAdmin.

(** CanWrite checks if a user has write access to a namespace. *)
Definition CanWrite (x : Engine) (n : Namespace.t) (user : User.t) : bool :=
  if User.ID user =? User.ID (Namespace.Owner n) then true
  else if IsAdmin x n user then true
  else checkTeamRights x n user TeamRightWrite.

(** CanRead checks if a user has read access to that namespace. *)
Definition CanRead (x : Engine) (n : Namespace.t) (user : User.t) : bool :=
  if User.ID user =? User.ID (Namespace.Owner n) then true
  else if IsAdmin x n user then true
  else checkTeamRights x n user TeamRightRead.

(** CanUpdate checks if the user can update the namespace; the error of the
    lookup is dropped. *)
Definition CanUpdate (x : Engine) (n : Namespace.t) (user : User.t) : bool :=
  let (nn, _) := GetNamespaceByID x (Namespace.ID n) in
  IsAdmin x nn user.

(** CanDelete checks if the user can delete a namespace; the error of the
    lookup is dropped. *)
Definition CanDelete (x : Engine) (n : Namespace.t) (user : User.t) : bool :=
  let (nn, _) := GetNamespaceByID x (Namespace.ID n) in
  IsAdmin x nn user.

(** CanCreate checks if the user can create a new namespace. *)
Definition CanCreate (x : Engine) (n : Namespace.t) (user : User.t) : bool :=
  true.

End NamespaceRights.

(** *** [models/list_rights.go], lines 1 to 78 *)

Module ListRights.

Definition checkListTeamRight_row : Type :=
  List.t * option TeamNamespace.t * option TeamMember.t
  * option TeamList.t * option TeamMember.t.

(** The query of [checkListTeamRight]:
    [list AS l
     LEFT JOIN team_namespaces tn ON tn.namespace_id = tn.id
     LEFT JOIN team_members tm ON tm.team_id = tn.team_id
     LEFT JOIN team_list tl ON l.id = tl.list_id
     LEFT JOIN team_members tm2 ON tm2.team_id = tl.team_id
     WHERE ((tm.user_id = ? AND tn.right = ?) OR (tm2.user_id = ? AND tl.rights = ?))
       AND l.id = ?].
    The first join compares two columns of [tn] itself. *)
Definition checkListTeamRight_rows (x : Engine) (l : List.t) (user : User.t)
  (r : TeamRight) : list checkListTeamRight_row :=
  SQL.where_
    (fun '(l', tn, tm, tl, tm2) =>
       ((SQL.eq_int (SQL.col TeamMember.UserID tm) (User.ID user)
         && eq_right (SQL.col TeamNamespace.Right tn) r)
        || (SQL.eq_int (SQL.col TeamMember.UserID tm2) (User.ID user)
            && eq_right (SQL.col TeamList.Rights tl) r))
       && (List.ID l' =? List.ID l))
    (SQL.left_join
       (SQL.left_join
          (SQL.left_join
             (SQL.left_join (list_ x) (team_namespaces x)
                (fun _ tn => TeamNamespace.NamespaceID tn =? TeamNamespace.ID tn))
             (team_members x)
             (fun '(_, tn) tm =>
                SQL.eq_col (SQL.col TeamNamespace.TeamID tn) (TeamMember.TeamID tm)))
          (team_list x)
          (fun '(l', _, _) tl => List.ID l' =? TeamList.ListID tl))
       (team_members x)
       (fun '(_, _, _, tl) tm2 =>
          SQL.eq_col (SQL.col TeamList.TeamID tl) (TeamMember.TeamID tm2))).

Definition checkListTeamRight (x : Engine) (l : List.t) (user : User.t)
  (r : TeamRight) : bool :=
  SQL.exists_ (checkListTeamRight_rows x l user r).

(** IsAdmin returns whether the user has admin rights on the list or not. *)
Definition IsAdmin (x : Engine) (l : List.t) (user : User.t) : bool :=
  if User.ID (List.Owner l) =? User.ID user then true
  else checkListTeamRight x l user TeamRightAdmin.

(** CanWrite return whether the user can write on that list or not. *)
Definition CanWrite (x : Engine) (l : List.t) (user : User.t) : bool :=
  if User.ID (List.Owner l) =? User.ID user then true
  else if IsAdmin x l user then true
  else checkListTeamRight x l user TeamRightWrite.

(** CanRead checks if a user has read access to a list. *)
Definition CanRead (x : Engine) (l : List.t) (user : User.t) : bool :=
  if User.ID (List.Owner l) =? User.ID user then true
  else if IsAdmin x l user then true
  else checkListTeamRight x l user TeamRightRead.

(** CanDelete checks if the user can delete a list. *)
Definition CanDelete (x : Engine) (l : List.t) (doer : User.t) : bool :=
  let (list, _) := GetListByID x (List.ID l) in
  IsAdmin x list doer.

(** CanUpdate checks if the user can update a list. *)
Definition CanUpdate (x : Engine) (l : List.t) (doer : User.t) : bool :=
  let (list, _) := GetListByID x (List.ID l) in
  CanWrite x list doer.

(** CanCreate checks if the user can update a list: a user can create a list
    if he has write access to the namespace. *)
Definition CanCreate (x : Engine) (l : List.t) (doer : User.t) : bool :=
  let (n, _) := GetNamespaceByID x (List.NamespaceID l) in
  NamespaceRights.CanWrite x n doer.

End ListRights.

End Models.

(** ** [src/pkg/models]: lists, the archive check and the task update *)

Module PkgModels.

Module User.
Record t : Type := mk { ID : Z; Username : string }.
Definition zero : t := mk 0 "".
End User.

(** Modelled from the spec: the declaration of [Right] is not under [src/].
    The spec orders the levels None < Read < Write < Admin and stores only
    the last three in a grant. *)
Inductive Right : Type :=
| RightNone
| RightRead
| RightWrite
| RightAdmin.

(** Row of [namespaces], with the columns the queries below read. *)
Module Namespace.
Record t : Type := mk { ID : Z; Title : string; OwnerID : Z; IsArchived : bool }.
Definition zero : t := mk 0 "" 0 false.
End Namespace.

Module UnsplashPhoto.
Record t : Type := mk { ID : Z; FileID : Z; UnsplashID : string; Author : string }.
End UnsplashPhoto.

(** ListBackgroundType holds a list background type. *)
Module ListBackgroundType.
Record t : Type := mk { Type_ : string }.
End ListBackgroundType.

(** ListBackgroundUpload represents the list upload background type. *)
Definition ListBackgroundUpload : string := "upload".

(** What [BackgroundInformation interface{}] holds in this file. *)
Inductive BackgroundInformation : Type :=
| NoBackgroundInformation
| BackgroundType (b : ListBackgroundType.t)
| BackgroundUnsplash (u : UnsplashPhoto.t).

(** List represents a list of tasks.  The fields that the functions below
    do not read ([Tasks], [Buckets], [Subscription], the two timestamps and
    the embedded interfaces) are left out.  [Owner] and
    [BackgroundInformation] are not columns. *)
Module List.
Record t : Type :=
  mk {
      ID : Z;
      Title : string;
      Description : string;
      Identifier : string;
      HexColor : string;
      OwnerID : Z;
      NamespaceID : Z;
      Owner : option User.t;
      IsArchived : bool;
      BackgroundFileID : Z;
      BackgroundInformation_ : BackgroundInformation;
      IsFavorite : bool
    }.

Definition zero : t :=
  mk 0 "" "" "" "" 0 0 None false 0 NoBackgroundInformation false.

Definition with_Owner (o : option User.t) (l : t) : t :=
  mk (ID l) (Title l) (Description l) (Identifier l) (HexColor l) (OwnerID l)
    (NamespaceID l) o (IsArchived l) (BackgroundFileID l)
    (BackgroundInformation_ l) (IsFavorite l).

Definition with_BackgroundInformation (b : BackgroundInformation) (l : t) : t :=
  mk (ID l) (Title l) (Description l) (Identifier l) (HexColor l) (OwnerID l)
    (NamespaceID l) (Owner l) (IsArchived l) (BackgroundFileID l) b
    (IsFavorite l).

(** What loading a row into an empty [List] gives: its columns. *)
Definition scan (row : t) : t :=
  with_BackgroundInformation NoBackgroundInformation (with_Owner None row).

End List.

(** A link share: a token bound to one list and one right. *)
Module LinkSharing.
Record t : Type := mk { ID : Z; Hash : string; ListID : Z; Right_ : Right }.
End LinkSharing.

(** The two implementations of [web.Auth]. *)
Inductive Auth : Type :=
| AuthUser (u : User.t)
| AuthLinkSharing (share : LinkSharing.t).

Definition GetID (a : Auth) : Z :=
  match a with
  | AuthUser u => User.ID u
  | AuthLinkSharing share => LinkSharing.ID share
  end.

(** A row of one of the grant relations [team_namespaces], [team_list],
    [users_list] and [users_namespace]: who (a team or a user) holds which
    right on what (a namespace or a list). *)
Module Grant.
Record t : Type := mk { ID : Z; HolderID : Z; EntityID : Z; Right_ : Right }.
End Grant.

(** Row of [team_members]. *)
Module TeamMember.
Record t : Type := mk { ID : Z; TeamID : Z; UserID : Z }.
End TeamMember.

(** The tables a session [s] answers from. *)
Record Session : Type :=
  mkSession {
      users : list User.t;
      namespaces : list Namespace.t;
      list_ : list List.t;
      unsplash_photos : list UnsplashPhoto.t;
      team_members : list TeamMember.t;
      team_namespaces : list Grant.t;
      team_list : list Grant.t;
      users_list : list Grant.t;
      users_namespace : list Grant.t
    }.

Inductive Error : Type :=
| ErrListDoesNotExist (ID : Z)
| ErrListIsArchived (ListID : Z)
| ErrNamespaceIsArchived (NamespaceID : Z)
| ErrUserDoesNotExist (UserID : Z).

(** A Go map filled from rows by key, a later row replacing an earlier one
    with the same key: the lookup finds the last row with the key. *)
Definition map_lookup {A : Type} (key : A -> Z) (rows : list A) (k : Z)
  : option A :=
  find (fun r => key r =? k) (rev rows).

(** [In(column, ids)]. *)
Definition in_ids (ids : list Z) (v : Z) : bool :=
  existsb (fun id => v =? id) ids.

(** *** The list model in [models/list_rights.go], from line 79 on *)

Module ListModel.

(** NamespaceList is a meta type to be able to join a list with its
    namespace. *)
Record NamespaceList : Type :=
  mkNamespaceList { List_ : List.t; Namespace_ : Namespace.t }.

(** Loading a joined row; the columns of a NULL namespace stay zero. *)
Definition scan_NamespaceList (row : List.t * option Namespace.t)
  : NamespaceList :=
  match row with
  | (l, Some n) => mkNamespaceList (List.scan l) n
  | (l, None) => mkNamespaceList (List.scan l) Namespace.zero
  end.

(** GetListSimpleByID gets a list with only the basic items, aka no tasks or
    user objects.  Returns an error if the list does not exist. *)
Definition GetListSimpleByID (s : Session) (listID : Z) : Error + List.t :=
  if listID <? 1 then inl (ErrListDoesNotExist listID)
  else
    match SQL.get (SQL.where_ (fun l => List.ID l =? listID) (list_ s)) with
    | Some row => inr (List.scan row)
    | None => inl (ErrListDoesNotExist listID)
    end.

(** addListDetails adds owner user objects and list tasks to all lists in
    the slice.  The lists are changed in place; the changed slice is the
    result. *)
Definition addListDetails (s : Session) (lists : list List.t) : list List.t :=
  match lists with
  | [] => lists
  | _ =>
      let ownerIDs := map List.OwnerID lists in
      (* Get all list owners *)
      let owners :=
        match ownerIDs with
        | [] => []
        | _ => SQL.where_ (fun u => in_ids ownerIDs (User.ID u)) (users s)
        end in
      let lists :=
        map
          (fun l =>
             let l :=
               match map_lookup User.ID owners (List.OwnerID l) with
               | Some o => List.with_Owner (Some o) l
               | None => l
               end in
             if negb (List.BackgroundFileID l =? 0)
             then List.with_BackgroundInformation
                    (BackgroundType (ListBackgroundType.mk ListBackgroundUpload)) l
             else l)
          lists in
      let fileIDs := map List.BackgroundFileID lists in
      match fileIDs with
      | [] => lists
      | _ =>
          (* Unsplash background file info *)
          let us :=
            SQL.where_ (fun u => in_ids fileIDs (UnsplashPhoto.FileID u))
              (unsplash_photos s) in
          (* Build it all into the lists slice *)
          map
            (fun l =>
               match map_lookup UnsplashPhoto.FileID us (List.BackgroundFileID l) with
               | Some u => List.with_BackgroundInformation (BackgroundUnsplash u) l
               | None => l
               end)
            lists
      end
  end.

(** The options of [getRawListsForUser]. *)
Record listOptions : Type :=
  mklistOptions {
      search : string;
      user : User.t;
      page : Z;
      perPage : Z;
      isArchived : bool
    }.

(** What [ReadAll] returns: an error, or the lists with [resultCount] and
    [totalItems]. *)
Definition ReadAllResult : Type := (Error + list List.t * Z * Z)%type.

Section ReadAll.

(** The listing for a user.  The query of [getRawListsForUser] (seven joins
    over the grant relations, a LIKE filter whose matching is the
    database's, GROUP BY and paging by [getLimitFromPageIndex], which is not
    under [src/]) is kept abstract: what is proved below holds for every
    such listing. *)
Variable getRawListsForUser : Session -> listOptions -> ReadAllResult.

(** ReadAll gets all lists a user has access to. *)
Definition ReadAll (l : List.t) (s : Session) (a : Auth) (search : string)
  (page perPage : Z) : ReadAllResult :=
  match a with
  | AuthLinkSharing shareAuth =>
      (* Check if we're dealing with a share auth *)
      match GetListSimpleByID s (LinkSharing.ListID shareAuth) with
      | inl err => inl err
      | inr list =>
          let lists := [list] in
          let lists := addListDetails s lists in
          inr (lists, 0, 0)
      end
  | AuthUser _ =>
      match
        getRawListsForUser s
          (mklistOptions search (User.mk (GetID a) "") page perPage
             (List.IsArchived l))
      with
      | inl err => inl err
      | inr (lists, resultCount, totalItems) =>
          (* Add more list details *)
          let lists := addListDetails s lists in
          inr (lists, resultCount, totalItems)
      end
  end.

End ReadAll.

(** Modelled from the spec: [Namespace.CheckIsArchived] is not under [src/].
    The spec has it check the namespace's archived bit, a list cannot be
    created under an archived namespace. *)
Definition Namespace_CheckIsArchived (s : Session) (n : Namespace.t)
  : option Error :=
  if SQL.exists_
       (SQL.where_
          (fun row => (Namespace.ID row =? Namespace.ID n) && Namespace.IsArchived row)
          (namespaces s))
  then Some (ErrNamespaceIsArchived (Namespace.ID n))
  else None.

(** The query of [CheckIsArchived]:
    [list LEFT JOIN namespaces ON list.namespace_id = namespaces.id
     WHERE list.id = ? AND (list.is_archived = true OR namespaces.is_archived = true)]. *)
Definition CheckIsArchived_rows (s : Session) (l : List.t)
  : list (List.t * option Namespace.t) :=
  SQL.where_
    (fun '(row, n) =>
       (List.ID row =? List.ID l)
       && (List.IsArchived row
           || match SQL.col Namespace.IsArchived n with
              | Some b => b
              | None => false
              end))
    (SQL.left_join (list_ s) (namespaces s)
       (fun row n => List.NamespaceID row =? Namespace.ID n)).

(** CheckIsArchived returns an ErrListIsArchived or ErrNamespaceIsArchived
    if the list or its namespace is archived. *)
Definition CheckIsArchived (s : Session) (l : List.t) : option Error :=
  (* When creating a new list, we check if the namespace is archived *)
  if List.ID l =? 0
  then Namespace_CheckIsArchived s
         (Namespace.mk (List.NamespaceID l) "" 0 false)
  else
    let rows := CheckIsArchived_rows s l in
    let exists_ := SQL.exists_ rows in
    let nl :=
      match SQL.get rows with
      | Some row => scan_NamespaceList row
      | None => mkNamespaceList List.zero Namespace.zero
      end in
    if exists_ && negb (List.ID (List_ nl) =? 0) && List.IsArchived (List_ nl)
    then Some (ErrListIsArchived (List.ID l))
    else if exists_ && negb (Namespace.ID (Namespace_ nl) =? 0)
            && Namespace.IsArchived (Namespace_ nl)
    then Some (ErrNamespaceIsArchived (Namespace.ID (Namespace_ nl)))
    else None.

(** Modelled from the spec: how a link share's right on a list is resolved
    is not under [src/].  The spec has it short-circuit to the share's stored
    right for its stored list and to None for every other list, without
    consulting the team and namespace grants. *)
Definition LinkShareEffectiveRight (share : LinkSharing.t) (l : List.t) : Right :=
  if List.ID l =? LinkSharing.ListID share
  then LinkSharing.Right_ share
  else RightNone.

(** **** The other lookups and writes of the list model *)

(** An error of this package, or one handed up from another package. *)
Inductive error : Type :=
| Err (e : Error)
| ErrListIdentifierIsNotUnique (Identifier : string)
| ErrOther (msg : string).

(** What a call ends in: it returns, or it panics. *)
Inductive Outcome (A : Type) : Type :=
| Returns (a : A)
| Panics.

Arguments Returns {A} a.
Arguments Panics {A}.

(** Row of [tasks], with the columns the queries of this file read. *)
Module Task.
Record t : Type := mk { ID : Z; Title : string; ListID : Z }.
End Task.

(** The declaration of [files.File] is not under [src/]; the field read
    here is its id. *)
Module File.
Record t : Type := mk { ID : Z; Name : string }.
End File.

(** A session together with the task table, for the functions that read or
    write tasks. *)
Record TaskSession : Type :=
  mkTaskSession { session : Session; tasks : list Task.t }.

(** The session with another list table. *)
Definition with_list_ (rows : list List.t) (s : Session) : Session :=
  mkSession (users s) (namespaces s) rows (unsplash_photos s)
    (team_members s) (team_namespaces s) (team_list s) (users_list s)
    (users_namespace s).

Definition with_BackgroundFileID (id : Z) (l : List.t) : List.t :=
  List.mk (List.ID l) (List.Title l) (List.Description l) (List.Identifier l)
    (List.HexColor l) (List.OwnerID l) (List.NamespaceID l) (List.Owner l)
    (List.IsArchived l) id (List.BackgroundInformation_ l) (List.IsFavorite l).

(** The query of [GetListSimplByTaskID]:
    [list INNER JOIN tasks ON list.id = tasks.list_id WHERE tasks.id = ?]. *)
Definition GetListSimplByTaskID_rows (s : TaskSession) (taskID : Z)
  : list (List.t * Task.t) :=
  SQL.where_ (fun '(_, t) => Task.ID t =? taskID)
    (SQL.inner_join (list_ (session s)) (tasks s)
       (fun l t => List.ID l =? Task.ListID t)).

(** GetListSimplByTaskID gets a list by a task id.  When the query finds
    nothing, the error to return is built from [l.ID] with [l] the result
    parameter, which is nil there: the call panics. *)
Definition GetListSimplByTaskID (s : TaskSession) (taskID : Z)
  : Outcome (List.t * option error) :=
  match SQL.get (GetListSimplByTaskID_rows s taskID) with
  | Some (row, _) => Returns (List.scan row, None)
  | None => Panics
  end.

(** GetListsByIDs returns a map of lists from a slice with list ids.  The
    map is given by the rows it is filled from, in order; [map_lookup] on
    [List.ID] is the lookup in it. *)
Definition GetListsByIDs (s : Session) (listIDs : list Z) : list List.t :=
  match listIDs with
  | [] => []
  | _ =>
      map List.scan
        (SQL.where_ (fun l => in_ids listIDs (List.ID l)) (list_ s))
  end.

(** The query of [GetListsByNamespaceID] for a namespace id other than -1:
    [list AS l LEFT JOIN namespaces n ON l.namespace_id = n.id
     WHERE l.is_archived = false AND n.is_archived = false
       AND namespace_id = ?]. *)
Definition GetListsByNamespaceID_rows (s : Session) (nID : Z)
  : list (List.t * option Namespace.t) :=
  SQL.where_
    (fun '(l, n) =>
       negb (List.IsArchived l)
       && match SQL.col Namespace.IsArchived n with
          | Some b => negb b
          | None => false
          end
       && (List.NamespaceID l =? nID))
    (SQL.left_join (list_ s) (namespaces s)
       (fun l n => List.NamespaceID l =? Namespace.ID n)).

Section GetListsByNamespaceID.

(** The listing for the pseudo namespace -1.  Its query selects [l.*] and
    joins on [l.id] from the table [list] without giving it the alias [l];
    what the database answers to that is kept abstract. *)
Variable sharedLists : Session -> User.t -> list List.t.

(** GetListsByNamespaceID gets all lists in a namespace. *)
Definition GetListsByNamespaceID (s : Session) (nID : Z) (doer : User.t)
  : list List.t :=
  let lists :=
    if nID =? -1
    then sharedLists s doer
    else map (fun '(l, _) => List.scan l) (GetListsByNamespaceID_rows s nID) in
  (* get more list details *)
  addListDetails s lists.

End GetListsByNamespaceID.

(** SetListBackground sets a background file as list background in the db:
    [UPDATE list SET background_file_id = ? WHERE id = ?]. *)
Definition SetListBackground (s : Session) (listID : Z) (background : File.t)
  : Session * option error :=
  let l :=
    List.mk listID "" "" "" "" 0 0 None false (File.ID background)
      NoBackgroundInformation false in
  (with_list_
     (map
        (fun row =>
           if List.ID row =? List.ID l
           then with_BackgroundFileID (List.BackgroundFileID l) row
           else row)
        (list_ s))
     s,
   None).

(** The events of this file; their declarations and [events.Dispatch] are
    not under [src/]. *)
Inductive Event : Type :=
| ListUpdatedEvent (l : List.t) (doer : Auth)
| ListCreatedEvent (l : List.t) (doer : User.t)
| ListDeletedEvent (l : List.t) (doer : Auth).

Section Delete.

(** [events.Dispatch]: it writes none of the tables of this model. *)
Variable Dispatch : Event -> option error.

(** Delete implements the delete method of CRUDable: the list is deleted by
    its id, then all tasks on that list. *)
Definition Delete (l : List.t) (s : TaskSession) (a : Auth)
  : TaskSession * option error :=
  (* Delete the list *)
  let s :=
    mkTaskSession
      (with_list_
         (filter (fun row => negb (List.ID row =? List.ID l))
            (list_ (session s)))
         (session s))
      (tasks s) in
  (* Delete all tasks on that list *)
  let s :=
    mkTaskSession (session s)
      (filter (fun t => negb (Task.ListID t =? List.ID l)) (tasks s)) in
  (s, Dispatch (ListDeletedEvent l a)).

End Delete.

(** **** Reading one list, creating and updating *)

(** A saved filter, with the fields [ReadOne] copies into the list. *)
Module SavedFilter.
Record t : Type := mk { Title : string; Description : string; OwnerID : Z }.
End SavedFilter.

(** What [ReadOne], [CreateOrUpdateList], [Update] and [Create] use of
    other files, none of it under [src/]: the id of
    [FavoritesPseudoNamespace]; the saved-filter helpers; the lookups of
    users, photos, subscriptions and namespaces, which read and do not
    write; the id the database gives an inserted list; [events.Dispatch],
    [user.GetFromAuth] and [Bucket.Create], which write none of the tables of
    this model. *)
Record Collaborators : Type :=
  mkCollaborators {
      FavoritesPseudoNamespaceID : Z;
      getSavedFilterIDFromListID : Z -> Z;
      getSavedFilterSimpleByID : Session -> Z -> error + SavedFilter.t;
      GetUserByID : Session -> Z -> option User.t * option error;
      GetUnsplashPhotoByFileID :
        Session -> Z -> option UnsplashPhoto.t * option error;
      IsErrFileIsNotUnsplashFile : error -> bool;
      GetSubscription : Session -> Z -> Auth -> option error;
      GetNamespaceByID : Session -> Z -> option error;
      lastInsertID : Session -> List.t -> Z;
      Dispatch : Event -> option error;
      GetFromAuth : Auth -> error + User.t;
      BucketCreate : Session -> Z -> Auth -> option error
    }.

(** FavoritesPseudoList holds all tasks marked as favorites. *)
Definition FavoritesPseudoList (c : Collaborators) : List.t :=
  List.mk (-1) "Favorites" "This list has all tasks marked as favorites." ""
    "" 0 (FavoritesPseudoNamespaceID c) None false 0 NoBackgroundInformation
    true.

Definition IsErrNamespaceIsArchived (err : error) : bool :=
  match err with
  | Err (ErrNamespaceIsArchived _) => true
  | _ => false
  end.

Definition IsErrListIsArchived (err : error) : bool :=
  match err with
  | Err (ErrListIsArchived _) => true
  | _ => false
  end.

Definition with_ID (id : Z) (l : List.t) : List.t :=
  List.mk id (List.Title l) (List.Description l) (List.Identifier l)
    (List.HexColor l) (List.OwnerID l) (List.NamespaceID l) (List.Owner l)
    (List.IsArchived l) (List.BackgroundFileID l) (List.BackgroundInformation_ l)
    (List.IsFavorite l).

Definition with_IsArchived (b : bool) (l : List.t) : List.t :=
  List.mk (List.ID l) (List.Title l) (List.Description l) (List.Identifier l)
    (List.HexColor l) (List.OwnerID l) (List.NamespaceID l) (List.Owner l)
    b (List.BackgroundFileID l) (List.BackgroundInformation_ l)
    (List.IsFavorite l).

(** The list with the owner id and the owner object set. *)
Definition with_owner (id : Z) (o : option User.t) (l : List.t) : List.t :=
  List.mk (List.ID l) (List.Title l) (List.Description l) (List.Identifier l)
    (List.HexColor l) id (List.NamespaceID l) o
    (List.IsArchived l) (List.BackgroundFileID l) (List.BackgroundInformation_ l)
    (List.IsFavorite l).

(** The list with title, description and owner id of a saved filter.  The
    two timestamps, which [ReadOne] copies as well, are not fields of the
    record. *)
Definition with_SavedFilter (sf : SavedFilter.t) (l : List.t) : List.t :=
  List.mk (List.ID l) (SavedFilter.Title sf) (SavedFilter.Description sf)
    (List.Identifier l) (List.HexColor l) (SavedFilter.OwnerID sf)
    (List.NamespaceID l) (List.Owner l) (List.IsArchived l)
    (List.BackgroundFileID l) (List.BackgroundInformation_ l)
    (List.IsFavorite l).

(** ReadOne gets one list by its ID.  The list is changed in place; the
    result is the list and the error.  Of [GetSubscription] the error is
    kept: [Subscription] is not a field of the record. *)
Definition ReadOne (c : Collaborators) (l : List.t) (s : Session) (a : Auth)
  : List.t * option error :=
  if List.ID l =? List.ID (FavoritesPseudoList c)
  then (* Already "built" the list in CanRead *) (l, None)
  else
    (* Check for saved filters *)
    match
      if 0 <? getSavedFilterIDFromListID c (List.ID l)
      then
        match
          getSavedFilterSimpleByID c s (getSavedFilterIDFromListID c (List.ID l))
        with
        | inl err => inl err
        | inr sf => inr (with_SavedFilter sf l)
        end
      else inr l
    with
    | inl err => (l, Some err)
    | inr l =>
        (* Get list owner *)
        let (owner, err) := GetUserByID c s (List.OwnerID l) in
        let l := List.with_Owner owner l in
        match err with
        | Some err => (l, Some err)
        | None =>
            (* Check if the namespace is archived and set the namespace to
               archived if it is not already archived individually. *)
            match
              if negb (List.IsArchived l)
              then
                match CheckIsArchived s l with
                | Some err =>
                    if negb (IsErrNamespaceIsArchived (Err err))
                       && negb (IsErrListIsArchived (Err err))
                    then inl (Err err)
                    else inr (with_IsArchived true l)
                | None => inr l
                end
              else inr l
            with
            | inl err => (l, Some err)
            | inr l =>
                (* Get any background information if there is one set *)
                match
                  if negb (List.BackgroundFileID l =? 0)
                  then
                    let (photo, err) :=
                      GetUnsplashPhotoByFileID c s (List.BackgroundFileID l) in
                    let l :=
                      List.with_BackgroundInformation
                        match photo with
                        | Some u => BackgroundUnsplash u
                        | None => NoBackgroundInformation
                        end
                        l in
                    match err with
                    | Some err =>
                        if negb (IsErrFileIsNotUnsplashFile c err)
                        then inl (l, err)
                        else
                          inr (List.with_BackgroundInformation
                                 (BackgroundType
                                    (ListBackgroundType.mk ListBackgroundUpload))
                                 l)
                    | None => inr l
                    end
                  else inr l
                with
                | inl (l, err) => (l, Some err)
                | inr l => (l, GetSubscription c s (List.ID l) a)
                end
            end
        end
    end.

(** The columns [CreateOrUpdateList] names in its update: title,
    is_archived, identifier, hex_color and is_favorite, and the description
    when the one of [list] is not empty. *)
Definition setListCols (list row : List.t) : List.t :=
  List.mk (List.ID row) (List.Title list)
    (if negb (String.eqb (List.Description list) "")
     then List.Description list
     else List.Description row)
    (List.Identifier list) (List.HexColor list) (List.OwnerID row)
    (List.NamespaceID row) (List.Owner row) (List.IsArchived list)
    (List.BackgroundFileID row) (List.BackgroundInformation_ row)
    (List.IsFavorite list).

(** CreateOrUpdateList updates a list or creates it if it doesn't exist.
    The result is the store, the list [list] points to, and the error. *)
Definition CreateOrUpdateList (c : Collaborators) (s : Session)
  (list : List.t) (auth : Auth) : Session * List.t * option error :=
  (* Check if the namespace exists *)
  match
    if negb (List.NamespaceID list =? 0)
       && negb (List.NamespaceID list =? FavoritesPseudoNamespaceID c)
    then GetNamespaceByID c s (List.NamespaceID list)
    else None
  with
  | Some err => (s, list, Some err)
  | None =>
      (* Check if the identifier is unique and not empty *)
      if negb (String.eqb (List.Identifier list) "")
         && SQL.exists_
              (SQL.where_
                 (fun row =>
                    String.eqb (List.Identifier row) (List.Identifier list)
                    && negb (List.ID row =? List.ID list))
                 (list_ s))
      then (s, list, Some (ErrListIdentifierIsNotUnique (List.Identifier list)))
      else
        let (s, list) :=
          if List.ID list =? 0
          then
            let list := with_ID (lastInsertID c s list) list in
            (with_list_ (list_ s ++ [List.scan list]) s, list)
          else
            (with_list_
               (map
                  (fun row =>
                     if List.ID row =? List.ID list
                     then setListCols list row
                     else row)
                  (list_ s))
               s,
             list) in
        match GetListSimpleByID s (List.ID list) with
        | inl err => (s, list, Some (Err err))
        | inr l =>
            let list := l in
            let (list, err) := ReadOne c list s auth in
            (s, list, err)
        end
  end.

(** Update implements the update method of CRUDable. *)
Definition Update (c : Collaborators) (l : List.t) (s : Session) (a : Auth)
  : Session * List.t * option error :=
  match CreateOrUpdateList c s l a with
  | (s, l, Some err) => (s, l, Some err)
  | (s, l, None) => (s, l, Dispatch c (ListUpdatedEvent l a))
  end.

(** Create implements the create method of CRUDable. *)
Definition Create (c : Collaborators) (l : List.t) (s : Session) (a : Auth)
  : Session * List.t * option error :=
  match CheckIsArchived s l with
  | Some err => (s, l, Some (Err err))
  | None =>
      match GetFromAuth c a with
      | inl err => (s, l, Some err)
      | inr doer =>
          let l := with_owner (User.ID doer) (Some doer) l in
          (* Otherwise only the first time a new list would be created *)
          let l := with_ID 0 l in
          match CreateOrUpdateList c s l a with
          | (s, l, Some err) => (s, l, Some err)
          | (s, l, None) =>
              (* Create a new first bucket for this list *)
              match BucketCreate c s (List.ID l) a with
              | Some err => (s, l, Some err)
              | None => (s, l, Dispatch c (ListCreatedEvent l doer))
              end
          end
      end
  end.

End ListModel.

(** *** [pkg/models/list_tasks_create_update.go] *)

Module ListTask.

(** The fields of [ListTask] that this file reads or writes. *)
Record t : Type :=
  mk {
      ID : Z;
      Text : string;
      Description : string;
      Done : bool;
      DoneAtUnix : Z;
      DueDateUnix : Z;
      RemindersUnix : list Z;
      CreatedByID : Z;
      ListID : Z;
      RepeatAfter : Z;
      ParentTaskID : Z;
      Priority : Z;
      StartDateUnix : Z;
      EndDateUnix : Z;
      HexColor : string;
      UID : string;
      CreatedBy : User.t;
      Assignees : list User.t
    }.

Definition zero : t :=
  mk 0 "" "" false 0 0 [] 0 0 0 0 0 0 0 "" "" User.zero [].

End ListTask.

Module ListTasks.

Import ListTask.

Inductive Error : Type :=
| ErrListTaskDoesNotExist (ID : Z)
| ErrParentTaskCannotBeTheSame (TaskID : Z)
| ErrAssignees (code : Z).

(** The table the engine [x] answers from. *)
Record Engine : Type := mkEngine { tasks : list ListTask.t }.

(** Modelled from the spec: [GetTaskByID] is not under [src/]; like the
    spec's other lookups by id it answers the stored entity or not-found. *)
Definition GetTaskByID (x : Engine) (id : Z) : ListTask.t * option Error :=
  match find (fun row => ID row =? id) (tasks x) with
  | Some row => (row, None)
  | None => (ListTask.zero, Some (ErrListTaskDoesNotExist id))
  end.

(** [mergo.Merge] with [mergo.WithOverride], field by field: a source value
    that is not the zero value of its type replaces the destination's. *)
Definition merge_int (dst src : Z) : Z := if src =? 0 then dst else src.

Definition merge_bool (dst src : bool) : bool := if src then src else dst.

Definition merge_string (dst src : string) : string :=
  if String.eqb src "" then dst else src.

Definition merge_slice {A : Type} (dst src : list A) : list A :=
  match src with
  | [] => dst
  | _ => src
  end.

Definition merge_User (dst src : User.t) : User.t :=
  User.mk (merge_int (User.ID dst) (User.ID src))
    (merge_string (User.Username dst) (User.Username src)).

Definition Merge (dst src : ListTask.t) : ListTask.t :=
  mk (merge_int (ID dst) (ID src))
    (merge_string (Text dst) (Text src))
    (merge_string (Description dst) (Description src))
    (merge_bool (Done dst) (Done src))
    (merge_int (DoneAtUnix dst) (DoneAtUnix src))
    (merge_int (DueDateUnix dst) (DueDateUnix src))
    (merge_slice (RemindersUnix dst) (RemindersUnix src))
    (merge_int (CreatedByID dst) (CreatedByID src))
    (merge_int (ListID dst) (ListID src))
    (merge_int (RepeatAfter dst) (RepeatAfter src))
    (merge_int (ParentTaskID dst) (ParentTaskID src))
    (merge_int (Priority dst) (Priority src))
    (merge_int (StartDateUnix dst) (StartDateUnix src))
    (merge_int (EndDateUnix dst) (EndDateUnix src))
    (merge_string (HexColor dst) (HexColor src))
    (merge_string (UID dst) (UID src))
    (merge_User (CreatedBy dst) (CreatedBy src))
    (merge_slice (Assignees dst) (Assignees src)).

Definition with_Done (b : bool) (t : ListTask.t) : ListTask.t :=
  mk (ID t) (Text t) (Description t) b (DoneAtUnix t) (DueDateUnix t)
    (RemindersUnix t) (CreatedByID t) (ListID t) (RepeatAfter t)
    (ParentTaskID t) (Priority t) (StartDateUnix t) (EndDateUnix t)
    (HexColor t) (UID t) (CreatedBy t) (Assignees t).

Definition with_DoneAtUnix (v : Z) (t : ListTask.t) : ListTask.t :=
  mk (ID t) (Text t) (Description t) (Done t) v (DueDateUnix t)
    (RemindersUnix t) (CreatedByID t) (ListID t) (RepeatAfter t)
    (ParentTaskID t) (Priority t) (StartDateUnix t) (EndDateUnix t)
    (HexColor t) (UID t) (CreatedBy t) (Assignees t).

Definition with_DueDateUnix (v : Z) (t : ListTask.t) : ListTask.t :=
  mk (ID t) (Text t) (Description t) (Done t) (DoneAtUnix t) v
    (RemindersUnix t) (CreatedByID t) (ListID t) (RepeatAfter t)
    (ParentTaskID t) (Priority t) (StartDateUnix t) (EndDateUnix t)
    (HexColor t) (UID t) (CreatedBy t) (Assignees t).

Definition with_RemindersUnix (v : list Z) (t : ListTask.t) : ListTask.t :=
  mk (ID t) (Text t) (Description t) (Done t) (DoneAtUnix t) (DueDateUnix t)
    v (CreatedByID t) (ListID t) (RepeatAfter t)
    (ParentTaskID t) (Priority t) (StartDateUnix t) (EndDateUnix t)
    (HexColor t) (UID t) (CreatedBy t) (Assignees t).

(** This helper function updates the reminders and doneAtUnix of the *old*
    task (since that's the one we're inserting with updated values into the
    db).  Both tasks are changed in place; the result is the pair of them.
    [now] is [time.Now().Unix()]. *)
Definition updateDone (now : Z) (oldTask newTask : ListTask.t)
  : ListTask.t * ListTask.t :=
  let '(oldTask, newTask) :=
    if negb (Done oldTask) && Done newTask && (0 <? RepeatAfter oldTask)
    then
      let oldTask :=
        with_DueDateUnix
          (Int64.add (DueDateUnix oldTask) (RepeatAfter oldTask)) oldTask in
      let oldTask :=
        with_RemindersUnix
          (map (fun r => Int64.add r (RepeatAfter oldTask))
             (RemindersUnix oldTask))
          oldTask in
      (oldTask, with_Done false newTask)
    else (oldTask, newTask) in
  (* Update the "done at" timestamp *)
  let oldTask :=
    if negb (Done oldTask) && Done newTask
    then with_DoneAtUnix now oldTask
    else oldTask in
  (* When unmarking a task as done, reset the timestamp *)
  let oldTask :=
    if Done oldTask && negb (Done newTask)
    then with_DoneAtUnix 0 oldTask
    else oldTask in
  (oldTask, newTask).

(** The explicit resets of [Update]: what the incoming task [t] has at its
    zero value is set to the zero value in [ot]. *)
Definition resetZeroValues (t ot : ListTask.t) : ListTask.t :=
  mk (ID ot) (Text ot)
    (if String.eqb (Description t) "" then "" else Description ot)
    (if negb (Done t) then false else Done ot)
    (DoneAtUnix ot)
    (if DueDateUnix t =? 0 then 0 else DueDateUnix ot)
    (if Z.of_nat (Datatypes.length (RemindersUnix t)) =? 0 then [] else RemindersUnix ot)
    (CreatedByID ot) (ListID ot)
    (if RepeatAfter t =? 0 then 0 else RepeatAfter ot)
    (if ParentTaskID t =? 0 then 0 else ParentTaskID ot)
    (if Priority t =? 0 then 0 else Priority ot)
    (if StartDateUnix t =? 0 then 0 else StartDateUnix ot)
    (if EndDateUnix t =? 0 then 0 else EndDateUnix ot)
    (if String.eqb (HexColor t) "" then "" else HexColor ot)
    (UID ot) (CreatedBy ot) (Assignees ot).

(** The columns named in [Cols(...)] of the row are set from [ot]. *)
Definition setCols (ot row : ListTask.t) : ListTask.t :=
  mk (ID row) (Text ot) (Description ot) (Done ot) (DoneAtUnix ot)
    (DueDateUnix ot) (RemindersUnix ot) (CreatedByID row) (ListID row)
    (RepeatAfter ot) (ParentTaskID ot) (Priority ot) (StartDateUnix ot)
    (EndDateUnix ot) (HexColor ot) (UID row) (CreatedBy row) (Assignees row).

(** [x.ID(id).Cols(...).Update(ot)]. *)
Definition UpdateCols (x : Engine) (id : Z) (ot : ListTask.t) : Engine :=
  mkEngine (map (fun row => if ID row =? id then setCols ot row else row) (tasks x)).

(** [updateListLastUpdated] sets the [updated] column of the list, a
    timestamp, which no table of this model holds. *)
Definition updateListLastUpdated (x : Engine) (listID : Z)
  : Engine * option Error :=
  (x, None).

Section Update.

(** [updateTaskAssignees] is not under [src/].  It writes the assignee
    relation, which no table of this model holds, and may change its
    receiver. *)
Variable updateTaskAssignees :
  ListTask.t -> list User.t -> ListTask.t * option Error.

(** [time.Now().Unix()] at the call. *)
Variable now : Z.

(** Update updates a list task.  The result is the store, the task [t]
    points to, and the error. *)
Definition Update (x : Engine) (t : ListTask.t)
  : Engine * ListTask.t * option Error :=
  (* Check if the task exists *)
  match GetTaskByID x (ID t) with
  | (_, Some err) => (x, t, Some err)
  | (ot, None) =>
      (* Parent task cannot be the same as the current task *)
      if ID t =? ParentTaskID t
      then (x, t, Some (ErrParentTaskCannotBeTheSame (ID t)))
      else
        (* When a repeating task is marked as done, we update all deadlines
           and reminders and set it as undone *)
        let '(ot, t) := updateDone now ot t in
        (* Update the assignees *)
        match updateTaskAssignees ot (Assignees t) with
        | (_, Some err) => (x, t, Some err)
        | (ot, None) =>
            let ot := Merge ot t in
            let ot := resetZeroValues t ot in
            let x := UpdateCols x (ID t) ot in
            let t := ot in
            let '(x, err) := updateListLastUpdated x (ListID t) in
            (x, t, err)
        end
  end.

End Update.

End ListTasks.

End PkgModels.

(** ** What the rights queries select, in words of the store *)

Module Selected.
Import Models.

(** The user owns a namespace, whichever. *)
Definition owns_some_namespace (x : Engine) (user : User.t) : Prop :=
  exists ns,
    In ns (namespaces x) /\ Namespace.OwnerID ns = User.ID user.

(** The user is a member of a team that holds exactly the right [r] on the
    namespace with id [nsID]. *)
Definition team_grant_on_namespace (x : Engine) (user : User.t)
  (r : TeamRight) (nsID : Z) : Prop :=
  exists tn tm,
    In tn (team_namespaces x) /\ In tm (team_members x)
    /\ TeamNamespace.NamespaceID tn = nsID
    /\ TeamNamespace.TeamID tn = TeamMember.TeamID tm
    /\ TeamMember.UserID tm = User.ID user
    /\ TeamNamespace.Right tn = r.

(** The user is a member of a team that holds exactly the right [r] in a row
    of [team_namespaces] whose namespace id equals the row's own id. *)
Definition team_grant_in_self_numbered_row (x : Engine) (user : User.t)
  (r : TeamRight) : Prop :=
  exists tn tm,
    In tn (team_namespaces x) /\ In tm (team_members x)
    /\ TeamNamespace.NamespaceID tn = TeamNamespace.ID tn
    /\ TeamNamespace.TeamID tn = TeamMember.TeamID tm
    /\ TeamMember.UserID tm = User.ID user
    /\ TeamNamespace.Right tn = r.

(** The user is a member of a team that holds exactly the right [r] on the
    list with id [listID]. *)
Definition team_grant_on_list (x : Engine) (user : User.t) (r : TeamRight)
  (listID : Z) : Prop :=
  exists tl tm,
    In tl (team_list x) /\ In tm (team_members x)
    /\ TeamList.ListID tl = listID
    /\ TeamList.TeamID tl = TeamMember.TeamID tm
    /\ TeamMember.UserID tm = User.ID user
    /\ TeamList.Rights tl = r.

End Selected.

(** ** What is stored, in words of the store *)

Module Stored.
Import PkgModels.

(** Exactly one stored list has the id [id], and it is [row]. *)
Definition list_row (s : Session) (id : Z) (row : List.t) : Prop :=
  filter (fun r => List.ID r =? id) (list_ s) = [row].

(** At most one stored namespace has the id [id]: [n] when [Some n], none
    when [None]. *)
Definition namespace_row (s : Session) (id : Z) (n : option Namespace.t)
  : Prop :=
  filter (fun r => id =? Namespace.ID r) (namespaces s)
  = match n with
    | Some r => [r]
    | None => []
    end.

(** A stored namespace with the id [id] is archived. *)
Definition namespace_archived (s : Session) (id : Z) : bool :=
  existsb (fun r => (Namespace.ID r =? id) && Namespace.IsArchived r)
    (namespaces s).

(** The fields [Update] resets: where [incoming] has the zero value,
    [stored] has it too. *)
Definition cleared_where_zero (incoming stored : ListTask.t) : Prop :=
  (ListTask.Done incoming = false -> ListTask.Done stored = false)
  /\ (ListTask.Priority incoming = 0 -> ListTask.Priority stored = 0)
  /\ (ListTask.Description incoming = ""%string
      -> ListTask.Description stored = ""%string)
  /\ (ListTask.DueDateUnix incoming = 0 -> ListTask.DueDateUnix stored = 0)
  /\ (ListTask.RemindersUnix incoming = []
      -> ListTask.RemindersUnix stored = [])
  /\ (ListTask.RepeatAfter incoming = 0 -> ListTask.RepeatAfter stored = 0)
  /\ (ListTask.ParentTaskID incoming = 0 -> ListTask.ParentTaskID stored = 0)
  /\ (ListTask.StartDateUnix incoming = 0 -> ListTask.StartDateUnix stored = 0)
  /\ (ListTask.EndDateUnix incoming = 0 -> ListTask.EndDateUnix stored = 0)
  /\ (ListTask.HexColor incoming = ""%string
      -> ListTask.HexColor stored = ""%string).

(** The stored rows with the id [id]. *)
Definition task_rows (x : ListTasks.Engine) (id : Z) : list ListTask.t :=
  filter (fun row => ListTask.ID row =? id) (ListTasks.tasks x).

End Stored.

(** ** Stores and inputs used in the examples below *)

Module Fixtures.

Module Rights.
Import Models.

Definition alice : User.t := User.mk 1 "alice".
Definition bob : User.t := User.mk 2 "bob".
Definition carol : User.t := User.mk 3 "carol".

(** Stored rows carry no owner object. *)
Definition work_row : Namespace.t := Namespace.mk 1 "work" 1 User.zero.
Definition home_row : Namespace.t := Namespace.mk 2 "home" 2 User.zero.

(** The namespace "work" as loaded, owned by alice. *)
Definition work : Namespace.t := Namespace.mk 1 "work" 1 alice.

(** Two namespaces, one owned by alice and one by bob; no teams. *)
Definition x_two_owners : Engine :=
  mkEngine [alice; bob; carol] [work_row; home_row] [] [] [] [].

(** Team 5, of which carol is the only member, is admin of "home" only. *)
Definition x_grant_elsewhere : Engine :=
  mkEngine [alice; bob; carol] [work_row; home_row] []
    [TeamNamespace.mk 1 5 2 TeamRightAdmin]
    [TeamMember.mk 1 5 3]
    [].

(** Namespace "work" is owned by alice; team 5 has Write on it; bob is the
    sole member of team 5. *)
Definition x_write_team : Engine :=
  mkEngine [alice; bob] [work_row] []
    [TeamNamespace.mk 1 5 1 TeamRightWrite]
    [TeamMember.mk 1 5 2]
    [].

(** The lists "groceries" (alice's) and "chores" (carol's) as loaded, both in
    "work". *)
Definition groceries : List.t := List.mk 1 "groceries" 1 1 alice.
Definition chores : List.t := List.mk 2 "chores" 3 1 carol.

(** Namespace "work" is owned by alice and holds both lists; team 5 is admin
    of "work" through the seventh row of [team_namespaces]; bob is the sole
    member of team 5. *)
Definition x_admin_team : Engine :=
  mkEngine [alice; bob; carol] [work_row]
    [List.mk 1 "groceries" 1 1 User.zero; List.mk 2 "chores" 3 1 User.zero]
    [TeamNamespace.mk 7 5 1 TeamRightAdmin]
    [TeamMember.mk 1 5 2]
    [].

(** Dave is in no team and owns nothing. *)
Definition dave : User.t := User.mk 4 "dave".

(** A namespace and a list object that name an id no row has. *)
Definition missing_namespace : Namespace.t := Namespace.mk 99 "" 0 User.zero.
Definition missing_list : List.t := List.mk 99 "" 0 0 User.zero.

(** A list object naming list 1 with forged owner and namespace. *)
Definition forged_groceries : List.t := List.mk 1 "mine" 2 42 bob.

End Rights.

Module Lists.
Import PkgModels.

Definition alice : User.t := User.mk 1 "alice".

Definition mkList (id : Z) (title : string) (owner ns : Z) (archived : bool)
  (file : Z) : List.t :=
  List.mk id title "" "" "" owner ns None archived file
    NoBackgroundInformation false.

(** Namespace 1 is archived, namespace 2 is not; list 1 lies in the archived
    namespace, lists 2 and 3 are archived themselves, list 4 is not. *)
Definition s_archive : Session :=
  mkSession [alice]
    [Namespace.mk 1 "old" 1 true; Namespace.mk 2 "new" 1 false]
    [mkList 1 "in old" 1 1 false 0;
     mkList 2 "done" 1 2 true 4;
     mkList 3 "done in old" 1 1 true 0;
     mkList 4 "open" 1 2 false 0]
    [UnsplashPhoto.mk 1 4 "photo" "someone"]
    [] [] [] [] [].

(** The same lists, users and photos, with grants on every list. *)
Definition s_archive_granted : Session :=
  mkSession (users s_archive) [] (list_ s_archive) (unsplash_photos s_archive)
    [TeamMember.mk 1 5 1]
    [Grant.mk 1 5 1 RightAdmin; Grant.mk 2 5 2 RightAdmin]
    [Grant.mk 1 5 4 RightAdmin]
    [Grant.mk 1 1 4 RightAdmin]
    [Grant.mk 1 1 2 RightAdmin].

(** A share bound to list 2. *)
Definition share_of_2 : LinkSharing.t := LinkSharing.mk 1 "token" 2 RightRead.

(** A new list for namespace 1, and list objects naming stored lists. *)
Definition new_in_old : List.t := mkList 0 "fresh" 1 1 false 0.
Definition list_1 : List.t := mkList 1 "" 0 0 false 0.
Definition list_2 : List.t := mkList 2 "" 0 0 false 0.
Definition list_3 : List.t := mkList 3 "" 0 0 false 0.
Definition list_4 : List.t := mkList 4 "" 0 0 false 0.

End Lists.

Module Tasks.
Import PkgModels.
Import ListTasks.

(** A task repeating every 60 seconds, not done, due at 1000. *)
Definition stored : ListTask.t :=
  ListTask.mk 1 "water the plants" "all of them" false 0 1000 [900; 950] 7 3
    60 0 2 10 20 "ff0000" "uid" (User.mk 7 "gardener") [].

Definition x : Engine := mkEngine [stored].

(** The task as the client sends it back, marked done. *)
Definition marked_done : ListTask.t :=
  ListTask.mk 1 "water the plants" "all of them" true 0 1000 [900; 950] 0 0
    60 0 2 10 20 "ff0000" "" User.zero [].

(** An incoming task with only the id and text set. *)
Definition bare : ListTask.t :=
  ListTask.mk 1 "water" "" false 0 0 [] 0 0 0 0 0 0 0 "" "" User.zero [].

(** A helper that changes nothing and does not fail. *)
Definition keepAssignees (ot : ListTask.t) (assignees : list User.t)
  : ListTask.t * option Error :=
  (ot, None).

Definition now : Z := 5000.

(** What [bare] leaves of the stored task. *)
Definition bared : ListTask.t :=
  ListTask.mk 1 "water" "" false 0 0 [] 7 3 0 0 0 0 0 "" "uid"
    (User.mk 7 "gardener") [].

End Tasks.

End Fixtures.

(** ** Words for the further properties *)

Module Grown.
Import Models.

(** Every row of [x] is a row of [x']: [x'] is [x] with more users,
    namespaces, lists, grants or memberships. *)
Definition Engine_incl (x x' : Engine) : Prop :=
  incl (users x) (users x')
  /\ incl (namespaces x) (namespaces x')
  /\ incl (list_ x) (list_ x')
  /\ incl (team_namespaces x) (team_namespaces x')
  /\ incl (team_members x) (team_members x')
  /\ incl (team_list x) (team_list x').

End Grown.

Module Detailed.
Import PkgModels.
Import ListModel.

(** The owner [addListDetails] leaves in a list: the last stored user with
    the list's owner id, the owner the list came with when there is none. *)
Definition owner_of (s : Session) (l : List.t) : option User.t :=
  match map_lookup User.ID (users s) (List.OwnerID l) with
  | Some o => Some o
  | None => List.Owner l
  end.

(** The background information [addListDetails] leaves in a list: the last
    stored photo of the list's background file; without one, the upload type
    when the list has a background file, and what the list came with when it
    has none. *)
Definition background_of (s : Session) (l : List.t) : BackgroundInformation :=
  match
    map_lookup UnsplashPhoto.FileID (unsplash_photos s) (List.BackgroundFileID l)
  with
  | Some u => BackgroundUnsplash u
  | None =>
      if List.BackgroundFileID l =? 0
      then List.BackgroundInformation_ l
      else BackgroundType (ListBackgroundType.mk ListBackgroundUpload)
  end.

(** The first loop body of [addListDetails], for the owner ids asked for. *)
Definition addOwner (s : Session) (ownerIDs : list Z) (l : List.t) : List.t :=
  let l :=
    match
      map_lookup User.ID
        (SQL.where_ (fun u => in_ids ownerIDs (User.ID u)) (users s))
        (List.OwnerID l)
    with
    | Some o => List.with_Owner (Some o) l
    | None => l
    end in
  if negb (List.BackgroundFileID l =? 0)
  then List.with_BackgroundInformation
         (BackgroundType (ListBackgroundType.mk ListBackgroundUpload)) l
  else l.

(** Its last loop body, for the file ids asked for. *)
Definition addPhoto (s : Session) (fileIDs : list Z) (l : List.t) : List.t :=
  match
    map_lookup UnsplashPhoto.FileID
      (SQL.where_ (fun u => in_ids fileIDs (UnsplashPhoto.FileID u))
         (unsplash_photos s))
      (List.BackgroundFileID l)
  with
  | Some u => List.with_BackgroundInformation (BackgroundUnsplash u) l
  | None => l
  end.

(** The list with its details. *)
Definition detailed (s : Session) (l : List.t) : List.t :=
  List.with_BackgroundInformation (background_of s l)
    (List.with_Owner (owner_of s l) l).

(** The rows of the task table that [Update] may rewrite are those with the
    id [id]; these are the others. *)
Definition other_task_rows (x : ListTasks.Engine) (id : Z) : list ListTask.t :=
  filter (fun row => negb (ListTask.ID row =? id)) (ListTasks.tasks x).


(** The fields of a task that [Update] takes from the incoming task as they
    are and that [updateDone] does not touch. *)
Definition same_plain_fields (incoming stored : ListTask.t) : Prop :=
  ListTask.Priority stored = ListTask.Priority incoming
  /\ ListTask.Description stored = ListTask.Description incoming
  /\ ListTask.RepeatAfter stored = ListTask.RepeatAfter incoming
  /\ ListTask.ParentTaskID stored = ListTask.ParentTaskID incoming
  /\ ListTask.StartDateUnix stored = ListTask.StartDateUnix incoming
  /\ ListTask.EndDateUnix stored = ListTask.EndDateUnix incoming
  /\ ListTask.HexColor stored = ListTask.HexColor incoming.

End Detailed.

Module ListInvariants.
Import PkgModels.
Import ListModel.

(** No two stored lists with different ids have the same non-empty
    identifier. *)
Definition identifiers_unique (s : Session) : Prop :=
  forall r1 r2,
    In r1 (list_ s) -> In r2 (list_ s) ->
    List.Identifier r1 <> ""%string ->
    List.Identifier r1 = List.Identifier r2 ->
    List.ID r1 = List.ID r2.

(** No stored list has the id 0, which stands for a list not yet created. *)
Definition ids_nonzero (s : Session) : Prop :=
  forall row, In row (list_ s) -> List.ID row <> 0.

(** What an update may not change of a stored list: its id, owner,
    namespace and background file; nothing at all of a list with another id
    than [id]; and the description when [description] is empty. *)
Definition kept_by_update (id : Z) (description : string) (row row' : List.t)
  : Prop :=
  List.ID row' = List.ID row
  /\ List.OwnerID row' = List.OwnerID row
  /\ List.NamespaceID row' = List.NamespaceID row
  /\ List.BackgroundFileID row' = List.BackgroundFileID row
  /\ (List.ID row <> id -> row' = row)
  /\ (description = ""%string -> List.Description row' = List.Description row).

(** The columns an update writes: [row] has them from [list]. *)
Definition written_by_update (list row : List.t) : Prop :=
  List.Title row = List.Title list
  /\ List.IsArchived row = List.IsArchived list
  /\ List.Identifier row = List.Identifier list
  /\ List.HexColor row = List.HexColor list
  /\ List.IsFavorite row = List.IsFavorite list
  /\ (List.Description list <> ""%string
      -> List.Description row = List.Description list).

(** The stored lists with the id [id]. *)
Definition list_rows (s : Session) (id : Z) : list List.t :=
  filter (fun row => List.ID row =? id) (list_ s).

(** The list table of [s'] is the one of [s] with one more row at its end,
    which has the doer of [a] as owner and the namespace, title,
    description, identifier and archived flag of [l]. *)
Definition one_list_created (c : Collaborators) (l : List.t) (s : Session)
  (a : Auth) (s' : Session) : Prop :=
  exists doer row,
    GetFromAuth c a = inr doer
    /\ list_ s' = list_ s ++ [row]
    /\ List.OwnerID row = User.ID doer
    /\ List.NamespaceID row = List.NamespaceID l
    /\ List.Title row = List.Title l
    /\ List.Description row = List.Description l
    /\ List.Identifier row = List.Identifier l
    /\ List.IsArchived row = List.IsArchived l.

(** The tables of the session other than the list table are the same in
    [s] and [s']. *)
Definition same_other_tables (s s' : Session) : Prop :=
  users s' = users s
  /\ namespaces s' = namespaces s
  /\ unsplash_photos s' = unsplash_photos s
  /\ team_members s' = team_members s
  /\ team_namespaces s' = team_namespaces s
  /\ team_list s' = team_list s
  /\ users_list s' = users_list s
  /\ users_namespace s' = users_namespace s.

End ListInvariants.

(** ** More stores and inputs for the examples *)

Module MoreFixtures.

Module Rights.
Import Models.
Import Fixtures.Rights.

(** [x_write_team] with carol, the namespace "home", the list "groceries",
    and team 6, of which carol is the only member, holding Read on "home"
    and on "groceries". *)
Definition x_write_team_grown : Engine :=
  mkEngine [alice; bob; carol] [work_row; home_row]
    [List.mk 1 "groceries" 1 1 User.zero]
    [TeamNamespace.mk 1 5 1 TeamRightWrite; TeamNamespace.mk 2 6 2 TeamRightRead]
    [TeamMember.mk 1 5 2; TeamMember.mk 2 6 3]
    [TeamList.mk 1 6 1 TeamRightRead].

(** A namespace object naming namespace 1 with dave as its owner. *)
Definition forged_work : Namespace.t := Namespace.mk 1 "mine" 4 dave.

(** A list object for namespace 1 with forged owner fields. *)
Definition forged_new_list : List.t := List.mk 0 "new" 4 1 dave.
Definition honest_new_list : List.t := List.mk 0 "new" 0 1 User.zero.

End Rights.

Module Lists.
Import PkgModels.
Import ListModel.

Definition erin : User.t := User.mk 5 "erin".

(** Collaborators for the examples: no saved filters, users looked up in
    the user table, no photos, no subscriptions, every namespace of the
    namespace table known, the next free id for an inserted list, and
    nothing that fails in dispatching, in reading the doer or in creating
    the bucket. *)
Definition plain : Collaborators :=
  mkCollaborators (-2)
    (fun _ => 0)
    (fun _ _ => inl (ErrOther "no saved filter"))
    (fun s id =>
       match find (fun u => User.ID u =? id) (users s) with
       | Some u => (Some u, None)
       | None => (None, Some (ErrOther "no such user"))
       end)
    (fun _ _ => (None, Some (ErrOther "not an unsplash file")))
    (fun _ => true)
    (fun _ _ _ => None)
    (fun s id =>
       if existsb (fun n => Namespace.ID n =? id) (namespaces s)
       then None
       else Some (ErrOther "no such namespace"))
    (fun s _ => 1 + fold_right Z.max 0 (map List.ID (list_ s)))
    (fun _ => None)
    (fun a =>
       match a with
       | AuthUser u => inr u
       | AuthLinkSharing _ => inl (ErrOther "not a user")
       end)
    (fun _ _ _ => None).

Definition mkListI (id : Z) (title identifier description : string)
  (owner ns : Z) (archived : bool) : List.t :=
  List.mk id title description identifier "" owner ns None archived 0
    NoBackgroundInformation false.

(** Erin owns namespace 1 with the lists "inbox" (identifier IN) and
    "later" (identifier LT); namespace 2 is archived. *)
Definition s_lists : Session :=
  mkSession [erin]
    [Namespace.mk 1 "erin's" 5 false; Namespace.mk 2 "attic" 5 true]
    [mkListI 1 "inbox" "IN" "what comes in" 5 1 false;
     mkListI 2 "later" "LT" "" 5 1 false]
    [] [] [] [] [] [].

(** List 1 as a caller sends it for an update: a new title, no description,
    and an owner and a namespace of the caller's choosing. *)
Definition inbox_renamed : List.t :=
  mkListI 1 "in" "IN" "" 77 2 false.

(** What is stored for list 1 after that update. *)
Definition inbox_after : List.t :=
  mkListI 1 "in" "IN" "what comes in" 5 1 false.

(** List 2 sent with the identifier of list 1. *)
Definition later_as_inbox : List.t :=
  mkListI 2 "later" "IN" "" 5 1 false.

(** A list for the archived namespace 2, and one for namespace 1 that
    carries the id of the stored list 1. *)
Definition for_attic : List.t := mkListI 0 "old things" "" "" 0 2 false.
Definition next_list : List.t := mkListI 1 "next" "NX" "" 0 1 false.

(** The row [Create] stores for [next_list] when erin is the doer. *)
Definition next_row : List.t := mkListI 3 "next" "NX" "" 5 1 false.

End Lists.

End MoreFixtures.

(** ** Facts on query evaluation *)

Section QueryFacts.
Context {A B : Type}.

Lemma exists_iff_nonempty (rows : list A) :
  SQL.exists_ rows = true <-> exists r, In r rows.
Proof.
  destruct rows as [|r rows]; cbn.
  - split; [discriminate | intros [r []]].
  - split; [exists r; now left | reflexivity].
Qed.

Lemma exists_where (cond : A -> bool) (rows : list A) :
  SQL.exists_ (SQL.where_ cond rows) = existsb cond rows.
Proof.
  unfold SQL.where_.
  induction rows as [|r rows IH]; cbn; [reflexivity|].
  destruct (cond r); cbn; [reflexivity | exact IH].
Qed.

Lemma exists_where_iff (cond : A -> bool) (rows : list A) :
  SQL.exists_ (SQL.where_ cond rows) = true
  <-> exists r, In r rows /\ cond r = true.
Proof.
  rewrite exists_where. apply existsb_exists.
Qed.

(** The rows one left-hand row contributes to a join. *)
Lemma in_join_of_row (tbl : list B) (on : A -> B -> bool) (a a' : A)
  (ob : option B) :
  In (a', ob)
     match filter (on a) tbl with
     | [] => [(a, None)]
     | matches => map (fun b => (a, Some b)) matches
     end
  <-> a' = a
      /\ match ob with
         | Some b => In b tbl /\ on a b = true
         | None => forall b, In b tbl -> on a b = false
         end.
Proof.
  destruct (filter (on a) tbl) as [|m ms] eqn:Hf.
  - cbn. split.
    + intros [H|[]]. inversion H; subst. split; [reflexivity|].
      intros b Hb. destruct (on a' b) eqn:Hon; [|reflexivity].
      assert (Hin : In b (filter (on a') tbl)) by (apply filter_In; auto).
      rewrite Hf in Hin. destruct Hin.
    + intros [-> Hob]. destruct ob as [b|]; [|now left].
      destruct Hob as [Hb Hon].
      assert (Hin : In b (filter (on a) tbl)) by (apply filter_In; auto).
      rewrite Hf in Hin. destruct Hin.
  - rewrite in_map_iff. split.
    + intros [b [Heq Hb]]. inversion Heq; subst.
      rewrite <- Hf in Hb. apply filter_In in Hb. now split.
    + intros [-> Hob]. destruct ob as [b|].
      * exists b. split; [reflexivity|]. rewrite <- Hf. now apply filter_In.
      * assert (Hm : In m (filter (on a) tbl)) by (rewrite Hf; now left).
        apply filter_In in Hm. destruct Hm as [Hm Hon].
        rewrite (Hob m Hm) in Hon. discriminate.
Qed.

(** A row of [rows LEFT JOIN tbl ON on] pairs a row of [rows] with a matching
    row of [tbl], or with NULL when none matches. *)
Lemma in_left_join (rows : list A) (tbl : list B) (on : A -> B -> bool)
  (a : A) (ob : option B) :
  In (a, ob) (SQL.left_join rows tbl on)
  <-> In a rows
      /\ match ob with
         | Some b => In b tbl /\ on a b = true
         | None => forall b, In b tbl -> on a b = false
         end.
Proof.
  unfold SQL.left_join. rewrite in_flat_map. split.
  - intros [a0 [Ha0 Hin]]. apply in_join_of_row in Hin.
    destruct Hin as [-> Hob]. now split.
  - intros [Ha Hob]. exists a. split; [exact Ha|].
    apply in_join_of_row. now split.
Qed.

(** Every row of the left-hand side survives a left join. *)
Lemma left_join_keeps_row (rows : list A) (tbl : list B)
  (on : A -> B -> bool) (a : A) :
  In a rows -> exists ob, In (a, ob) (SQL.left_join rows tbl on).
Proof.
  intros Ha. destruct (filter (on a) tbl) as [|m ms] eqn:Hf.
  - exists None. apply in_left_join. split; [exact Ha|].
    intros b Hb. destruct (on a b) eqn:Hon; [|reflexivity].
    assert (Hin : In b (filter (on a) tbl)) by (apply filter_In; auto).
    rewrite Hf in Hin. destruct Hin.
  - exists (Some m). apply in_left_join. split; [exact Ha|].
    assert (Hm : In m (filter (on a) tbl)) by (rewrite Hf; now left).
    now apply filter_In in Hm.
Qed.

End QueryFacts.

(** ** Rights on namespaces *)

Section NamespaceRightsFacts.
Import Models.
Import Selected.

Lemma TeamRight_eqb_eq (a b : TeamRight) : TeamRight_eqb a b = true <-> a = b.
Proof.
  destruct a, b; cbn; split; intros H; try reflexivity; discriminate.
Qed.

Lemma eq_right_Some (c : option TeamRight) (r : TeamRight) :
  eq_right c r = true <-> c = Some r.
Proof.
  destruct c as [r'|]; cbn.
  - rewrite TeamRight_eqb_eq. split; congruence.
  - split; discriminate.
Qed.

Lemma eq_int_Some (c : option Z) (v : Z) :
  SQL.eq_int c v = true <-> c = Some v.
Proof.
  destruct c as [z|]; cbn.
  - rewrite Z.eqb_eq. split; congruence.
  - split; discriminate.
Qed.

Lemma col_Some {B C : Type} (f : B -> C) (row : option B) (c : C) :
  SQL.col f row = Some c <-> exists b, row = Some b /\ f b = c.
Proof.
  destruct row as [b|]; cbn.
  - split.
    + intros H. exists b. split; congruence.
    + intros [b' [Hb Hf]]. congruence.
  - split; [discriminate | intros [b' [Hb _]]; discriminate].
Qed.

Variable x : Engine.

(** [checkTeamRights] answers from the whole store: it holds exactly when
    the user owns some namespace or is in a team with the right [r] on some
    stored namespace. *)
Lemma checkTeamRights_true_iff (n : Namespace.t) (user : User.t)
  (r : TeamRight) :
  NamespaceRights.checkTeamRights x n user r = true
  <-> owns_some_namespace x user
      \/ exists ns,
          In ns (namespaces x)
          /\ team_grant_on_namespace x user r (Namespace.ID ns).
Proof.
  unfold NamespaceRights.checkTeamRights, NamespaceRights.checkTeamRights_rows.
  rewrite exists_where_iff. split.
  - intros [[[ns otn] otm] [Hin Hcond]].
    apply in_left_join in Hin. destruct Hin as [Hin Htm].
    apply in_left_join in Hin. destruct Hin as [Hns Htn].
    apply orb_true_iff in Hcond. destruct Hcond as [Hgrant|Howner].
    + right. apply andb_true_iff in Hgrant. destruct Hgrant as [Hu Hr].
      apply eq_int_Some, col_Some in Hu. destruct Hu as [tm [-> Hu]].
      apply eq_right_Some, col_Some in Hr. destruct Hr as [tn [-> Hr]].
      destruct Htn as [Htn Hon]. destruct Htm as [Htm Hon'].
      apply Z.eqb_eq in Hon. cbn in Hon'. apply Z.eqb_eq in Hon'.
      exists ns. split; [exact Hns|]. exists tn, tm. repeat split; auto.
    + left. apply Z.eqb_eq in Howner. exists ns. now split.
  - intros [[ns [Hns Hown]] | [ns [Hns [tn [tm H]]]]].
    + destruct (left_join_keeps_row (namespaces x) (team_namespaces x)
                  (fun ns tn => Namespace.ID ns =? TeamNamespace.NamespaceID tn)
                  ns Hns) as [otn Hotn].
      destruct (left_join_keeps_row _ (team_members x)
                  (fun '(_, tn) tm =>
                     SQL.eq_col (SQL.col TeamNamespace.TeamID tn)
                       (TeamMember.TeamID tm))
                  (ns, otn) Hotn) as [otm Hotm].
      exists (ns, otn, otm). split; [exact Hotm|].
      apply orb_true_iff. right. now apply Z.eqb_eq.
    + destruct H as (Htn & Htm & Hid & Hteam & Hu & Hr).
      exists (ns, Some tn, Some tm). split.
      * apply in_left_join. split.
        -- apply in_left_join. repeat split; auto. now apply Z.eqb_eq.
        -- split; [exact Htm|]. cbn. now apply Z.eqb_eq.
      * apply orb_true_iff. left. cbn.
        apply andb_true_iff. split; [now apply Z.eqb_eq | now apply TeamRight_eqb_eq].
Qed.

(** The receiver plays no part in [checkTeamRights]. *)
Lemma checkTeamRights_any_receiver (n n' : Namespace.t) (user : User.t)
  (r : TeamRight) :
  NamespaceRights.checkTeamRights x n user r
  = NamespaceRights.checkTeamRights x n' user r.
Proof. reflexivity. Qed.

(** Whoever owns a stored namespace passes the three checks on every
    namespace. *)
Lemma owner_somewhere_passes_everywhere (n : Namespace.t) (user : User.t) :
  owns_some_namespace x user ->
  NamespaceRights.IsAdmin x n user = true
  /\ NamespaceRights.CanWrite x n user = true
  /\ NamespaceRights.CanRead x n user = true.
Proof.
  intros Hown.
  assert (Hadmin : NamespaceRights.IsAdmin x n user = true).
  { unfold NamespaceRights.IsAdmin.
    destruct (User.ID user =? User.ID (Namespace.Owner n)); [reflexivity|].
    apply checkTeamRights_true_iff. now left. }
  unfold NamespaceRights.CanWrite, NamespaceRights.CanRead.
  rewrite Hadmin.
  destruct (User.ID user =? User.ID (Namespace.Owner n)); auto.
Qed.

(** A member of a team that holds Write only: the user owns no namespace and
    is in no team with Admin or Read anywhere.  Write is granted, Read is
    not. *)
Lemma write_only_member_cannot_read (n : Namespace.t) (user : User.t) :
  User.ID user <> User.ID (Namespace.Owner n) ->
  ~ owns_some_namespace x user ->
  (forall r ns, In ns (namespaces x) ->
     team_grant_on_namespace x user r (Namespace.ID ns) ->
     r = TeamRightWrite /\ Namespace.ID ns = Namespace.ID n) ->
  (exists ns, In ns (namespaces x)
     /\ team_grant_on_namespace x user TeamRightWrite (Namespace.ID ns)) ->
  NamespaceRights.IsAdmin x n user = false
  /\ NamespaceRights.CanWrite x n user = true
  /\ NamespaceRights.CanRead x n user = false.
Proof.
  intros Hneq Hnown Honly Hwrite.
  apply Z.eqb_neq in Hneq.
  assert (Hno : forall r, r <> TeamRightWrite ->
                  NamespaceRights.checkTeamRights x n user r = false).
  { intros r Hr. apply not_true_is_false. intros Hc.
    apply checkTeamRights_true_iff in Hc.
    destruct Hc as [Hown | [ns [Hns Hg]]]; [now apply Hnown|].
    destruct (Honly r ns Hns Hg) as [-> _]. now apply Hr. }
  assert (Hadmin : NamespaceRights.IsAdmin x n user = false).
  { unfold NamespaceRights.IsAdmin. rewrite Hneq. apply Hno. discriminate. }
  unfold NamespaceRights.CanWrite, NamespaceRights.CanRead.
  rewrite Hadmin, Hneq. repeat split.
  - apply checkTeamRights_true_iff. now right.
  - apply Hno. discriminate.
Qed.

End NamespaceRightsFacts.

(** ** Rights on lists *)

Section ListRightsFacts.
Import Models.
Import Selected.

Variable x : Engine.

(** [checkListTeamRight] holds exactly when the list is stored and the user
    is in a team with the right [r] either on that list or in a row of
    [team_namespaces] whose namespace id equals the row's own id.  The
    namespace of the list plays no part. *)
Lemma checkListTeamRight_true_iff (l : List.t) (user : User.t)
  (r : TeamRight) :
  ListRights.checkListTeamRight x l user r = true
  <-> exists l',
      In l' (list_ x) /\ List.ID l' = List.ID l
      /\ (team_grant_in_self_numbered_row x user r
          \/ team_grant_on_list x user r (List.ID l')).
Proof.
  unfold ListRights.checkListTeamRight, ListRights.checkListTeamRight_rows.
  rewrite exists_where_iff. split.
  - intros [[[[[l' otn] otm] otl] otm2] [Hin Hcond]].
    apply in_left_join in Hin. destruct Hin as [Hin Htm2].
    apply in_left_join in Hin. destruct Hin as [Hin Htl].
    apply in_left_join in Hin. destruct Hin as [Hin Htm].
    apply in_left_join in Hin. destruct Hin as [Hl' Htn].
    apply andb_true_iff in Hcond. destruct Hcond as [Hgrant Hid].
    apply Z.eqb_eq in Hid.
    exists l'. split; [exact Hl'|]. split; [exact Hid|].
    apply orb_true_iff in Hgrant. destruct Hgrant as [Hns|Hlist].
    + left. apply andb_true_iff in Hns. destruct Hns as [Hu Hr].
      apply eq_int_Some, col_Some in Hu. destruct Hu as [tm [-> Hu]].
      apply eq_right_Some, col_Some in Hr. destruct Hr as [tn [-> Hr]].
      destruct Htn as [Htn Hon]. destruct Htm as [Htm Hon'].
      apply Z.eqb_eq in Hon. cbn in Hon'. apply Z.eqb_eq in Hon'.
      exists tn, tm. repeat split; auto.
    + right. apply andb_true_iff in Hlist. destruct Hlist as [Hu Hr].
      apply eq_int_Some, col_Some in Hu. destruct Hu as [tm2 [-> Hu]].
      apply eq_right_Some, col_Some in Hr. destruct Hr as [tl [-> Hr]].
      destruct Htl as [Htl Hon]. destruct Htm2 as [Htm2 Hon'].
      apply Z.eqb_eq in Hon. cbn in Hon'. apply Z.eqb_eq in Hon'.
      exists tl, tm2. repeat split; auto.
  - intros [l' [Hl' [Hid [Hns|Hlist]]]].
    + destruct Hns as (tn & tm & Htn & Htm & Hself & Hteam & Hu & Hr).
      assert (H2 : In (l', Some tn, Some tm)
                     (SQL.left_join
                        (SQL.left_join (list_ x) (team_namespaces x)
                           (fun _ tn =>
                              TeamNamespace.NamespaceID tn =? TeamNamespace.ID tn))
                        (team_members x)
                        (fun '(_, tn) tm =>
                           SQL.eq_col (SQL.col TeamNamespace.TeamID tn)
                             (TeamMember.TeamID tm)))).
      { apply in_left_join. split.
        - apply in_left_join. repeat split; auto. now apply Z.eqb_eq.
        - split; [exact Htm|]. cbn. now apply Z.eqb_eq. }
      destruct (left_join_keeps_row _ (team_list x)
                  (fun '(l', _, _) tl => List.ID l' =? TeamList.ListID tl)
                  _ H2) as [otl H3].
      destruct (left_join_keeps_row _ (team_members x)
                  (fun '(_, _, _, tl) tm2 =>
                     SQL.eq_col (SQL.col TeamList.TeamID tl)
                       (TeamMember.TeamID tm2))
                  _ H3) as [otm2 H4].
      exists (l', Some tn, Some tm, otl, otm2). split; [exact H4|].
      apply andb_true_iff. split; [|now apply Z.eqb_eq].
      apply orb_true_iff. left. cbn.
      apply andb_true_iff. split; [now apply Z.eqb_eq | now apply TeamRight_eqb_eq].
    + destruct Hlist as (tl & tm2 & Htl & Htm2 & Hlid & Hteam & Hu & Hr).
      destruct (left_join_keeps_row _ (team_namespaces x)
                  (fun (_ : List.t) tn =>
                     TeamNamespace.NamespaceID tn =? TeamNamespace.ID tn)
                  _ Hl') as [otn H1].
      destruct (left_join_keeps_row _ (team_members x)
                  (fun '(_, tn) tm =>
                     SQL.eq_col (SQL.col TeamNamespace.TeamID tn)
                       (TeamMember.TeamID tm))
                  _ H1) as [otm H2].
      exists (l', otn, otm, Some tl, Some tm2). split.
      * apply in_left_join. split.
        -- apply in_left_join. split; [exact H2|].
           split; [exact Htl|]. apply Z.eqb_eq. now symmetry.
        -- split; [exact Htm2|]. cbn. now apply Z.eqb_eq.
      * apply andb_true_iff. split; [|now apply Z.eqb_eq].
        apply orb_true_iff. right. cbn.
        apply andb_true_iff. split; [now apply Z.eqb_eq | now apply TeamRight_eqb_eq].
Qed.

(** Who is in no team passes no team check on a namespace unless he owns a
    namespace, and none on a list. *)
Lemma no_team_no_namespace_grant (n : Namespace.t) (user : User.t)
  (r : TeamRight) :
  (forall tm, In tm (team_members x) -> TeamMember.UserID tm <> User.ID user) ->
  ~ owns_some_namespace x user ->
  NamespaceRights.checkTeamRights x n user r = false.
Proof.
  intros Hteam Hown. apply not_true_is_false. intros Hc.
  apply checkTeamRights_true_iff in Hc.
  destruct Hc as [Ho | [ns [_ (tn & tm & _ & Htm & _ & _ & Hu & _)]]].
  - now apply Hown.
  - now apply (Hteam tm Htm).
Qed.

Lemma no_team_no_list_grant (l : List.t) (user : User.t) (r : TeamRight) :
  (forall tm, In tm (team_members x) -> TeamMember.UserID tm <> User.ID user) ->
  ListRights.checkListTeamRight x l user r = false.
Proof.
  intros Hteam. apply not_true_is_false. intros Hc.
  apply checkListTeamRight_true_iff in Hc.
  destruct Hc as [l' [_ [_ [H|H]]]];
    destruct H as (g & tm & _ & Htm & _ & _ & Hu & _);
    now apply (Hteam tm Htm).
Qed.

(** Without a team and without owning the list, no right on the list: the
    owner of the list's namespace is not asked for. *)
Lemma list_rights_need_owner_or_team (l : List.t) (user : User.t) :
  User.ID (List.Owner l) <> User.ID user ->
  (forall tm, In tm (team_members x) -> TeamMember.UserID tm <> User.ID user) ->
  ListRights.IsAdmin x l user = false
  /\ ListRights.CanWrite x l user = false
  /\ ListRights.CanRead x l user = false.
Proof.
  intros Hneq Hteam. apply Z.eqb_neq in Hneq.
  unfold ListRights.CanWrite, ListRights.CanRead, ListRights.IsAdmin.
  rewrite Hneq, !no_team_no_list_grant by exact Hteam. auto.
Qed.

Lemma namespace_rights_need_owner_or_team (n : Namespace.t) (user : User.t) :
  User.ID user <> User.ID (Namespace.Owner n) ->
  (forall tm, In tm (team_members x) -> TeamMember.UserID tm <> User.ID user) ->
  ~ owns_some_namespace x user ->
  NamespaceRights.IsAdmin x n user = false
  /\ NamespaceRights.CanWrite x n user = false
  /\ NamespaceRights.CanRead x n user = false.
Proof.
  intros Hneq Hteam Hown. apply Z.eqb_neq in Hneq.
  unfold NamespaceRights.CanWrite, NamespaceRights.CanRead,
    NamespaceRights.IsAdmin.
  rewrite Hneq, !no_team_no_namespace_grant by assumption. auto.
Qed.

(** A lookup that ends in not-found hands back the zero entity. *)
Lemma GetNamespaceByID_not_found (id : Z) :
  snd (GetNamespaceByID x id) = Some (ErrNamespaceDoesNotExist id) ->
  GetNamespaceByID x id = (Namespace.zero, Some (ErrNamespaceDoesNotExist id)).
Proof.
  unfold GetNamespaceByID, GetUserByID.
  destruct (find _ (namespaces x)) as [n|]; [|reflexivity].
  destruct (find _ (users x)); cbn; discriminate.
Qed.

Lemma GetListByID_not_found (id : Z) :
  snd (GetListByID x id) = Some (ErrListDoesNotExist id) ->
  GetListByID x id = (List.zero, Some (ErrListDoesNotExist id)).
Proof.
  unfold GetListByID, GetUserByID.
  destruct (find _ (list_ x)) as [l|]; [|reflexivity].
  destruct (find _ (users x)); cbn; discriminate.
Qed.

End ListRightsFacts.

(** ** The claims on namespace and list rights *)

Section RightsClaims.
Import Models.
Import Selected.
Import Fixtures.Rights.

(** C1, at an input where the code departs from it.  The claim: the three
    namespace predicates hold only for the owner of that namespace or a
    member of a team with a grant on that same namespace.  In the code the
    team query runs over all namespaces and also accepts the owner of any
    of them: bob, who owns "home" and is in no team, passes the three checks
    on alice's "work"; carol, who owns nothing and whose team is admin of
    "home" only, passes them on "work" too. *)
Theorem namespace_checks_pass_through_another_namespace :
  (User.ID bob <> User.ID (Namespace.Owner work)
   /\ team_members x_two_owners = []
   /\ NamespaceRights.IsAdmin x_two_owners work bob = true
   /\ NamespaceRights.CanWrite x_two_owners work bob = true
   /\ NamespaceRights.CanRead x_two_owners work bob = true)
  /\ (User.ID carol <> User.ID (Namespace.Owner work)
      /\ map Namespace.OwnerID (namespaces x_grant_elsewhere) = [1; 2]
      /\ map TeamNamespace.NamespaceID (team_namespaces x_grant_elsewhere) = [2]
      /\ Namespace.ID work = 1
      /\ NamespaceRights.IsAdmin x_grant_elsewhere work carol = true
      /\ NamespaceRights.CanWrite x_grant_elsewhere work carol = true
      /\ NamespaceRights.CanRead x_grant_elsewhere work carol = true).
Proof.
  split.
  - split; [discriminate|].
    split; [reflexivity|].
    apply owner_somewhere_passes_everywhere.
    exists home_row. split; [cbn; auto | reflexivity].
  - split; [discriminate|].
    do 3 (split; [reflexivity|]).
    assert (Hadmin : NamespaceRights.IsAdmin x_grant_elsewhere work carol = true).
    { unfold NamespaceRights.IsAdmin. cbn [User.ID work carol Namespace.Owner alice].
      change (3 =? 1) with false. cbv iota.
      apply checkTeamRights_true_iff. right.
      exists home_row. split; [cbn; auto|].
      exists (TeamNamespace.mk 1 5 2 TeamRightAdmin), (TeamMember.mk 1 5 3).
      cbn. repeat split; auto. }
    unfold NamespaceRights.CanWrite, NamespaceRights.CanRead.
    rewrite Hadmin. repeat split; reflexivity.
Qed.

(** C2, at an input where the code departs from it.  The spec's scenario:
    "work" is owned by alice, team 5 holds Write on it, bob is the sole
    member of team 5 and owns nothing.  The claim has CanRead true; the code
    asks for a team with Admin and for a team with Read, never for Write, and
    answers false. *)
Theorem write_team_member_is_refused_read :
  User.ID bob <> User.ID (Namespace.Owner work)
  /\ team_grant_on_namespace x_write_team bob TeamRightWrite (Namespace.ID work)
  /\ NamespaceRights.IsAdmin x_write_team work bob = false
  /\ NamespaceRights.CanWrite x_write_team work bob = true
  /\ NamespaceRights.CanRead x_write_team work bob = false.
Proof.
  assert (Hgrant : team_grant_on_namespace x_write_team bob TeamRightWrite
                     (Namespace.ID work)).
  { exists (TeamNamespace.mk 1 5 1 TeamRightWrite), (TeamMember.mk 1 5 2).
    cbn. repeat split; auto. }
  split; [discriminate|]. split; [exact Hgrant|].
  apply write_only_member_cannot_read.
  - discriminate.
  - intros [ns [Hns Hown]]. cbn in Hns. destruct Hns as [<-|[]]. discriminate.
  - intros r ns Hns (tn & tm & Htn & _ & _ & _ & _ & Hr).
    cbn in Hns, Htn. destruct Hns as [<-|[]]. destruct Htn as [<-|[]].
    cbn in Hr. now split.
  - exists work_row. split; [cbn; auto | exact Hgrant].
Qed.

(** C3, at an input where the code departs from it.  The claim: a right on
    the namespace carries over to every list in it.  Bob is admin of "work"
    through team 5, and "groceries" lies in "work", yet the three list
    predicates refuse him: the list query joins [team_namespaces] on
    [tn.namespace_id = tn.id], which row 7 for namespace 1 fails.  Alice owns
    "work", and the list predicates refuse her on carol's list "chores" in
    it: they never ask for the namespace's owner. *)
Theorem namespace_rights_do_not_reach_its_lists :
  (List.NamespaceID groceries = Namespace.ID work
   /\ NamespaceRights.IsAdmin x_admin_team work bob = true
   /\ NamespaceRights.CanWrite x_admin_team work bob = true
   /\ NamespaceRights.CanRead x_admin_team work bob = true
   /\ ListRights.IsAdmin x_admin_team groceries bob = false
   /\ ListRights.CanWrite x_admin_team groceries bob = false
   /\ ListRights.CanRead x_admin_team groceries bob = false)
  /\ (List.NamespaceID chores = Namespace.ID work
      /\ NamespaceRights.IsAdmin x_admin_team work alice = true
      /\ NamespaceRights.CanWrite x_admin_team work alice = true
      /\ NamespaceRights.CanRead x_admin_team work alice = true
      /\ ListRights.IsAdmin x_admin_team chores alice = false
      /\ ListRights.CanWrite x_admin_team chores alice = false
      /\ ListRights.CanRead x_admin_team chores alice = false).
Proof.
  split.
  - split; [reflexivity|].
    assert (Hno : forall r,
               ListRights.checkListTeamRight x_admin_team groceries bob r = false).
    { intros r. apply not_true_is_false. intros Hc.
      apply checkListTeamRight_true_iff in Hc.
      destruct Hc as [l' [_ [_ [H|H]]]].
      - destruct H as (tn & _ & Htn & _ & Hself & _).
        cbn in Htn. destruct Htn as [<-|[]]. discriminate.
      - destruct H as (tl & _ & [] & _). }
    unfold ListRights.CanWrite, ListRights.CanRead, ListRights.IsAdmin.
    rewrite !Hno. cbn. repeat split; reflexivity.
  - split; [reflexivity|].
    do 3 (split; [reflexivity|]).
    apply list_rights_need_owner_or_team.
    + discriminate.
    + intros tm Htm. cbn in Htm. destruct Htm as [<-|[]]. discriminate.
Qed.

(** C7.  A user whose id is the id of the namespace's owner passes IsAdmin,
    CanWrite and CanRead on the namespace, and a user whose id is the id of
    the list's owner passes them on the list, in every store: the grants and
    the rest of the store are not looked at. *)
Theorem owner_passes_every_check :
  (forall (x : Engine) (n : Namespace.t) (u : User.t),
     User.ID u = User.ID (Namespace.Owner n) ->
     NamespaceRights.IsAdmin x n u = true
     /\ NamespaceRights.CanWrite x n u = true
     /\ NamespaceRights.CanRead x n u = true)
  /\ (forall (x : Engine) (l : List.t) (u : User.t),
        User.ID (List.Owner l) = User.ID u ->
        ListRights.IsAdmin x l u = true
        /\ ListRights.CanWrite x l u = true
        /\ ListRights.CanRead x l u = true).
Proof.
  split; intros x e u Hown; apply Z.eqb_eq in Hown.
  - unfold NamespaceRights.CanWrite, NamespaceRights.CanRead,
      NamespaceRights.IsAdmin.
    rewrite Hown. auto.
  - unfold ListRights.CanWrite, ListRights.CanRead, ListRights.IsAdmin.
    rewrite Hown. auto.
Qed.

(** Alice on her namespace "work" and carol on her list "chores". *)
Lemma owner_passes_every_check_witness :
  (User.ID alice = User.ID (Namespace.Owner work)
   /\ NamespaceRights.IsAdmin x_write_team work alice = true
   /\ NamespaceRights.CanWrite x_write_team work alice = true
   /\ NamespaceRights.CanRead x_write_team work alice = true)
  /\ (User.ID (List.Owner chores) = User.ID carol
      /\ ListRights.IsAdmin x_admin_team chores carol = true
      /\ ListRights.CanWrite x_admin_team chores carol = true
      /\ ListRights.CanRead x_admin_team chores carol = true).
Proof.
  split.
  - split; [reflexivity|].
    apply (proj1 owner_passes_every_check x_write_team work alice).
    reflexivity.
  - split; [reflexivity|].
    apply (proj2 owner_passes_every_check x_admin_team chores carol).
    reflexivity.
Defined.

(** C8.  [CanUpdate] and [CanDelete] on a list use the id of the list object
    they are called on and nothing else of it: two list objects with the
    same id get the same verdict in the same store, whatever owner or
    namespace they carry; the verdict is the one of [CanWrite], respectively
    [IsAdmin], on the list loaded by that id. *)
Theorem list_update_delete_decided_on_stored_list :
  forall (x : Engine) (l l' : List.t) (doer : User.t),
    List.ID l = List.ID l' ->
    ListRights.CanUpdate x l doer = ListRights.CanUpdate x l' doer
    /\ ListRights.CanDelete x l doer = ListRights.CanDelete x l' doer
    /\ ListRights.CanUpdate x l doer
       = ListRights.CanWrite x (fst (GetListByID x (List.ID l'))) doer
    /\ ListRights.CanDelete x l doer
       = ListRights.IsAdmin x (fst (GetListByID x (List.ID l'))) doer.
Proof.
  intros x l l' doer Hid.
  unfold ListRights.CanUpdate, ListRights.CanDelete. rewrite Hid.
  destruct (GetListByID x (List.ID l')) as [stored err]. cbn [fst].
  repeat split; reflexivity.
Qed.

(** Bob hands in list 1 with himself as owner: [CanWrite] on that object
    would pass, [CanUpdate] and [CanDelete] answer as for the honest object. *)
Lemma list_update_delete_decided_on_stored_list_witness :
  List.ID forged_groceries = List.ID groceries
  /\ List.Owner forged_groceries <> List.Owner groceries
  /\ List.NamespaceID forged_groceries <> List.NamespaceID groceries
  /\ ListRights.CanWrite x_admin_team forged_groceries bob = true
  /\ ListRights.CanUpdate x_admin_team forged_groceries bob
     = ListRights.CanUpdate x_admin_team groceries bob
  /\ ListRights.CanDelete x_admin_team forged_groceries bob
     = ListRights.CanDelete x_admin_team groceries bob.
Proof.
  split; [reflexivity|].
  split; [discriminate|].
  split; [discriminate|].
  split; [reflexivity|].
  pose proof (list_update_delete_decided_on_stored_list x_admin_team
                forged_groceries groceries bob eq_refl) as H.
  split; [exact (proj1 H) | exact (proj1 (proj2 H))].
Defined.

End RightsClaims.

(** ** An id that does not resolve *)

Section MissingEntity.
Import Models.
Import Selected.
Import Fixtures.Rights.

(** C6 as stated fails: dave owns nothing and is in no team.  Id 99 resolves
    to no namespace and to no list, id 1 resolves to alice's namespace and to
    alice's list, on which dave has no right; [CanUpdate] and [CanDelete]
    give the same answer in both cases. *)
Lemma missing_and_refused_look_alike :
  (snd (GetNamespaceByID x_admin_team (Namespace.ID missing_namespace))
   = Some (ErrNamespaceDoesNotExist 99)
   /\ snd (GetNamespaceByID x_admin_team (Namespace.ID work)) = None
   /\ NamespaceRights.IsAdmin x_admin_team work dave = false
   /\ NamespaceRights.CanUpdate x_admin_team missing_namespace dave
      = NamespaceRights.CanUpdate x_admin_team work dave
   /\ NamespaceRights.CanDelete x_admin_team missing_namespace dave
      = NamespaceRights.CanDelete x_admin_team work dave)
  /\ (snd (GetListByID x_admin_team (List.ID missing_list))
      = Some (ErrListDoesNotExist 99)
      /\ snd (GetListByID x_admin_team (List.ID groceries)) = None
      /\ ListRights.CanWrite x_admin_team groceries dave = false
      /\ ListRights.CanUpdate x_admin_team missing_list dave
         = ListRights.CanUpdate x_admin_team groceries dave
      /\ ListRights.CanDelete x_admin_team missing_list dave
         = ListRights.CanDelete x_admin_team groceries dave).
Proof.
  split; repeat split; reflexivity.
Qed.

(** C6, amended.  [CanUpdate] and [CanDelete] answer with a boolean and drop
    the error of the lookup.  For a user with a non-zero id who owns no
    namespace and is in no team, the answer for an id that does not resolve
    is false, and it is the answer for every entity that is owned by someone
    else. *)
Theorem missing_entity_is_refused_like_insufficient_right :
  forall (x : Engine) (u : User.t) (n : Namespace.t) (l : List.t),
    User.ID u <> 0 ->
    ~ owns_some_namespace x u ->
    (forall tm, In tm (team_members x) -> TeamMember.UserID tm <> User.ID u) ->
    snd (GetNamespaceByID x (Namespace.ID n))
    = Some (ErrNamespaceDoesNotExist (Namespace.ID n)) ->
    snd (GetListByID x (List.ID l)) = Some (ErrListDoesNotExist (List.ID l)) ->
    (NamespaceRights.CanUpdate x n u = false
     /\ NamespaceRights.CanDelete x n u = false
     /\ ListRights.CanUpdate x l u = false
     /\ ListRights.CanDelete x l u = false)
    /\ (forall n' : Namespace.t,
          User.ID (Namespace.Owner (fst (GetNamespaceByID x (Namespace.ID n'))))
          <> User.ID u ->
          NamespaceRights.CanUpdate x n' u = NamespaceRights.CanUpdate x n u
          /\ NamespaceRights.CanDelete x n' u = NamespaceRights.CanDelete x n u)
    /\ (forall l' : List.t,
          User.ID (List.Owner (fst (GetListByID x (List.ID l')))) <> User.ID u ->
          ListRights.CanUpdate x l' u = ListRights.CanUpdate x l u
          /\ ListRights.CanDelete x l' u = ListRights.CanDelete x l u).
Proof.
  intros x u n l Hu Hown Hteam Hn Hl.
  assert (Hns : forall nn : Namespace.t,
             User.ID (Namespace.Owner nn) <> User.ID u ->
             NamespaceRights.IsAdmin x nn u = false).
  { intros nn Hnn.
    apply namespace_rights_need_owner_or_team; auto. }
  assert (Hls : forall ll : List.t,
             User.ID (List.Owner ll) <> User.ID u ->
             ListRights.IsAdmin x ll u = false
             /\ ListRights.CanWrite x ll u = false).
  { intros ll Hll.
    destruct (list_rights_need_owner_or_team x ll u Hll Hteam) as (Ha & Hw & _).
    now split. }
  assert (Hmissing :
           NamespaceRights.CanUpdate x n u = false
           /\ NamespaceRights.CanDelete x n u = false
           /\ ListRights.CanUpdate x l u = false
           /\ ListRights.CanDelete x l u = false).
  { unfold NamespaceRights.CanUpdate, NamespaceRights.CanDelete,
      ListRights.CanUpdate, ListRights.CanDelete.
    rewrite (GetNamespaceByID_not_found x _ Hn), (GetListByID_not_found x _ Hl).
    assert (Hz : User.ID (Namespace.Owner Namespace.zero) <> User.ID u)
      by (cbn; congruence).
    assert (Hz' : User.ID (List.Owner List.zero) <> User.ID u)
      by (cbn; congruence).
    destruct (Hls List.zero Hz') as [Ha Hw].
    rewrite (Hns Namespace.zero Hz), Ha, Hw. auto. }
  split; [exact Hmissing|].
  destruct Hmissing as (Hnu & Hnd & Hlu & Hld).
  split.
  - intros n' Hn'. rewrite Hnu, Hnd.
    unfold NamespaceRights.CanUpdate, NamespaceRights.CanDelete.
    destruct (GetNamespaceByID x (Namespace.ID n')) as [nn err].
    cbn [fst] in Hn'. rewrite (Hns nn Hn'). auto.
  - intros l' Hl'. rewrite Hlu, Hld.
    unfold ListRights.CanUpdate, ListRights.CanDelete.
    destruct (GetListByID x (List.ID l')) as [ll err].
    cbn [fst] in Hl'. destruct (Hls ll Hl') as [Ha Hw].
    rewrite Ha, Hw. auto.
Qed.

(** Dave and the id 99, which no namespace and no list has. *)
Lemma missing_entity_is_refused_like_insufficient_right_witness :
  User.ID dave <> 0
  /\ snd (GetNamespaceByID x_admin_team (Namespace.ID missing_namespace))
     = Some (ErrNamespaceDoesNotExist (Namespace.ID missing_namespace))
  /\ snd (GetListByID x_admin_team (List.ID missing_list))
     = Some (ErrListDoesNotExist (List.ID missing_list))
  /\ NamespaceRights.CanUpdate x_admin_team missing_namespace dave = false
  /\ NamespaceRights.CanDelete x_admin_team missing_namespace dave = false
  /\ ListRights.CanUpdate x_admin_team missing_list dave = false
  /\ ListRights.CanDelete x_admin_team missing_list dave = false.
Proof.
  split; [discriminate|].
  split; [reflexivity|].
  split; [reflexivity|].
  apply (missing_entity_is_refused_like_insufficient_right
           x_admin_team dave missing_namespace missing_list).
  - discriminate.
  - intros [ns [Hns Hown]]. cbn in Hns. destruct Hns as [<-|[]]. discriminate.
  - intros tm Htm. cbn in Htm. destruct Htm as [<-|[]]. discriminate.
  - reflexivity.
  - reflexivity.
Defined.

End MissingEntity.

(** ** The archive check *)

Section ArchiveFacts.
Import PkgModels.
Import ListModel.
Import Stored.

Lemma scan_ID (row : List.t) : List.ID (List.scan row) = List.ID row.
Proof. reflexivity. Qed.

Lemma scan_IsArchived (row : List.t) :
  List.IsArchived (List.scan row) = List.IsArchived row.
Proof. reflexivity. Qed.

(** A condition on joined rows that holds on rows with a given key only
    selects from what the rows with that key contribute. *)
Lemma where_join_by_key {A B : Type} (rows : list A) (tbl : list B)
  (on : A -> B -> bool) (key : A -> bool) (cond : A * option B -> bool) :
  (forall a ob, cond (a, ob) = true -> key a = true) ->
  SQL.where_ cond (SQL.left_join rows tbl on)
  = SQL.where_ cond (SQL.left_join (filter key rows) tbl on).
Proof.
  intros Hkey. unfold SQL.where_, SQL.left_join.
  induction rows as [|a rows IH]; [reflexivity|].
  cbn [flat_map filter]. rewrite filter_app, IH.
  destruct (key a) eqn:Ha.
  - cbn [flat_map]. now rewrite filter_app.
  - match goal with
    | |- filter cond ?contributed ++ _ = _ =>
        destruct (filter cond contributed) as [|[a' ob] rest] eqn:Hsel
    end; [reflexivity|].
    assert (Hin : In (a', ob) ((a', ob) :: rest)) by now left.
    rewrite <- Hsel in Hin. apply filter_In in Hin. destruct Hin as [Hin Hc].
    apply in_join_of_row in Hin. destruct Hin as [-> _].
    rewrite (Hkey _ _ Hc) in Ha. discriminate.
Qed.

(** The rows of the archive query for a stored list: the one row of the
    list, joined with its namespace, when one of the two is archived. *)
Lemma CheckIsArchived_rows_resolved (s : Session) (l row : List.t)
  (ns : option Namespace.t) :
  list_row s (List.ID l) row ->
  namespace_row s (List.NamespaceID row) ns ->
  CheckIsArchived_rows s l
  = if List.IsArchived row
       || match ns with
          | Some n => Namespace.IsArchived n
          | None => false
          end
    then [(row, ns)]
    else [].
Proof.
  intros Hrow Hns.
  assert (Hrid : (List.ID row =? List.ID l) = true).
  { assert (Hin : In row (filter (fun r => List.ID r =? List.ID l) (list_ s)))
      by (rewrite Hrow; now left).
    now apply filter_In in Hin. }
  unfold CheckIsArchived_rows.
  rewrite (where_join_by_key _ _ _ (fun r => List.ID r =? List.ID l)).
  2:{ intros a ob Hc. apply andb_true_iff in Hc. tauto. }
  rewrite Hrow. unfold SQL.left_join. cbn [flat_map]. cbn beta.
  rewrite Hns, app_nil_r.
  destruct ns as [n|]; cbn; rewrite Hrid; cbn;
    match goal with |- context [if ?c then _ else _] => destruct c end;
    reflexivity.
Qed.

End ArchiveFacts.

Section ArchiveClaim.
Import PkgModels.
Import ListModel.
Import Stored.
Import Fixtures.Lists.

(** C5.  For a list object with id 0 the check answers from the namespace
    table alone: the namespace-archived error when a stored namespace with
    the object's namespace id is archived, nil otherwise.  For a stored list
    (its id resolves to the one row [row], whose namespace id resolves to at
    most one namespace, of non-zero id) it answers the list-archived error
    when the row is archived, whether or not the namespace is; the
    namespace-archived error when only the namespace is archived; nil when
    neither is. *)
Theorem CheckIsArchived_names_what_is_archived :
  forall (s : Session) (l : List.t),
    (List.ID l = 0 ->
     CheckIsArchived s l
     = if namespace_archived s (List.NamespaceID l)
       then Some (ErrNamespaceIsArchived (List.NamespaceID l))
       else None)
    /\ (forall (row : List.t) (ns : option Namespace.t),
          List.ID l <> 0 ->
          list_row s (List.ID l) row ->
          namespace_row s (List.NamespaceID row) ns ->
          (forall n, ns = Some n -> Namespace.ID n <> 0) ->
          CheckIsArchived s l
          = if List.IsArchived row
            then Some (ErrListIsArchived (List.ID l))
            else match ns with
                 | Some n =>
                     if Namespace.IsArchived n
                     then Some (ErrNamespaceIsArchived (Namespace.ID n))
                     else None
                 | None => None
                 end).
Proof.
  intros s l. split.
  - intros Hid. unfold CheckIsArchived, Namespace_CheckIsArchived.
    rewrite Hid, exists_where. reflexivity.
  - intros row ns Hid Hrow Hns Hnz.
    assert (Hrid' : (List.ID row =? List.ID l) = true).
    { assert (Hin : In row (filter (fun r => List.ID r =? List.ID l) (list_ s)))
        by (rewrite Hrow; now left).
      now apply filter_In in Hin. }
    apply Z.eqb_eq in Hrid' as Hrid.
    unfold CheckIsArchived. apply Z.eqb_neq in Hid. rewrite Hid.
    rewrite (CheckIsArchived_rows_resolved s l row ns Hrow Hns).
    destruct (List.IsArchived row) eqn:Hla.
    + destruct ns as [n|]; cbn; rewrite Hrid, Hid, Hla; reflexivity.
    + destruct ns as [n|]; [|reflexivity].
      specialize (Hnz n eq_refl). apply Z.eqb_neq in Hnz.
      destruct (Namespace.IsArchived n) eqn:Hna; cbn; [|reflexivity].
      rewrite Hla, Hnz, Hna, andb_false_r. reflexivity.
Qed.

(** The five cases on one store: a new list for an archived namespace, a
    list in an archived namespace, an archived list, an archived list in an
    archived namespace, and a list with nothing archived. *)
Lemma CheckIsArchived_names_what_is_archived_witness :
  CheckIsArchived s_archive new_in_old = Some (ErrNamespaceIsArchived 1)
  /\ CheckIsArchived s_archive list_1 = Some (ErrNamespaceIsArchived 1)
  /\ CheckIsArchived s_archive list_2 = Some (ErrListIsArchived 2)
  /\ CheckIsArchived s_archive list_3 = Some (ErrListIsArchived 3)
  /\ CheckIsArchived s_archive list_4 = None.
Proof.
  split.
  { rewrite (proj1 (CheckIsArchived_names_what_is_archived s_archive new_in_old)
               eq_refl).
    reflexivity. }
  split.
  { rewrite (proj2 (CheckIsArchived_names_what_is_archived s_archive list_1)
               (mkList 1 "in old" 1 1 false 0)
               (Some (Namespace.mk 1 "old" 1 true))).
    - reflexivity.
    - discriminate.
    - reflexivity.
    - reflexivity.
    - intros n [= <-]. discriminate. }
  split.
  { rewrite (proj2 (CheckIsArchived_names_what_is_archived s_archive list_2)
               (mkList 2 "done" 1 2 true 4)
               (Some (Namespace.mk 2 "new" 1 false))).
    - reflexivity.
    - discriminate.
    - reflexivity.
    - reflexivity.
    - intros n [= <-]. discriminate. }
  split.
  { rewrite (proj2 (CheckIsArchived_names_what_is_archived s_archive list_3)
               (mkList 3 "done in old" 1 1 true 0)
               (Some (Namespace.mk 1 "old" 1 true))).
    - reflexivity.
    - discriminate.
    - reflexivity.
    - reflexivity.
    - intros n [= <-]. discriminate. }
  rewrite (proj2 (CheckIsArchived_names_what_is_archived s_archive list_4)
             (mkList 4 "open" 1 2 false 0)
             (Some (Namespace.mk 2 "new" 1 false))).
  - reflexivity.
  - discriminate.
  - reflexivity.
  - reflexivity.
  - intros n [= <-]. discriminate.
Defined.

End ArchiveClaim.

(** ** Listing for a link share *)

Section LinkShareFacts.
Import PkgModels.
Import ListModel.

Lemma scan_with_Owner (o : option User.t) (l : List.t) :
  List.scan (List.with_Owner o l) = List.scan l.
Proof. reflexivity. Qed.

Lemma scan_with_BackgroundInformation (b : BackgroundInformation) (l : List.t) :
  List.scan (List.with_BackgroundInformation b l) = List.scan l.
Proof. reflexivity. Qed.

Lemma scan_idempotent (l : List.t) : List.scan (List.scan l) = List.scan l.
Proof. reflexivity. Qed.

(** On a single list, [addListDetails] gives a single list with the same
    columns. *)
Lemma addListDetails_single (s : Session) (l : List.t) :
  exists l', addListDetails s [l] = [l'] /\ List.scan l' = List.scan l.
Proof.
  unfold addListDetails. cbn [map].
  match goal with
  | |- exists l', [?detailed] = [l'] /\ _ => exists detailed
  end.
  split; [reflexivity|].
  repeat match goal with
         | |- context [match ?o with Some _ => _ | None => _ end] => destruct o
         | |- context [if ?c then _ else _] => destruct c
         end;
    reflexivity.
Qed.

(** What [GetListSimpleByID] finds is a stored row with the asked id. *)
Lemma GetListSimpleByID_found (s : Session) (listID : Z) (l : List.t) :
  GetListSimpleByID s listID = inr l ->
  1 <= listID
  /\ exists row,
      In row (list_ s) /\ List.ID row = listID /\ l = List.scan row.
Proof.
  unfold GetListSimpleByID.
  destruct (listID <? 1) eqn:Hlt; [discriminate|].
  apply Z.ltb_ge in Hlt.
  destruct (SQL.get _) as [row|] eqn:Hget; [|discriminate].
  intros [= <-]. split; [exact Hlt|]. exists row.
  unfold SQL.get, SQL.where_ in Hget.
  assert (Hin : In row (filter (fun l => List.ID l =? listID) (list_ s))).
  { destruct (filter _ (list_ s)); [discriminate|].
    cbn in Hget. injection Hget as ->. now left. }
  apply filter_In in Hin. destruct Hin as [Hin Hid].
  apply Z.eqb_eq in Hid. auto.
Qed.

End LinkShareFacts.

Section LinkShareClaim.
Import PkgModels.
Import ListModel.
Import Fixtures.Lists.

(** C4.  For a link share whose list is stored, [ReadAll] answers with one
    list: the stored list of the share's list id, with its details added.
    The answer is the same in every store with the same lists, users and
    photos, whatever its namespaces and grants are and whatever the listing
    for users would give.  The share's right on a list with another id is
    None, on its own list it is the right stored in the share. *)
Theorem link_share_reads_exactly_its_list :
  forall (getRaw getRaw' : Session -> listOptions -> ReadAllResult)
    (s s' : Session) (share : LinkSharing.t) (recv recv' : List.t)
    (search search' : string) (page perPage page' perPage' : Z) (l : List.t),
    GetListSimpleByID s (LinkSharing.ListID share) = inr l ->
    list_ s' = list_ s ->
    users s' = users s ->
    unsplash_photos s' = unsplash_photos s ->
    (exists l',
        ReadAll getRaw recv s (AuthLinkSharing share) search page perPage
        = inr ([l'], 0, 0)
        /\ List.ID l' = LinkSharing.ListID share
        /\ List.scan l' = l)
    /\ ReadAll getRaw' recv' s' (AuthLinkSharing share) search' page' perPage'
       = ReadAll getRaw recv s (AuthLinkSharing share) search page perPage
    /\ (forall l2 : List.t,
          List.ID l2 <> LinkSharing.ListID share ->
          LinkShareEffectiveRight share l2 = RightNone)
    /\ LinkShareEffectiveRight share l = LinkSharing.Right_ share.
Proof.
  intros getRaw getRaw' s s' share recv recv' search search' page perPage
    page' perPage' l Hget Hlists Husers Hphotos.
  destruct (GetListSimpleByID_found s _ _ Hget) as [_ [row (Hin & Hid & ->)]].
  split; [|split; [|split]].
  - unfold ReadAll. rewrite Hget.
    destruct (addListDetails_single s (List.scan row)) as [l' [Hl' Hscan]].
    exists l'. rewrite Hl'. split; [reflexivity|].
    rewrite scan_idempotent in Hscan. split; [|exact Hscan].
    rewrite <- Hid, <- (scan_ID row), <- Hscan. reflexivity.
  - unfold ReadAll, GetListSimpleByID, addListDetails.
    rewrite Hlists, Husers, Hphotos. reflexivity.
  - intros l2 Hl2. unfold LinkShareEffectiveRight.
    apply Z.eqb_neq in Hl2. now rewrite Hl2.
  - unfold LinkShareEffectiveRight.
    rewrite scan_ID, Hid, Z.eqb_refl. reflexivity.
Qed.

(** A share of list 2, read in a store without grants and in one with
    grants on every list. *)
Lemma link_share_reads_exactly_its_list_witness :
  GetListSimpleByID s_archive (LinkSharing.ListID share_of_2)
  = inr (mkList 2 "done" 1 2 true 4)
  /\ (exists l',
         ReadAll (fun _ _ => inr ([], 0, 0)) List.zero s_archive
           (AuthLinkSharing share_of_2) "" 0 0
         = inr ([l'], 0, 0)
         /\ List.ID l' = 2
         /\ List.scan l' = mkList 2 "done" 1 2 true 4)
  /\ ReadAll (fun _ _ => inl (ErrUserDoesNotExist 0)) list_4 s_archive_granted
       (AuthLinkSharing share_of_2) "open" 1 50
     = ReadAll (fun _ _ => inr ([], 0, 0)) List.zero s_archive
         (AuthLinkSharing share_of_2) "" 0 0
  /\ LinkShareEffectiveRight share_of_2 list_4 = RightNone.
Proof.
  split; [reflexivity|].
  pose proof (link_share_reads_exactly_its_list
                (fun _ _ => inr ([], 0, 0))
                (fun _ _ => inl (ErrUserDoesNotExist 0))
                s_archive s_archive_granted share_of_2 List.zero list_4
                "" "open" 0 0 1 50 (mkList 2 "done" 1 2 true 4)
                eq_refl eq_refl eq_refl eq_refl) as (Hone & Hsame & Hother & _).
  split; [exact Hone|].
  split; [exact Hsame|].
  apply Hother. discriminate.
Defined.

End LinkShareClaim.

(** ** The task update *)

Section Int64Facts.

Lemma wrap_in_range (z : Z) : Int64.in_range z -> Int64.wrap z = z.
Proof.
  unfold Int64.in_range, Int64.wrap, Int64.min_signed, Int64.max_signed,
    Int64.modulus.
  intros H. rewrite Z.mod_small; lia.
Qed.

Lemma wrap_range (z : Z) : Int64.in_range (Int64.wrap z).
Proof.
  unfold Int64.in_range, Int64.wrap, Int64.min_signed, Int64.max_signed,
    Int64.modulus.
  pose proof (Z.mod_pos_bound (z + 2 ^ 63) (2 ^ 64) ltac:(lia)). lia.
Qed.

Lemma add_no_overflow (a b : Z) :
  Int64.in_range (a + b) -> Int64.add a b = a + b.
Proof. apply wrap_in_range. Qed.

End Int64Facts.

Section UpdateDoneFacts.
Import PkgModels.
Import ListTask.
Import ListTasks.

Variable now : Z.

(** Marking a repeating task done: the old task is moved on by one period,
    its done-at stamp is left alone, and the new task is set undone. *)
Lemma updateDone_repeating (oldTask newTask : ListTask.t) :
  Done oldTask = false ->
  Done newTask = true ->
  0 < RepeatAfter oldTask ->
  updateDone now oldTask newTask
  = (with_RemindersUnix
       (map (fun r => Int64.add r (RepeatAfter oldTask)) (RemindersUnix oldTask))
       (with_DueDateUnix
          (Int64.add (DueDateUnix oldTask) (RepeatAfter oldTask)) oldTask),
     with_Done false newTask).
Proof.
  intros Ho Hn Hr. apply Z.ltb_lt in Hr.
  unfold updateDone. repeat (cbn; rewrite ?Ho, ?Hn, ?Hr). reflexivity.
Qed.

(** Marking a task that does not repeat done stamps it with the time of the
    call. *)
Lemma updateDone_marks_done (oldTask newTask : ListTask.t) :
  Done oldTask = false ->
  Done newTask = true ->
  RepeatAfter oldTask <= 0 ->
  updateDone now oldTask newTask = (with_DoneAtUnix now oldTask, newTask).
Proof.
  intros Ho Hn Hr. apply Z.ltb_ge in Hr.
  unfold updateDone. repeat (cbn; rewrite ?Ho, ?Hn, ?Hr). reflexivity.
Qed.

(** Unmarking a done task resets the stamp. *)
Lemma updateDone_unmarks (oldTask newTask : ListTask.t) :
  Done oldTask = true ->
  Done newTask = false ->
  updateDone now oldTask newTask = (with_DoneAtUnix 0 oldTask, newTask).
Proof.
  intros Ho Hn. unfold updateDone. repeat (cbn; rewrite ?Ho, ?Hn).
  reflexivity.
Qed.

(** Of the new task, [updateDone] changes [Done] at most, and only to
    false. *)
Lemma updateDone_newTask (oldTask newTask : ListTask.t) :
  snd (updateDone now oldTask newTask) = newTask
  \/ snd (updateDone now oldTask newTask) = with_Done false newTask.
Proof.
  unfold updateDone.
  destruct (negb (Done oldTask) && Done newTask && (0 <? RepeatAfter oldTask));
    [right | left]; reflexivity.
Qed.

End UpdateDoneFacts.

Section UpdateFacts.
Import PkgModels.
Import ListTask.
Import ListTasks.
Import Stored.

Variable updateTaskAssignees :
  ListTask.t -> list User.t -> ListTask.t * option Error.
Variable now : Z.

(** A successful [Update], step by step: the task was found as [ot], it is
    not its own parent, [updateDone] gave [ot1] and [t1], the assignees were
    updated without error leaving [ot2]; the merged and reset task is what is
    written to the rows of that id and what [t] ends as. *)
Lemma Update_succeeds_inv (x x' : Engine) (t t' : ListTask.t) :
  Update updateTaskAssignees now x t = (x', t', None) ->
  exists ot ot1 t1 ot2,
    GetTaskByID x (ID t) = (ot, None)
    /\ ID t <> ParentTaskID t
    /\ updateDone now ot t = (ot1, t1)
    /\ updateTaskAssignees ot1 (Assignees t1) = (ot2, None)
    /\ t' = resetZeroValues t1 (Merge ot2 t1)
    /\ x' = UpdateCols x (ID t1) t'.
Proof.
  unfold Update. intros H.
  destruct (GetTaskByID x (ID t)) as [ot [err|]]; [discriminate|].
  destruct (ID t =? ParentTaskID t) eqn:Hparent; [discriminate|].
  apply Z.eqb_neq in Hparent.
  destruct (updateDone now ot t) as [ot1 t1] eqn:Hdone.
  destruct (updateTaskAssignees ot1 (Assignees t1)) as [ot2 [err|]] eqn:Hassign;
    [discriminate|].
  cbn in H. injection H as <- <-.
  exists ot, ot1, t1, ot2. repeat split; auto.
Qed.

(** What [updateDone] leaves of the incoming task differs from it in [Done]
    at most. *)
Lemma updateDone_keeps_incoming (ot t ot1 t1 : ListTask.t) :
  updateDone now ot t = (ot1, t1) ->
  t1 = t \/ t1 = with_Done false t.
Proof.
  intros H. pose proof (updateDone_newTask now ot t) as Hnew.
  rewrite H in Hnew. exact Hnew.
Qed.

Lemma resetZeroValues_clears (t ot : ListTask.t) :
  cleared_where_zero t (resetZeroValues t ot).
Proof.
  unfold cleared_where_zero, resetZeroValues.
  repeat split; intros H; cbn; rewrite H; reflexivity.
Qed.

Lemma cleared_where_zero_after_updateDone (t t1 stored : ListTask.t) :
  t1 = t \/ t1 = with_Done false t ->
  cleared_where_zero t1 stored ->
  cleared_where_zero t stored.
Proof.
  intros [->| ->]; [trivial|].
  unfold cleared_where_zero. cbn.
  intros (Hdone & Hrest). split; [|exact Hrest].
  intros _. now apply Hdone.
Qed.

Lemma cleared_where_zero_setCols (t ot row : ListTask.t) :
  cleared_where_zero t ot -> cleared_where_zero t (setCols ot row).
Proof. unfold cleared_where_zero. cbn. trivial. Qed.

(** The rows with the id after [UpdateCols]: the old rows of that id with
    the listed columns set. *)
Lemma task_rows_UpdateCols (x : Engine) (id : Z) (ot : ListTask.t) :
  task_rows (UpdateCols x id ot) id = map (setCols ot) (task_rows x id).
Proof.
  unfold task_rows, UpdateCols. cbn [tasks].
  induction (tasks x) as [|row rows IH]; [reflexivity|].
  cbn [map filter].
  destruct (ID row =? id) eqn:Hid.
  - cbn [ID setCols]. rewrite Hid. cbn [map]. now rewrite IH.
  - rewrite Hid. exact IH.
Qed.

Lemma GetTaskByID_found (x : Engine) (id : Z) (ot : ListTask.t) :
  GetTaskByID x id = (ot, None) -> In ot (task_rows x id).
Proof.
  unfold GetTaskByID, task_rows.
  destruct (find _ (tasks x)) as [row|] eqn:Hfind; [|discriminate].
  intros [= <-]. apply find_some in Hfind. now apply filter_In.
Qed.

(** Whatever [updateDone] computed, a successful [Update] stores the due
    date, the reminders and the period of the incoming task. *)
Lemma Update_stores_incoming_dates (x x' : Engine) (t t' : ListTask.t) :
  Update updateTaskAssignees now x t = (x', t', None) ->
  DueDateUnix t' = DueDateUnix t
  /\ RemindersUnix t' = RemindersUnix t
  /\ RepeatAfter t' = RepeatAfter t
  /\ Forall
       (fun row =>
          DueDateUnix row = DueDateUnix t
          /\ RemindersUnix row = RemindersUnix t
          /\ RepeatAfter row = RepeatAfter t)
       (task_rows x' (ID t)).
Proof.
  intros H.
  destruct (Update_succeeds_inv _ _ _ _ H)
    as (ot & ot1 & t1 & ot2 & _ & _ & Hdone & _ & -> & ->).
  assert (Hfields :
           DueDateUnix (resetZeroValues t1 (Merge ot2 t1)) = DueDateUnix t
           /\ RemindersUnix (resetZeroValues t1 (Merge ot2 t1)) = RemindersUnix t
           /\ RepeatAfter (resetZeroValues t1 (Merge ot2 t1)) = RepeatAfter t).
  { destruct (updateDone_keeps_incoming _ _ _ _ Hdone) as [-> | ->]; cbn;
      unfold merge_int, merge_slice;
      (repeat split;
       [ destruct (DueDateUnix t =? 0) eqn:E;
         [apply Z.eqb_eq in E; congruence | reflexivity]
       | destruct (RemindersUnix t); reflexivity
       | destruct (RepeatAfter t =? 0) eqn:E;
         [apply Z.eqb_eq in E; congruence | reflexivity] ]). }
  destruct Hfields as (Hdue & Hrem & Hrep).
  repeat split; auto.
  assert (Hid : ID t1 = ID t)
    by (destruct (updateDone_keeps_incoming _ _ _ _ Hdone) as [-> | ->]; reflexivity).
  rewrite Hid, task_rows_UpdateCols.
  apply Forall_forall. intros row Hrow. apply in_map_iff in Hrow.
  destruct Hrow as [row0 [<- _]]. cbn. auto.
Qed.

End UpdateFacts.

Section UpdateClaims.
Import PkgModels.
Import ListTask.
Import ListTasks.
Import Stored.
Import Fixtures.Tasks.

(** C9.  After an [Update] that returns no error, each of Done, Priority,
    Description, DueDateUnix, RemindersUnix, RepeatAfter, ParentTaskID,
    StartDateUnix, EndDateUnix and HexColor that has its zero value in the
    incoming task has it in the task handed back and in every stored row of
    that id, of which there is one at least, whatever was stored before. *)
Theorem Update_clears_zero_valued_fields :
  forall (updateTaskAssignees :
            ListTask.t -> list User.t -> ListTask.t * option Error)
    (now : Z) (x x' : Engine) (t t' : ListTask.t),
    Update updateTaskAssignees now x t = (x', t', None) ->
    cleared_where_zero t t'
    /\ task_rows x' (ID t) <> []
    /\ Forall (cleared_where_zero t) (task_rows x' (ID t)).
Proof.
  intros updateTaskAssignees now x x' t t' H.
  destruct (Update_succeeds_inv _ _ _ _ _ _ H)
    as (ot & ot1 & t1 & ot2 & Hfound & _ & Hdone & _ & -> & ->).
  pose proof (updateDone_keeps_incoming _ _ _ _ _ Hdone) as Ht1.
  assert (Hid : ID t1 = ID t) by (destruct Ht1 as [-> | ->]; reflexivity).
  assert (Hcleared : cleared_where_zero t (resetZeroValues t1 (Merge ot2 t1))).
  { apply (cleared_where_zero_after_updateDone _ _ _ Ht1).
    apply resetZeroValues_clears. }
  split; [exact Hcleared|].
  rewrite Hid, task_rows_UpdateCols. split.
  - apply GetTaskByID_found in Hfound.
    destruct (task_rows x (ID t)); [destruct Hfound | discriminate].
  - apply Forall_forall. intros row Hrow. apply in_map_iff in Hrow.
    destruct Hrow as [row0 [<- _]].
    now apply cleared_where_zero_setCols.
Qed.

(** An update that carries the id and a text only empties the stored
    task. *)
Lemma Update_clears_zero_valued_fields_witness :
  Update keepAssignees now x bare = (mkEngine [bared], bared, None)
  /\ Priority stored = 2
  /\ Description stored = "all of them"%string
  /\ cleared_where_zero bare bared
  /\ task_rows (mkEngine [bared]) (ID bare) <> []
  /\ Forall (cleared_where_zero bare) (task_rows (mkEngine [bared]) (ID bare)).
Proof.
  split; [reflexivity|].
  split; [reflexivity|].
  split; [reflexivity|].
  apply (Update_clears_zero_valued_fields keepAssignees now x (mkEngine [bared])
           bare bared).
  reflexivity.
Defined.

(** C10, at an input where the code departs from it.  The stored task is
    not done and repeats every 60 seconds; the incoming task is the same
    task marked done.  [updateDone] moves the due date from 1000 to 1060 and
    the reminders by 60 on the old task, as the claim has it; the merge that
    follows writes the incoming due date and reminders over them, and the
    store ends as it began. *)
Theorem repeating_task_marked_done_is_stored_unmoved :
  Done stored = false
  /\ Done marked_done = true
  /\ RepeatAfter stored = 60
  /\ DueDateUnix stored = 1000
  /\ RemindersUnix stored = [900; 950]
  /\ DueDateUnix (fst (updateDone now stored marked_done)) = 1060
  /\ RemindersUnix (fst (updateDone now stored marked_done)) = [960; 1010]
  /\ Update keepAssignees now x marked_done = (x, stored, None)
  /\ map DueDateUnix (task_rows x (ID marked_done)) = [1000]
  /\ map RemindersUnix (task_rows x (ID marked_done)) = [[900; 950]].
Proof.
  repeat split; reflexivity.
Qed.

End UpdateClaims.

(** ** Further properties of the rights predicates *)

Section MoreRightsFacts.
Import Models.
Import Selected.
Import Grown.

(** The namespace query keeps answering yes when rows are added. *)
Lemma checkTeamRights_grows (x x' : Engine) (n : Namespace.t) (u : User.t)
  (r : TeamRight) :
  Engine_incl x x' ->
  NamespaceRights.checkTeamRights x n u r = true ->
  NamespaceRights.checkTeamRights x' n u r = true.
Proof.
  intros (_ & Hns & _ & Htn & Htm & _) H.
  apply checkTeamRights_true_iff in H. apply checkTeamRights_true_iff.
  destruct H as [[ns [Hin Hown]] | [ns [Hin (tn & tm & H1 & H2 & H)]]].
  - left. exists ns. split; [now apply Hns | exact Hown].
  - right. exists ns. split; [now apply Hns|].
    exists tn, tm. split; [now apply Htn|]. split; [now apply Htm | exact H].
Qed.

(** So does the list query. *)
Lemma checkListTeamRight_grows (x x' : Engine) (l : List.t) (u : User.t)
  (r : TeamRight) :
  Engine_incl x x' ->
  ListRights.checkListTeamRight x l u r = true ->
  ListRights.checkListTeamRight x' l u r = true.
Proof.
  intros (_ & _ & Hl & Htn & Htm & Htl) H.
  apply checkListTeamRight_true_iff in H. apply checkListTeamRight_true_iff.
  destruct H as [l' (Hin & Hid & Hgrant)].
  exists l'. split; [now apply Hl|]. split; [exact Hid|].
  destruct Hgrant as [(tn & tm & H1 & H2 & H) | (tl & tm & H1 & H2 & H)].
  - left. exists tn, tm. split; [now apply Htn|].
    split; [now apply Htm | exact H].
  - right. exists tl, tm. split; [now apply Htl|].
    split; [now apply Htm | exact H].
Qed.

Lemma orb_grows (a b a' b' : bool) :
  (a = true -> a' = true) ->
  (b = true -> b' = true) ->
  a || b = true -> a' || b' = true.
Proof.
  intros Ha Hb H. apply orb_true_iff in H. apply orb_true_iff.
  destruct H; [left | right]; auto.
Qed.

(** The three namespace predicates, as disjunctions of the owner test and
    the team queries. *)
Lemma NamespaceRights_unfold (x : Engine) (n : Namespace.t) (u : User.t) :
  NamespaceRights.IsAdmin x n u
  = (User.ID u =? User.ID (Namespace.Owner n))
    || NamespaceRights.checkTeamRights x n u TeamRightAdmin
  /\ NamespaceRights.CanWrite x n u
     = (User.ID u =? User.ID (Namespace.Owner n))
       || NamespaceRights.checkTeamRights x n u TeamRightAdmin
       || NamespaceRights.checkTeamRights x n u TeamRightWrite
  /\ NamespaceRights.CanRead x n u
     = (User.ID u =? User.ID (Namespace.Owner n))
       || NamespaceRights.checkTeamRights x n u TeamRightAdmin
       || NamespaceRights.checkTeamRights x n u TeamRightRead.
Proof.
  unfold NamespaceRights.CanWrite, NamespaceRights.CanRead,
    NamespaceRights.IsAdmin.
  destruct (User.ID u =? User.ID (Namespace.Owner n)); cbn; [auto|].
  destruct (NamespaceRights.checkTeamRights x n u TeamRightAdmin); auto.
Qed.

Lemma ListRights_unfold (x : Engine) (l : List.t) (u : User.t) :
  ListRights.IsAdmin x l u
  = (User.ID (List.Owner l) =? User.ID u)
    || ListRights.checkListTeamRight x l u TeamRightAdmin
  /\ ListRights.CanWrite x l u
     = (User.ID (List.Owner l) =? User.ID u)
       || ListRights.checkListTeamRight x l u TeamRightAdmin
       || ListRights.checkListTeamRight x l u TeamRightWrite
  /\ ListRights.CanRead x l u
     = (User.ID (List.Owner l) =? User.ID u)
       || ListRights.checkListTeamRight x l u TeamRightAdmin
       || ListRights.checkListTeamRight x l u TeamRightRead.
Proof.
  unfold ListRights.CanWrite, ListRights.CanRead, ListRights.IsAdmin.
  destruct (User.ID (List.Owner l) =? User.ID u); cbn; [auto|].
  destruct (ListRights.checkListTeamRight x l u TeamRightAdmin); auto.
Qed.

End MoreRightsFacts.

Section MoreRights.
Import Models.
Import Selected.
Import Grown.
Import Fixtures.Rights.
Import MoreFixtures.Rights.

(** X1.  Who passes [IsAdmin] on a namespace passes [CanWrite] and
    [CanRead] on it, and likewise on a list: admins always have write and
    read access. *)
Theorem admin_passes_write_and_read :
  forall (x : Engine) (n : Namespace.t) (l : List.t) (u : User.t),
    (NamespaceRights.IsAdmin x n u = true ->
     NamespaceRights.CanWrite x n u = true
     /\ NamespaceRights.CanRead x n u = true)
    /\ (ListRights.IsAdmin x l u = true ->
        ListRights.CanWrite x l u = true /\ ListRights.CanRead x l u = true).
Proof.
  intros x n l u. split; intros H.
  - unfold NamespaceRights.CanWrite, NamespaceRights.CanRead. rewrite H.
    destruct (User.ID u =? User.ID (Namespace.Owner n)); auto.
  - unfold ListRights.CanWrite, ListRights.CanRead. rewrite H.
    destruct (User.ID (List.Owner l) =? User.ID u); auto.
Qed.

(** Bob, admin of "work" through team 5, and carol, owner of "chores". *)
Lemma admin_passes_write_and_read_witness :
  (NamespaceRights.IsAdmin x_admin_team work bob = true
   /\ NamespaceRights.CanWrite x_admin_team work bob = true
   /\ NamespaceRights.CanRead x_admin_team work bob = true)
  /\ (ListRights.IsAdmin x_admin_team chores carol = true
      /\ ListRights.CanWrite x_admin_team chores carol = true
      /\ ListRights.CanRead x_admin_team chores carol = true).
Proof.
  split.
  - split; [reflexivity|].
    apply (proj1 (admin_passes_write_and_read x_admin_team work chores bob)).
    reflexivity.
  - split; [reflexivity|].
    apply (proj2 (admin_passes_write_and_read x_admin_team work chores carol)).
    reflexivity.
Defined.

(** X2.  Adding users, namespaces, lists, grants or memberships to the store
    takes no right away: each of the six predicates that holds in a store
    holds in every store that has all its rows. *)
Theorem more_rows_keep_rights :
  forall (x x' : Engine) (n : Namespace.t) (l : List.t) (u : User.t),
    Engine_incl x x' ->
    (NamespaceRights.IsAdmin x n u = true ->
     NamespaceRights.IsAdmin x' n u = true)
    /\ (NamespaceRights.CanWrite x n u = true ->
        NamespaceRights.CanWrite x' n u = true)
    /\ (NamespaceRights.CanRead x n u = true ->
        NamespaceRights.CanRead x' n u = true)
    /\ (ListRights.IsAdmin x l u = true -> ListRights.IsAdmin x' l u = true)
    /\ (ListRights.CanWrite x l u = true -> ListRights.CanWrite x' l u = true)
    /\ (ListRights.CanRead x l u = true -> ListRights.CanRead x' l u = true).
Proof.
  intros x x' n l u Hincl.
  destruct (NamespaceRights_unfold x n u) as (-> & -> & ->).
  destruct (NamespaceRights_unfold x' n u) as (-> & -> & ->).
  destruct (ListRights_unfold x l u) as (-> & -> & ->).
  destruct (ListRights_unfold x' l u) as (-> & -> & ->).
  pose proof (fun r => checkTeamRights_grows x x' n u r Hincl) as Hn.
  pose proof (fun r => checkListTeamRight_grows x x' l u r Hincl) as Hl.
  repeat split; repeat apply orb_grows; auto.
Qed.

(** Bob can write "work" through team 5, before and after carol, "home",
    "groceries" and team 6 are added. *)
Lemma more_rows_keep_rights_witness :
  Engine_incl x_write_team x_write_team_grown
  /\ NamespaceRights.CanWrite x_write_team work bob = true
  /\ NamespaceRights.CanWrite x_write_team_grown work bob = true.
Proof.
  assert (Hincl : Engine_incl x_write_team x_write_team_grown).
  { unfold Engine_incl. cbn.
    repeat split; intros a Ha; cbn in Ha |- *; tauto. }
  split; [exact Hincl|]. split; [reflexivity|].
  apply (proj1 (proj2 (more_rows_keep_rights x_write_team x_write_team_grown
                         work groceries bob Hincl))).
  reflexivity.
Defined.

(** X3.  A member of a team that holds a right on a stored namespace passes
    the check for that right on the namespace: all three checks with Admin,
    [CanWrite] with Write, [CanRead] with Read. *)
Theorem team_right_on_namespace_is_honoured :
  forall (x : Engine) (n ns : Namespace.t) (u : User.t) (r : TeamRight),
    In ns (namespaces x) ->
    Namespace.ID ns = Namespace.ID n ->
    team_grant_on_namespace x u r (Namespace.ID n) ->
    match r with
    | TeamRightAdmin =>
        NamespaceRights.IsAdmin x n u = true
        /\ NamespaceRights.CanWrite x n u = true
        /\ NamespaceRights.CanRead x n u = true
    | TeamRightWrite => NamespaceRights.CanWrite x n u = true
    | TeamRightRead => NamespaceRights.CanRead x n u = true
    end.
Proof.
  intros x n ns u r Hns Hid Hgrant.
  assert (Hcheck : NamespaceRights.checkTeamRights x n u r = true).
  { apply checkTeamRights_true_iff. right. exists ns.
    split; [exact Hns | now rewrite Hid]. }
  destruct (NamespaceRights_unfold x n u) as (-> & -> & ->).
  destruct r; rewrite Hcheck;
    repeat split; rewrite ?orb_true_r; reflexivity.
Qed.

(** Bob, member of team 5, which holds Write on "work". *)
Lemma team_right_on_namespace_is_honoured_witness :
  In work_row (namespaces x_write_team)
  /\ team_grant_on_namespace x_write_team bob TeamRightWrite (Namespace.ID work)
  /\ NamespaceRights.CanWrite x_write_team work bob = true.
Proof.
  assert (Hin : In work_row (namespaces x_write_team)) by (cbn; auto).
  assert (Hgrant : team_grant_on_namespace x_write_team bob TeamRightWrite
                     (Namespace.ID work)).
  { exists (TeamNamespace.mk 1 5 1 TeamRightWrite), (TeamMember.mk 1 5 2).
    cbn. repeat split; auto. }
  split; [exact Hin|]. split; [exact Hgrant|].
  exact (team_right_on_namespace_is_honoured x_write_team work work_row bob
           TeamRightWrite Hin eq_refl Hgrant).
Defined.

(** X4.  A member of a team that holds a right on a stored list passes the
    check for that right on the list: all three checks with Admin,
    [CanWrite] with Write, [CanRead] with Read. *)
Theorem team_right_on_list_is_honoured :
  forall (x : Engine) (l row : List.t) (u : User.t) (r : TeamRight),
    In row (list_ x) ->
    List.ID row = List.ID l ->
    team_grant_on_list x u r (List.ID l) ->
    match r with
    | TeamRightAdmin =>
        ListRights.IsAdmin x l u = true
        /\ ListRights.CanWrite x l u = true
        /\ ListRights.CanRead x l u = true
    | TeamRightWrite => ListRights.CanWrite x l u = true
    | TeamRightRead => ListRights.CanRead x l u = true
    end.
Proof.
  intros x l row u r Hrow Hid Hgrant.
  assert (Hcheck : ListRights.checkListTeamRight x l u r = true).
  { apply checkListTeamRight_true_iff. exists row.
    split; [exact Hrow|]. split; [exact Hid|]. right. now rewrite Hid. }
  destruct (ListRights_unfold x l u) as (-> & -> & ->).
  destruct r; rewrite Hcheck;
    repeat split; rewrite ?orb_true_r; reflexivity.
Qed.

(** Carol, member of team 6, which holds Read on "groceries". *)
Lemma team_right_on_list_is_honoured_witness :
  In (List.mk 1 "groceries" 1 1 User.zero) (list_ x_write_team_grown)
  /\ team_grant_on_list x_write_team_grown carol TeamRightRead
       (List.ID groceries)
  /\ ListRights.CanRead x_write_team_grown groceries carol = true.
Proof.
  assert (Hin : In (List.mk 1 "groceries" 1 1 User.zero)
                  (list_ x_write_team_grown)) by (cbn; auto).
  assert (Hgrant : team_grant_on_list x_write_team_grown carol TeamRightRead
                     (List.ID groceries)).
  { exists (TeamList.mk 1 6 1 TeamRightRead), (TeamMember.mk 2 6 3).
    cbn. repeat split; auto. }
  split; [exact Hin|]. split; [exact Hgrant|].
  exact (team_right_on_list_is_honoured x_write_team_grown groceries
           (List.mk 1 "groceries" 1 1 User.zero) carol TeamRightRead
           Hin eq_refl Hgrant).
Defined.

(** X5.  A user who does not own the namespace, owns no stored namespace
    and is a member of no team passes none of the three namespace checks. *)
Theorem stranger_is_refused_on_namespace :
  forall (x : Engine) (n : Namespace.t) (u : User.t),
    User.ID u <> User.ID (Namespace.Owner n) ->
    ~ owns_some_namespace x u ->
    (forall tm, In tm (team_members x) -> TeamMember.UserID tm <> User.ID u) ->
    NamespaceRights.IsAdmin x n u = false
    /\ NamespaceRights.CanWrite x n u = false
    /\ NamespaceRights.CanRead x n u = false.
Proof.
  intros x n u Hneq Hown Hteam.
  now apply namespace_rights_need_owner_or_team.
Qed.

(** Dave on alice's "work". *)
Lemma stranger_is_refused_on_namespace_witness :
  User.ID dave <> User.ID (Namespace.Owner work)
  /\ NamespaceRights.IsAdmin x_admin_team work dave = false
  /\ NamespaceRights.CanWrite x_admin_team work dave = false
  /\ NamespaceRights.CanRead x_admin_team work dave = false.
Proof.
  split; [discriminate|].
  apply (stranger_is_refused_on_namespace x_admin_team work dave).
  - discriminate.
  - intros [ns [Hns Hown]]. cbn in Hns. destruct Hns as [<-|[]]. discriminate.
  - intros tm Htm. cbn in Htm. destruct Htm as [<-|[]]. discriminate.
Defined.

(** X6.  [CanUpdate] and [CanDelete] on a namespace read the id of the
    namespace object and nothing else of it, and [CanCreate] on a list reads
    the namespace id of the list object and nothing else of it: objects that
    agree there get the same verdict, whatever owner they carry. *)
Theorem namespace_verdicts_ignore_forged_fields :
  forall (x : Engine) (n n' : Namespace.t) (l l' : List.t) (u : User.t),
    Namespace.ID n = Namespace.ID n' ->
    List.NamespaceID l = List.NamespaceID l' ->
    NamespaceRights.CanUpdate x n u = NamespaceRights.CanUpdate x n' u
    /\ NamespaceRights.CanDelete x n u = NamespaceRights.CanDelete x n' u
    /\ ListRights.CanCreate x l u = ListRights.CanCreate x l' u.
Proof.
  intros x n n' l l' u Hn Hl.
  unfold NamespaceRights.CanUpdate, NamespaceRights.CanDelete,
    ListRights.CanCreate.
  rewrite Hn, Hl. auto.
Qed.

(** Dave hands in namespace 1 and a new list for it with himself as owner:
    [IsAdmin] on the forged namespace object would pass, the three verdicts
    are those for the honest objects. *)
Lemma namespace_verdicts_ignore_forged_fields_witness :
  Namespace.ID forged_work = Namespace.ID work
  /\ List.NamespaceID forged_new_list = List.NamespaceID honest_new_list
  /\ NamespaceRights.IsAdmin x_admin_team forged_work dave = true
  /\ NamespaceRights.CanUpdate x_admin_team forged_work dave
     = NamespaceRights.CanUpdate x_admin_team work dave
  /\ NamespaceRights.CanDelete x_admin_team forged_work dave
     = NamespaceRights.CanDelete x_admin_team work dave
  /\ ListRights.CanCreate x_admin_team forged_new_list dave
     = ListRights.CanCreate x_admin_team honest_new_list dave.
Proof.
  split; [reflexivity|]. split; [reflexivity|]. split; [reflexivity|].
  exact (namespace_verdicts_ignore_forged_fields x_admin_team forged_work work
           forged_new_list honest_new_list dave eq_refl eq_refl).
Defined.

End MoreRights.

(** ** Further properties of the list model *)

Section MoreListFacts.
Import PkgModels.
Import ListModel.
Import Detailed.

Lemma in_ids_In (ids : list Z) (v : Z) : in_ids ids v = true <-> In v ids.
Proof.
  unfold in_ids. rewrite existsb_exists. split.
  - intros [id [Hin Heq]]. apply Z.eqb_eq in Heq. now subst.
  - intros Hin. exists v. split; [exact Hin | apply Z.eqb_refl].
Qed.

(** Rows that a search does not ask for can be filtered out beforehand. *)
Lemma find_filter {A : Type} (p q : A -> bool) (rows : list A) :
  (forall a, q a = true -> p a = true) ->
  find q (filter p rows) = find q rows.
Proof.
  intros Hqp. induction rows as [|a rows IH]; [reflexivity|].
  cbn. destruct (p a) eqn:Hp; cbn.
  - now rewrite IH.
  - destruct (q a) eqn:Hq; [|exact IH].
    rewrite (Hqp a Hq) in Hp. discriminate.
Qed.

(** A map filled from the rows with chosen keys answers for a chosen key as
    the map filled from all rows. *)
Lemma map_lookup_filter {A : Type} (key : A -> Z) (p : A -> bool)
  (rows : list A) (k : Z) :
  (forall a, key a = k -> p a = true) ->
  map_lookup key (filter p rows) k = map_lookup key rows k.
Proof.
  intros Hp. unfold map_lookup. rewrite <- filter_rev.
  apply find_filter. intros a Ha. apply Hp. now apply Z.eqb_eq.
Qed.

Lemma map_lookup_Some {A : Type} (key : A -> Z) (rows : list A) (k : Z)
  (a : A) :
  map_lookup key rows k = Some a -> In a rows /\ key a = k.
Proof.
  unfold map_lookup. intros H. apply find_some in H.
  destruct H as [Hin Hk]. apply in_rev in Hin. apply Z.eqb_eq in Hk. auto.
Qed.

Lemma map_lookup_None {A : Type} (key : A -> Z) (rows : list A) (k : Z) :
  map_lookup key rows k = None <-> forall a, In a rows -> key a <> k.
Proof.
  unfold map_lookup. split.
  - intros H a Ha. apply in_rev in Ha.
    apply (find_none _ _ H) in Ha. now apply Z.eqb_neq.
  - intros H. destruct (find _ (rev rows)) as [a|] eqn:Hfind; [|reflexivity].
    apply find_some in Hfind. destruct Hfind as [Hin Hk].
    apply in_rev in Hin. apply Z.eqb_eq in Hk. now destruct (H a Hin).
Qed.

Lemma with_Owner_same (l : List.t) : List.with_Owner (List.Owner l) l = l.
Proof. now destruct l. Qed.

Lemma with_BackgroundInformation_same (l : List.t) :
  List.with_BackgroundInformation (List.BackgroundInformation_ l) l = l.
Proof. now destruct l. Qed.

(** [addListDetails] by its two loops. *)
Lemma addListDetails_loops (s : Session) (l0 : List.t) (rest : list List.t) :
  addListDetails s (l0 :: rest)
  = map
      (addPhoto s
         (map List.BackgroundFileID
            (map (addOwner s (map List.OwnerID (l0 :: rest))) (l0 :: rest))))
      (map (addOwner s (map List.OwnerID (l0 :: rest))) (l0 :: rest)).
Proof. reflexivity. Qed.

Lemma addOwner_BackgroundFileID (s : Session) (ownerIDs : list Z)
  (l : List.t) :
  List.BackgroundFileID (addOwner s ownerIDs l) = List.BackgroundFileID l.
Proof.
  unfold addOwner. destruct (map_lookup _ _ _); cbn;
    match goal with |- context [if ?c then _ else _] => destruct c end;
    reflexivity.
Qed.

(** [addListDetails] asks for the owners and the photos of all lists at
    once and comes to the same as detailing each list by itself. *)
Lemma addListDetails_as_map (s : Session) (lists : list List.t) :
  addListDetails s lists = map (detailed s) lists.
Proof.
  destruct lists as [|l0 rest]; [reflexivity|].
  rewrite addListDetails_loops.
  set (lists := l0 :: rest).
  rewrite map_map. apply map_ext_in. intros l Hl.
  unfold addPhoto. rewrite addOwner_BackgroundFileID.
  unfold SQL.where_. rewrite map_lookup_filter.
  2:{ intros u Hu. apply in_ids_In. rewrite Hu, map_map.
      apply in_map_iff. exists l. split; [|exact Hl].
      apply addOwner_BackgroundFileID. }
  unfold addOwner, SQL.where_. rewrite map_lookup_filter.
  2:{ intros u Hu. apply in_ids_In. rewrite Hu. now apply in_map. }
  unfold detailed, background_of, owner_of.
  destruct (map_lookup User.ID (users s) (List.OwnerID l)) as [o|];
    destruct (map_lookup UnsplashPhoto.FileID (unsplash_photos s)
                (List.BackgroundFileID l)) as [u|];
    cbn; destruct (List.BackgroundFileID l =? 0); cbn;
    rewrite ?with_Owner_same, ?with_BackgroundInformation_same;
    try reflexivity; now destruct l.
Qed.

End MoreListFacts.

Section MoreListLookups.
Import PkgModels.
Import ListModel.
Import Detailed.
Import Stored.
Import Fixtures.Lists.

(** A row of [rows INNER JOIN tbl ON on] pairs a row of [rows] with a
    matching row of [tbl]. *)
Lemma in_inner_join {A B : Type} (rows : list A) (tbl : list B)
  (on : A -> B -> bool) (a : A) (b : B) :
  In (a, b) (SQL.inner_join rows tbl on)
  <-> In a rows /\ In b tbl /\ on a b = true.
Proof.
  unfold SQL.inner_join. rewrite in_flat_map. split.
  - intros [a0 [Ha0 Hin]]. apply in_map_iff in Hin.
    destruct Hin as [b0 [Heq Hb0]]. inversion Heq; subst.
    apply filter_In in Hb0. tauto.
  - intros (Ha & Hb & Hon). exists a. split; [exact Ha|].
    apply in_map_iff. exists b. split; [reflexivity|]. now apply filter_In.
Qed.

Lemma get_Some_In {A : Type} (rows : list A) (a : A) :
  SQL.get rows = Some a -> In a rows.
Proof. destruct rows; cbn; [discriminate | intros [= ->]; now left]. Qed.

Lemma get_None_nil {A : Type} (rows : list A) :
  SQL.get rows = None <-> rows = [].
Proof. destruct rows; cbn; split; congruence. Qed.

Lemma find_as_filter {A : Type} (q : A -> bool) (rows : list A) :
  find q rows = hd_error (filter q rows).
Proof.
  induction rows as [|a rows IH]; [reflexivity|].
  cbn. destruct (q a); [reflexivity | exact IH].
Qed.

(** In a table where one row has the key, the map filled from the table
    holds that row under the key. *)
Lemma map_lookup_unique {A : Type} (key : A -> Z) (rows : list A) (k : Z)
  (a : A) :
  filter (fun r => key r =? k) rows = [a] -> map_lookup key rows k = Some a.
Proof.
  intros H. unfold map_lookup.
  now rewrite find_as_filter, filter_rev, H.
Qed.

Lemma map_lookup_map {A : Type} (key : A -> Z) (f : A -> A) (rows : list A)
  (k : Z) :
  (forall a, key (f a) = key a) ->
  map_lookup key (map f rows) k = option_map f (map_lookup key rows k).
Proof.
  intros Hkey. unfold map_lookup. rewrite <- map_rev.
  induction (rev rows) as [|a l IH]; [reflexivity|].
  cbn. rewrite Hkey. destruct (key a =? k); [reflexivity | exact IH].
Qed.

(** X7.  [GetListSimpleByID] answers with a list exactly for an id of 1 or
    more that a stored list has; the list it answers with has the asked id
    and the columns of a stored row; every error it answers with is
    [ErrListDoesNotExist] of the asked id. *)
Theorem GetListSimpleByID_finds_stored_list :
  forall (s : Session) (listID : Z),
    (forall l, GetListSimpleByID s listID = inr l ->
       1 <= listID /\ List.ID l = listID
       /\ exists row, In row (list_ s) /\ l = List.scan row)
    /\ (1 <= listID ->
        (exists row, In row (list_ s) /\ List.ID row = listID) ->
        exists l, GetListSimpleByID s listID = inr l)
    /\ (forall e, GetListSimpleByID s listID = inl e ->
          e = ErrListDoesNotExist listID
          /\ (listID < 1
              \/ forall row, In row (list_ s) -> List.ID row <> listID)).
Proof.
  intros s listID. split; [|split].
  - intros l H. apply GetListSimpleByID_found in H.
    destruct H as [Hge [row (Hin & Hid & ->)]].
    split; [exact Hge|]. split; [exact Hid|]. now exists row.
  - intros Hge [row [Hin Hid]]. unfold GetListSimpleByID.
    apply Z.ltb_ge in Hge. rewrite Hge.
    destruct (SQL.get _) as [found|] eqn:Hget; [now eexists|].
    apply get_None_nil in Hget.
    assert (Hrow : In row (SQL.where_ (fun l => List.ID l =? listID) (list_ s))).
    { apply filter_In. split; [exact Hin | now apply Z.eqb_eq]. }
    rewrite Hget in Hrow. destruct Hrow.
  - intros e. unfold GetListSimpleByID.
    destruct (listID <? 1) eqn:Hlt.
    + intros [= <-]. apply Z.ltb_lt in Hlt. auto.
    + destruct (SQL.get _) as [found|] eqn:Hget; [discriminate|].
      intros [= <-]. split; [reflexivity|]. right. intros row Hin Hid.
      apply get_None_nil in Hget.
      assert (Hrow : In row (SQL.where_ (fun l => List.ID l =? listID) (list_ s))).
      { apply filter_In. split; [exact Hin | now apply Z.eqb_eq]. }
      rewrite Hget in Hrow. destruct Hrow.
Qed.

(** X8.  [addListDetails] hands every list back with the columns it had,
    with the last stored user of its owner id as owner (the owner it came
    with when no user has that id), and with the last stored photo of its
    background file as background information; a list with a background file
    without a photo gets the upload type, a list with neither keeps what it
    came with. *)
Theorem addListDetails_loads_owner_and_background :
  forall (s : Session) (lists : list List.t),
    Forall2
      (fun l l' =>
         List.scan l' = List.scan l
         /\ List.Owner l' = owner_of s l
         /\ List.BackgroundInformation_ l' = background_of s l)
      lists (addListDetails s lists).
Proof.
  intros s lists. rewrite addListDetails_as_map.
  induction lists as [|l lists IH]; constructor; [|exact IH].
  repeat split; reflexivity.
Qed.

(** X9.  [addListDetails] details each list by itself: the details of a
    slice put together from two are the details of the one followed by the
    details of the other, and as many lists come back as went in. *)
Theorem addListDetails_list_by_list :
  forall (s : Session) (lists1 lists2 : list List.t),
    addListDetails s (lists1 ++ lists2)
    = addListDetails s lists1 ++ addListDetails s lists2
    /\ Datatypes.length (addListDetails s lists1) = Datatypes.length lists1.
Proof.
  intros s lists1 lists2. rewrite !addListDetails_as_map.
  split; [apply map_app | apply length_map].
Qed.

(** X10.  For a list object with a non-zero id that no stored list has,
    [CheckIsArchived] answers nil, whatever is archived. *)
Theorem CheckIsArchived_of_unknown_list :
  forall (s : Session) (l : List.t),
    List.ID l <> 0 ->
    (forall row, In row (list_ s) -> List.ID row <> List.ID l) ->
    CheckIsArchived s l = None.
Proof.
  intros s l Hid Hnone. unfold CheckIsArchived.
  apply Z.eqb_neq in Hid. rewrite Hid.
  assert (Hrows : CheckIsArchived_rows s l = []).
  { unfold CheckIsArchived_rows.
    rewrite (where_join_by_key _ _ _ (fun r => List.ID r =? List.ID l)).
    2:{ intros a ob Hc. apply andb_true_iff in Hc. tauto. }
    replace (filter (fun r => List.ID r =? List.ID l) (list_ s))
      with (@nil List.t); [reflexivity|].
    symmetry. destruct (filter _ (list_ s)) as [|row rows] eqn:Hf;
      [reflexivity|].
    assert (Hin : In row (filter (fun r => List.ID r =? List.ID l) (list_ s)))
      by (rewrite Hf; now left).
    apply filter_In in Hin. destruct Hin as [Hin Hrow].
    apply Z.eqb_eq in Hrow. now destruct (Hnone row Hin). }
  rewrite Hrows. reflexivity.
Qed.

(** List 9 is not stored; namespace 1, which the object names, is
    archived. *)
Lemma CheckIsArchived_of_unknown_list_witness :
  List.ID (mkList 9 "" 0 1 false 0) <> 0
  /\ namespace_archived s_archive 1 = true
  /\ CheckIsArchived s_archive (mkList 9 "" 0 1 false 0) = None.
Proof.
  split; [discriminate|]. split; [reflexivity|].
  apply (CheckIsArchived_of_unknown_list s_archive (mkList 9 "" 0 1 false 0)).
  - discriminate.
  - intros row Hrow. cbn in Hrow.
    destruct Hrow as [<-|[<-|[<-|[<-|[]]]]]; discriminate.
Defined.

End MoreListLookups.

Section MoreListQueries.
Import PkgModels.
Import ListModel.
Import Detailed.
Import Stored.
Import Fixtures.Lists.

(** X11.  In the map [GetListsByIDs] answers with, a list found under an id
    has that id, was asked for and has the columns of a stored row; an id
    that was not asked for has no entry.  Where one stored list has an asked
    id of 1 or more, the map holds under it what [GetListSimpleByID] answers
    for it. *)
Theorem GetListsByIDs_holds_the_asked_lists :
  forall (s : Session) (listIDs : list Z) (k : Z),
    (forall l,
        map_lookup List.ID (GetListsByIDs s listIDs) k = Some l ->
        In k listIDs /\ List.ID l = k
        /\ exists row, In row (list_ s) /\ l = List.scan row)
    /\ (~ In k listIDs -> map_lookup List.ID (GetListsByIDs s listIDs) k = None)
    /\ (forall row,
          In k listIDs -> 1 <= k -> list_row s k row ->
          map_lookup List.ID (GetListsByIDs s listIDs) k = Some (List.scan row)
          /\ GetListSimpleByID s k = inr (List.scan row)).
Proof.
  intros s listIDs k.
  assert (Hfound : forall l,
             map_lookup List.ID (GetListsByIDs s listIDs) k = Some l ->
             In k listIDs /\ List.ID l = k
             /\ exists row, In row (list_ s) /\ l = List.scan row).
  { intros l H. apply map_lookup_Some in H. destruct H as [Hin Hid].
    unfold GetListsByIDs in Hin. destruct listIDs as [|i ids]; [destruct Hin|].
    apply in_map_iff in Hin. destruct Hin as [row [<- Hrow]].
    apply filter_In in Hrow. destruct Hrow as [Hrow Hasked].
    apply in_ids_In in Hasked. rewrite scan_ID in Hid. subst k.
    split; [exact Hasked|]. split; [reflexivity|]. now exists row. }
  split; [exact Hfound|]. split.
  - intros Hnot.
    destruct (map_lookup List.ID (GetListsByIDs s listIDs) k) as [l|] eqn:Hl;
      [|reflexivity].
    destruct (Hfound l eq_refl) as [Hin _]. now destruct Hnot.
  - intros row Hasked Hge Hrow. split.
    + unfold GetListsByIDs. destruct listIDs as [|i ids]; [destruct Hasked|].
      rewrite map_lookup_map by apply scan_ID.
      unfold SQL.where_. rewrite map_lookup_filter.
      2:{ intros a Ha. apply in_ids_In. now rewrite Ha. }
      now rewrite (map_lookup_unique _ _ _ _ Hrow).
    + unfold GetListSimpleByID, SQL.where_. apply Z.ltb_ge in Hge.
      rewrite Hge. unfold list_row in Hrow. rewrite Hrow. reflexivity.
Qed.

(** X12.  When [GetListSimplByTaskID] returns, it returns no error and a
    list with the columns of a stored list to which a stored task with the
    asked id belongs; and it returns whenever there is such a task and
    list. *)
Theorem GetListSimplByTaskID_returns_the_list_of_the_task :
  forall (s : TaskSession) (taskID : Z),
    (forall l err,
        GetListSimplByTaskID s taskID = Returns (l, err) ->
        err = None
        /\ exists row t,
            In row (list_ (session s)) /\ In t (tasks s)
            /\ Task.ID t = taskID /\ Task.ListID t = List.ID row
            /\ l = List.scan row)
    /\ ((exists row t,
            In row (list_ (session s)) /\ In t (tasks s)
            /\ Task.ID t = taskID /\ Task.ListID t = List.ID row) ->
        exists l, GetListSimplByTaskID s taskID = Returns (l, None)).
Proof.
  intros s taskID. unfold GetListSimplByTaskID. split.
  - intros l err.
    destruct (SQL.get _) as [[row t]|] eqn:Hget; [|discriminate].
    intros [= <- <-]. split; [reflexivity|].
    apply get_Some_In in Hget. unfold GetListSimplByTaskID_rows in Hget.
    apply filter_In in Hget. destruct Hget as [Hjoin Hid].
    apply in_inner_join in Hjoin. destruct Hjoin as (Hrow & Ht & Hon).
    apply Z.eqb_eq in Hid, Hon. exists row, t. repeat split; auto.
  - intros (row & t & Hrow & Ht & Hid & Hlist).
    destruct (SQL.get _) as [[row' t']|] eqn:Hget; [now eexists|].
    apply get_None_nil in Hget.
    assert (Hin : In (row, t) (GetListSimplByTaskID_rows s taskID)).
    { apply filter_In. split; [|now apply Z.eqb_eq].
      apply in_inner_join. repeat split; auto. apply Z.eqb_eq. now symmetry. }
    rewrite Hget in Hin. destruct Hin.
Qed.

Lemma scan_detailed (s : Session) (l : List.t) :
  List.scan (detailed s l) = List.scan l.
Proof. reflexivity. Qed.

(** X13.  For a namespace id other than -1, [GetListsByNamespaceID] answers
    with the stored lists of that namespace that are not archived, provided
    a stored namespace has the id and is not archived, and with no other
    list; whoever asks gets the same answer. *)
Theorem GetListsByNamespaceID_lists_what_is_not_archived :
  forall (sharedLists sharedLists' : Session -> User.t -> list List.t)
    (s : Session) (nID : Z) (doer doer' : User.t),
    nID <> -1 ->
    (forall c,
        In c (map List.scan (GetListsByNamespaceID sharedLists s nID doer))
        <-> exists row n,
            In row (list_ s) /\ In n (namespaces s)
            /\ List.NamespaceID row = nID /\ Namespace.ID n = nID
            /\ List.IsArchived row = false /\ Namespace.IsArchived n = false
            /\ c = List.scan row)
    /\ GetListsByNamespaceID sharedLists' s nID doer'
       = GetListsByNamespaceID sharedLists s nID doer.
Proof.
  intros sharedLists sharedLists' s nID doer doer' Hid.
  apply Z.eqb_neq in Hid. unfold GetListsByNamespaceID. rewrite Hid.
  split; [|reflexivity].
  intros c. rewrite addListDetails_as_map, !map_map.
  rewrite in_map_iff. unfold GetListsByNamespaceID_rows. split.
  - intros [[row on] [<- Hin]]. apply filter_In in Hin.
    destruct Hin as [Hjoin Hcond]. apply in_left_join in Hjoin.
    destruct Hjoin as [Hrow Hon].
    apply andb_true_iff in Hcond. destruct Hcond as [Hcond Hns].
    apply andb_true_iff in Hcond. destruct Hcond as [Hla Hna].
    destruct on as [n|]; [|discriminate]. cbn in Hna.
    destruct Hon as [Hn Hon]. apply Z.eqb_eq in Hon, Hns.
    apply negb_true_iff in Hla, Hna.
    exists row, n. repeat split; auto; congruence.
  - intros (row & n & Hrow & Hn & Hns & Hnid & Hla & Hna & ->).
    exists (row, Some n). split; [reflexivity|].
    apply filter_In. split.
    + apply in_left_join. repeat split; auto. apply Z.eqb_eq. congruence.
    + cbn. rewrite Hla, Hna. cbn. now apply Z.eqb_eq.
Qed.

(** Namespace 2 is not archived and holds list 2, which is archived, and
    list 4, which is not. *)
Lemma GetListsByNamespaceID_lists_what_is_not_archived_witness :
  2 <> -1
  /\ In (mkList 4 "open" 1 2 false 0)
       (map List.scan
          (GetListsByNamespaceID (fun _ _ => []) s_archive 2 alice))
  /\ GetListsByNamespaceID (fun _ _ => [list_1]) s_archive 2 User.zero
     = GetListsByNamespaceID (fun _ _ => []) s_archive 2 alice.
Proof.
  split; [discriminate|].
  pose proof (GetListsByNamespaceID_lists_what_is_not_archived
                (fun _ _ => []) (fun _ _ => [list_1]) s_archive 2 alice
                User.zero ltac:(discriminate)) as [Hin Hsame].
  split; [|exact Hsame].
  apply Hin.
  exists (mkList 4 "open" 1 2 false 0), (Namespace.mk 2 "new" 1 false).
  cbn. repeat split; auto 10.
Defined.

End MoreListQueries.

Section MoreListWrites.
Import PkgModels.
Import ListModel.
Import Stored.
Import Fixtures.Lists.

Lemma scan_with_BackgroundFileID (id : Z) (l : List.t) :
  List.scan (with_BackgroundFileID id l) = with_BackgroundFileID id (List.scan l).
Proof. reflexivity. Qed.

(** What [GetListSimpleByID] answers after the list rows were rewritten by a
    function that leaves the ids alone. *)
Lemma GetListSimpleByID_map (s : Session) (f : List.t -> List.t) (id : Z) :
  (forall row, List.ID (f row) = List.ID row) ->
  GetListSimpleByID (with_list_ (map f (list_ s)) s) id
  = match SQL.get (SQL.where_ (fun l => List.ID l =? id) (list_ s)) with
    | Some row =>
        if id <? 1 then inl (ErrListDoesNotExist id) else inr (List.scan (f row))
    | None => inl (ErrListDoesNotExist id)
    end.
Proof.
  intros Hid. unfold GetListSimpleByID, SQL.where_. cbn [list_ with_list_].
  rewrite filter_map_swap.
  rewrite (filter_ext (fun a => List.ID (f a) =? id) (fun l => List.ID l =? id))
    by (intros a; now rewrite Hid).
  destruct (filter _ (list_ s)) as [|row rows]; cbn;
    destruct (id <? 1); reflexivity.
Qed.

(** X14.  [SetListBackground] returns no error; afterwards
    [GetListSimpleByID] answers for the list of the given id with the list
    as before, its background file id set to the id of the file, and for
    every other id as before; the other tables are as before. *)
Theorem SetListBackground_sets_the_file_of_one_list :
  forall (s : Session) (listID : Z) (background : File.t),
    snd (SetListBackground s listID background) = None
    /\ (forall id,
          GetListSimpleByID (fst (SetListBackground s listID background)) id
          = match GetListSimpleByID s id with
            | inr l =>
                inr (if id =? listID
                     then with_BackgroundFileID (File.ID background) l
                     else l)
            | inl e => inl e
            end)
    /\ users (fst (SetListBackground s listID background)) = users s
    /\ namespaces (fst (SetListBackground s listID background)) = namespaces s
    /\ unsplash_photos (fst (SetListBackground s listID background))
       = unsplash_photos s
    /\ map List.ID (list_ (fst (SetListBackground s listID background)))
       = map List.ID (list_ s).
Proof.
  intros s listID background. split; [reflexivity|]. split.
  - intros id. unfold SetListBackground. cbn [fst List.ID List.BackgroundFileID].
    rewrite GetListSimpleByID_map.
    2:{ intros row. now destruct (List.ID row =? listID). }
    unfold GetListSimpleByID.
    destruct (SQL.get _) as [row|] eqn:Hget;
      destruct (id <? 1); try reflexivity.
    apply get_Some_In in Hget. apply filter_In in Hget.
    destruct Hget as [_ Hid]. apply Z.eqb_eq in Hid. rewrite Hid.
    destruct (id =? listID); reflexivity.
  - repeat split; try reflexivity.
    unfold SetListBackground. cbn [fst list_ with_list_].
    rewrite map_map. apply map_ext. intros row.
    now destruct (List.ID row =? _).
Qed.

Section DeleteFacts.
Variable Dispatch : Event -> option error.

(** X15.  After [Delete] no list with the id of the deleted list and no
    task of it is stored: [GetListSimpleByID] answers [ErrListDoesNotExist]
    for its id and as before for every other id; the tasks left are those
    of other lists; users, namespaces and grants are as before; deleting
    once more changes nothing.  The error returned is the one of
    dispatching the event. *)
Theorem Delete_removes_the_list_and_its_tasks :
  forall (l : List.t) (s : TaskSession) (a : Auth),
    GetListSimpleByID (session (fst (Delete Dispatch l s a))) (List.ID l)
    = inl (ErrListDoesNotExist (List.ID l))
    /\ (forall id,
          id <> List.ID l ->
          GetListSimpleByID (session (fst (Delete Dispatch l s a))) id
          = GetListSimpleByID (session s) id)
    /\ (forall t,
          In t (tasks (fst (Delete Dispatch l s a)))
          <-> In t (tasks s) /\ Task.ListID t <> List.ID l)
    /\ (users (session (fst (Delete Dispatch l s a))) = users (session s)
        /\ namespaces (session (fst (Delete Dispatch l s a)))
           = namespaces (session s)
        /\ team_members (session (fst (Delete Dispatch l s a)))
           = team_members (session s)
        /\ team_namespaces (session (fst (Delete Dispatch l s a)))
           = team_namespaces (session s)
        /\ team_list (session (fst (Delete Dispatch l s a)))
           = team_list (session s)
        /\ users_list (session (fst (Delete Dispatch l s a)))
           = users_list (session s)
        /\ users_namespace (session (fst (Delete Dispatch l s a)))
           = users_namespace (session s))
    /\ fst (Delete Dispatch l (fst (Delete Dispatch l s a)) a)
       = fst (Delete Dispatch l s a)
    /\ snd (Delete Dispatch l s a) = Dispatch (ListDeletedEvent l a).
Proof.
  intros l s a. unfold Delete. cbn [fst snd session tasks].
  assert (Hfilter : forall id,
             filter (fun row => List.ID row =? id)
               (filter (fun row => negb (List.ID row =? List.ID l))
                  (list_ (session s)))
             = if id =? List.ID l then []
               else filter (fun row => List.ID row =? id) (list_ (session s))).
  { intros id. induction (list_ (session s)) as [|row rows IH].
    - cbn. now destruct (id =? List.ID l).
    - cbn. destruct (List.ID row =? List.ID l) eqn:Hl; cbn.
      + rewrite IH. destruct (id =? List.ID l) eqn:Hid; [reflexivity|].
        apply Z.eqb_eq in Hl. rewrite Hl, Z.eqb_sym, Hid. reflexivity.
      + rewrite IH. destruct (id =? List.ID l) eqn:Hid; [|reflexivity].
        apply Z.eqb_eq in Hid. subst id. now rewrite Hl. }
  split; [|split; [|split; [|split; [|split]]]].
  - unfold GetListSimpleByID, SQL.where_. cbn [list_ with_list_].
    rewrite Hfilter, Z.eqb_refl. cbn. now destruct (List.ID l <? 1).
  - intros id Hid. apply Z.eqb_neq in Hid.
    unfold GetListSimpleByID, SQL.where_. cbn [list_ with_list_].
    now rewrite Hfilter, Hid.
  - intros t. rewrite filter_In, negb_true_iff, Z.eqb_neq. reflexivity.
  - repeat split; reflexivity.
  - f_equal.
    + unfold with_list_. cbn. f_equal.
      apply forallb_filter_id, forallb_filter.
    + apply forallb_filter_id, forallb_filter.
  - reflexivity.
Qed.

End DeleteFacts.

End MoreListWrites.

(** ** Further properties of the task update *)

Section MoreUpdateFacts.
Import PkgModels.
Import ListTask.
Import ListTasks.
Import Stored.
Import Detailed.

Variable updateTaskAssignees :
  ListTask.t -> list User.t -> ListTask.t * option Error.
Variable now : Z.


Lemma merge_int_reset (dst src : Z) :
  (if src =? 0 then 0 else merge_int dst src) = src.
Proof.
  unfold merge_int. destruct (src =? 0) eqn:E; [|reflexivity].
  apply Z.eqb_eq in E. now subst.
Qed.

Lemma merge_string_reset (dst src : string) :
  (if String.eqb src "" then ""%string else merge_string dst src) = src.
Proof.
  unfold merge_string. destruct (String.eqb src "") eqn:E; [|reflexivity].
  apply String.eqb_eq in E. now subst.
Qed.

Lemma resetZeroValues_Merge_plain (t ot : ListTask.t) :
  same_plain_fields t (resetZeroValues t (Merge ot t)).
Proof.
  unfold same_plain_fields. cbn.
  rewrite !merge_int_reset, !merge_string_reset. repeat split.
Qed.

Lemma same_plain_fields_after_updateDone (t t1 stored : ListTask.t) :
  t1 = t \/ t1 = with_Done false t ->
  same_plain_fields t1 stored -> same_plain_fields t stored.
Proof. intros [->| ->]; trivial. Qed.


End MoreUpdateFacts.

Section MoreUpdate.
Import PkgModels.
Import ListTask.
Import ListTasks.
Import Stored.
Import Detailed.
Import Fixtures.Tasks.


(** X17.  After an [Update] that returns no error, Priority, Description,
    RepeatAfter, ParentTaskID, StartDateUnix, EndDateUnix and HexColor of
    the task handed back and of every stored row of that id are those of the
    incoming task, zero or not; and so is the text when the incoming text is
    not empty. *)
Theorem Update_stores_the_incoming_plain_fields :
  forall (updateTaskAssignees :
            ListTask.t -> list User.t -> ListTask.t * option Error)
    (now : Z) (x x' : Engine) (t t' : ListTask.t),
    Update updateTaskAssignees now x t = (x', t', None) ->
    same_plain_fields t t'
    /\ Forall (same_plain_fields t) (task_rows x' (ID t))
    /\ (Text t <> ""%string ->
        Text t' = Text t
        /\ Forall (fun row => Text row = Text t) (task_rows x' (ID t))).
Proof.
  intros updateTaskAssignees now x x' t t' H.
  destruct (Update_succeeds_inv _ _ _ _ _ _ H)
    as (ot & ot1 & t1 & ot2 & _ & _ & Hdone & _ & -> & ->).
  pose proof (updateDone_keeps_incoming _ _ _ _ _ Hdone) as Ht1.
  assert (Hid : ID t1 = ID t) by (destruct Ht1 as [-> | ->]; reflexivity).
  assert (Hplain : same_plain_fields t (resetZeroValues t1 (Merge ot2 t1))).
  { apply (same_plain_fields_after_updateDone _ _ _ Ht1).
    apply resetZeroValues_Merge_plain. }
  assert (Htext : Text t <> ""%string ->
                  Text (resetZeroValues t1 (Merge ot2 t1)) = Text t).
  { intros Hne. cbn. unfold merge_string.
    replace (Text t1) with (Text t) by (destruct Ht1 as [-> | ->]; reflexivity).
    destruct (String.eqb (Text t) "") eqn:E; [|reflexivity].
    apply String.eqb_eq in E. now destruct Hne. }
  rewrite Hid, task_rows_UpdateCols.
  split; [exact Hplain|]. split.
  - apply Forall_forall. intros row Hrow. apply in_map_iff in Hrow.
    destruct Hrow as [row0 [<- _]]. exact Hplain.
  - intros Hne. split; [now apply Htext|].
    apply Forall_forall. intros row Hrow. apply in_map_iff in Hrow.
    destruct Hrow as [row0 [<- _]]. cbn [setCols Text]. now apply Htext.
Qed.

(** An update of the stored task with a lower priority, no description and
    a new text. *)
Lemma Update_stores_the_incoming_plain_fields_witness :
  Update keepAssignees now x bare = (mkEngine [bared], bared, None)
  /\ Text bare <> ""%string
  /\ same_plain_fields bare bared
  /\ Forall (same_plain_fields bare) (task_rows (mkEngine [bared]) (ID bare))
  /\ Text bared = Text bare.
Proof.
  split; [reflexivity|]. split; [discriminate|].
  pose proof (Update_stores_the_incoming_plain_fields keepAssignees now x
                (mkEngine [bared]) bare bared eq_refl) as (Hplain & Hrows & Htext).
  split; [exact Hplain|]. split; [exact Hrows|].
  apply Htext. discriminate.
Defined.


(** X19.  [updateDone] by the done flags.  With the same flag on both tasks
    it changes nothing.  From not done to done, a task that repeats is moved
    on by its period (due date and every reminder, in 64-bit arithmetic, the
    plain sum where that is in range), keeps its done-at stamp, and the
    incoming task is set back to not done; a task that does not repeat is
    stamped with the time of the call.  From done to not done the stamp is
    reset to 0. *)
Theorem updateDone_by_the_done_flags :
  forall (now : Z) (oldTask newTask : ListTask.t),
    (Done oldTask = Done newTask ->
     updateDone now oldTask newTask = (oldTask, newTask))
    /\ (Done oldTask = false -> Done newTask = true ->
        0 < RepeatAfter oldTask ->
        updateDone now oldTask newTask
        = (with_RemindersUnix
             (map (fun r => Int64.add r (RepeatAfter oldTask))
                (RemindersUnix oldTask))
             (with_DueDateUnix
                (Int64.add (DueDateUnix oldTask) (RepeatAfter oldTask))
                oldTask),
           with_Done false newTask)
        /\ (Int64.in_range (DueDateUnix oldTask + RepeatAfter oldTask) ->
            DueDateUnix (fst (updateDone now oldTask newTask))
            = DueDateUnix oldTask + RepeatAfter oldTask))
    /\ (Done oldTask = false -> Done newTask = true ->
        RepeatAfter oldTask <= 0 ->
        updateDone now oldTask newTask = (with_DoneAtUnix now oldTask, newTask))
    /\ (Done oldTask = true -> Done newTask = false ->
        updateDone now oldTask newTask = (with_DoneAtUnix 0 oldTask, newTask)).
Proof.
  intros now oldTask newTask. split; [|split; [|split]].
  - intros Hsame.
    destruct (Done oldTask) eqn:Ho, (Done newTask) eqn:Hn; try discriminate;
      unfold updateDone; repeat (cbn; rewrite ?Ho, ?Hn); reflexivity.
  - intros Ho Hn Hr.
    pose proof (updateDone_repeating now oldTask newTask Ho Hn Hr) as H.
    split; [exact H|]. intros Hrange. rewrite H. cbn.
    now apply add_no_overflow.
  - apply updateDone_marks_done.
  - apply updateDone_unmarks.
Qed.

End MoreUpdate.

(** ** Creating, updating and reading one list *)

Section ListWriteFacts.
Import PkgModels.
Import ListModel.
Import ListInvariants.

Variable c : Collaborators.

(** The list table after the insert or the update of
    [CreateOrUpdateList]. *)
Lemma with_list_same (s : Session) : with_list_ (list_ s) s = s.
Proof. now destruct s. Qed.

Lemma same_other_tables_with_list_ (rows : list List.t) (s : Session) :
  same_other_tables s (with_list_ rows s).
Proof. repeat split. Qed.

Lemma same_other_tables_refl (s : Session) : same_other_tables s s.
Proof. repeat split. Qed.

(** [CreateOrUpdateList] leaves the store as it was, or the identifier of
    the list is empty or free and the store is the one after the insert (for
    the id 0) or after the update. *)
Lemma CreateOrUpdateList_store (s : Session) (list : List.t) (auth : Auth) :
  fst (fst (CreateOrUpdateList c s list auth)) = s
  \/ ((List.Identifier list = ""%string
       \/ forall row,
           In row (list_ s) ->
           List.Identifier row = List.Identifier list ->
           List.ID row = List.ID list)
      /\ fst (fst (CreateOrUpdateList c s list auth))
         = if List.ID list =? 0
           then
             with_list_
               (list_ s ++ [List.scan (with_ID (lastInsertID c s list) list)]) s
           else
             with_list_
               (map
                  (fun row =>
                     if List.ID row =? List.ID list
                     then setListCols list row
                     else row)
                  (list_ s))
               s).
Proof.
  unfold CreateOrUpdateList.
  destruct (if negb (List.NamespaceID list =? 0) && _ then _ else None);
    [now left|].
  destruct (negb (String.eqb (List.Identifier list) "") && _) eqn:Hcheck;
    [now left|].
  right. split.
  - apply andb_false_iff in Hcheck. destruct Hcheck as [Hempty|Hfree].
    + left. apply negb_false_iff, String.eqb_eq in Hempty. exact Hempty.
    + right. intros row Hin Hident. rewrite exists_where in Hfree.
      destruct (Z.eq_dec (List.ID row) (List.ID list)) as [Heq|Hneq];
        [exact Heq|].
      assert (Htrue : existsb
                        (fun row =>
                           String.eqb (List.Identifier row) (List.Identifier list)
                           && negb (List.ID row =? List.ID list))
                        (list_ s) = true).
      { apply existsb_exists. exists row. split; [exact Hin|].
        apply andb_true_iff. split; [now apply String.eqb_eq|].
        now apply negb_true_iff, Z.eqb_neq. }
      rewrite Htrue in Hfree. discriminate.
  - destruct (List.ID list =? 0);
      match goal with
      | |- context [GetListSimpleByID ?s' ?id] =>
          destruct (GetListSimpleByID s' id) as [err|l]
      end; [reflexivity | | reflexivity |];
      match goal with
      | |- context [ReadOne c ?l ?s' ?a] => destruct (ReadOne c l s' a)
      end; reflexivity.
Qed.

(** When [CreateOrUpdateList] returns no error for a list with another id
    than 0, the store is the one after the update, a list with that id was
    stored, and the list handed back is what [ReadOne] makes of its updated
    row. *)
Lemma CreateOrUpdateList_updated (s s' : Session) (list list' : List.t)
  (auth : Auth) :
  CreateOrUpdateList c s list auth = (s', list', None) ->
  List.ID list <> 0 ->
  s' = with_list_
         (map
            (fun row =>
               if List.ID row =? List.ID list
               then setListCols list row
               else row)
            (list_ s))
         s
  /\ exists row,
      In row (list_ s)
      /\ List.ID row = List.ID list
      /\ ReadOne c (List.scan (setListCols list row)) s' auth = (list', None).
Proof.
  unfold CreateOrUpdateList.
  destruct (if negb (List.NamespaceID list =? 0) && _ then _ else None);
    [discriminate|].
  destruct (negb (String.eqb (List.Identifier list) "") && _);
    [discriminate|].
  intros H Hid. apply Z.eqb_neq in Hid. rewrite Hid in H.
  match type of H with
  | context [GetListSimpleByID ?s1 ?id] =>
      destruct (GetListSimpleByID s1 id) as [err|l] eqn:Hget;
      [discriminate|];
      destruct (ReadOne c l s1 auth) as [l1 err1] eqn:Hread;
      injection H as <- <- ->
  end.
  split; [reflexivity|].
  apply GetListSimpleByID_found in Hget.
  destruct Hget as [_ [row' (Hin & Hrow & ->)]].
  cbn [list_ with_list_] in Hin. apply in_map_iff in Hin.
  destruct Hin as [row [<- Hin]].
  assert (Hrid : (List.ID row =? List.ID list) = true).
  { destruct (List.ID row =? List.ID list) eqn:E; [reflexivity|].
    apply Z.eqb_neq in E. contradiction. }
  rewrite Hrid in Hread. apply Z.eqb_eq in Hrid.
  exists row. repeat split; assumption.
Qed.

(** When it returns no error for a list with the id 0, the store is the one
    after the insert. *)
Lemma CreateOrUpdateList_inserted (s s' : Session) (list list' : List.t)
  (auth : Auth) :
  CreateOrUpdateList c s list auth = (s', list', None) ->
  List.ID list = 0 ->
  s' = with_list_
         (list_ s ++ [List.scan (with_ID (lastInsertID c s list) list)]) s.
Proof.
  unfold CreateOrUpdateList.
  destruct (if negb (List.NamespaceID list =? 0) && _ then _ else None);
    [discriminate|].
  destruct (negb (String.eqb (List.Identifier list) "") && _);
    [discriminate|].
  intros H Hid. apply Z.eqb_eq in Hid. rewrite Hid in H.
  match type of H with
  | context [GetListSimpleByID ?s1 ?id] =>
      destruct (GetListSimpleByID s1 id) as [err|l];
      [discriminate|];
      destruct (ReadOne c l s1 auth) as [l1 err1];
      injection H as <- _ _
  end.
  reflexivity.
Qed.

(** For a list whose id, other than 0, no stored list has,
    [CreateOrUpdateList] returns an error and leaves store and list as they
    were. *)
Lemma CreateOrUpdateList_not_stored (s : Session) (list : List.t)
  (auth : Auth) :
  List.ID list <> 0 ->
  (forall row, In row (list_ s) -> List.ID row <> List.ID list) ->
  exists err, CreateOrUpdateList c s list auth = (s, list, Some err).
Proof.
  intros Hid Hnone. unfold CreateOrUpdateList.
  destruct (if negb (List.NamespaceID list =? 0) && _ then _ else None)
    as [err|]; [now exists err|].
  destruct (negb (String.eqb (List.Identifier list) "") && _);
    [eexists; reflexivity|].
  apply Z.eqb_neq in Hid. rewrite Hid.
  assert (Hsame : with_list_
                    (map
                       (fun row =>
                          if List.ID row =? List.ID list
                          then setListCols list row
                          else row)
                       (list_ s))
                    s = s).
  { assert (Hrows : map
                       (fun row =>
                          if List.ID row =? List.ID list
                          then setListCols list row
                          else row)
                       (list_ s) = list_ s).
    { rewrite <- (map_id (list_ s)) at 2. apply map_ext_in.
      intros row Hin. apply Hnone, Z.eqb_neq in Hin. now rewrite Hin. }
    rewrite Hrows. apply with_list_same. }
  rewrite Hsame.
  destruct (GetListSimpleByID s (List.ID list)) as [err|l] eqn:Hget;
    [eexists; reflexivity|].
  apply GetListSimpleByID_found in Hget.
  destruct Hget as [_ [row (Hin & Hrow & _)]].
  destruct (Hnone row Hin Hrow).
Qed.

(** The store after [Update] is the one after [CreateOrUpdateList]. *)
Lemma Update_store (l : List.t) (s : Session) (a : Auth) :
  fst (fst (Update c l s a)) = fst (fst (CreateOrUpdateList c s l a)).
Proof.
  unfold Update. destruct (CreateOrUpdateList c s l a) as [[s' l'] [err|]];
    reflexivity.
Qed.

(** The store after [Create] is the one before, or the one after
    [CreateOrUpdateList] for the list with the doer as owner and the id 0. *)
Lemma Create_store (l : List.t) (s : Session) (a : Auth) :
  fst (fst (Create c l s a)) = s
  \/ exists doer,
      GetFromAuth c a = inr doer
      /\ fst (fst (Create c l s a))
         = fst (fst (CreateOrUpdateList c s
                       (with_ID 0 (with_owner (User.ID doer) (Some doer) l)) a)).
Proof.
  unfold Create. destruct (CheckIsArchived s l); [now left|].
  destruct (GetFromAuth c a) as [err|doer]; [now left|].
  right. exists doer. split; [reflexivity|].
  destruct (CreateOrUpdateList c s _ a) as [[s' l'] [err|]]; [reflexivity|].
  destruct (BucketCreate c s' (List.ID l') a); reflexivity.
Qed.

(** The insert and the update keep non-empty identifiers unique. *)
Lemma written_keeps_identifiers_unique (s : Session) (list : List.t) :
  identifiers_unique s ->
  ids_nonzero s ->
  (List.Identifier list = ""%string
   \/ forall row,
       In row (list_ s) ->
       List.Identifier row = List.Identifier list ->
       List.ID row = List.ID list) ->
  identifiers_unique
    (if List.ID list =? 0
     then
       with_list_
         (list_ s ++ [List.scan (with_ID (lastInsertID c s list) list)]) s
     else
       with_list_
         (map
            (fun row =>
               if List.ID row =? List.ID list
               then setListCols list row
               else row)
            (list_ s))
         s).
Proof.
  intros Huniq Hnz Hfree.
  destruct (List.ID list =? 0) eqn:Hid.
  - apply Z.eqb_eq in Hid.
    assert (Hnew : forall r,
               In r (list_ s) ->
               List.Identifier r <> ""%string \/ List.Identifier list <> ""%string ->
               List.Identifier r = List.Identifier list -> False).
    { intros r Hr Hne Heq. destruct Hfree as [Hempty|Hfree].
      - destruct Hne as [Hne|Hne]; congruence.
      - apply (Hnz r Hr). rewrite (Hfree r Hr Heq). exact Hid. }
    intros r1 r2 H1 H2 Hne Heq. cbn [list_ with_list_] in H1, H2.
    apply in_app_or in H1. apply in_app_or in H2.
    destruct H1 as [H1|[<-|[]]], H2 as [H2|[<-|[]]].
    + now apply Huniq.
    + destruct (Hnew r1 H1 (or_introl Hne) Heq).
    + cbn in Hne, Heq. symmetry in Heq.
      destruct (Hnew r2 H2 (or_intror Hne) Heq).
    + reflexivity.
  - apply Z.eqb_neq in Hid.
    intros r1' r2' H1 H2 Hne Heq. cbn [list_ with_list_] in H1, H2.
    apply in_map_iff in H1. apply in_map_iff in H2.
    destruct H1 as [r1 [<- H1]], H2 as [r2 [<- H2]].
    destruct (List.ID r1 =? List.ID list) eqn:E1;
      destruct (List.ID r2 =? List.ID list) eqn:E2.
    + apply Z.eqb_eq in E1, E2. cbn. congruence.
    + apply Z.eqb_eq in E1. apply Z.eqb_neq in E2. cbn in Hne, Heq.
      destruct Hfree as [Hempty|Hfree]; [congruence|].
      destruct E2. apply (Hfree r2 H2). now symmetry.
    + apply Z.eqb_neq in E1. cbn in Heq.
      destruct Hfree as [Hempty|Hfree]; [congruence|].
      destruct E1. now apply (Hfree r1 H1).
    + now apply Huniq.
Qed.

End ListWriteFacts.

Section ReadOneFacts.
Import PkgModels.
Import ListModel.
Import Stored.

(** Case analysis on a test or a scrutinee of the goal that is not itself
    a case analysis. *)
Ltac plain_scrutinee x :=
  lazymatch x with
  | context [match _ with _ => _ end] => fail
  | context [if _ then _ else _] => fail
  | _ => idtac
  end.

Ltac break_match :=
  match goal with
  | |- context [if ?b then _ else _] => plain_scrutinee b; destruct b
  | |- context [match ?x with _ => _ end] => plain_scrutinee x; destruct x
  end.

(** Every error of [CheckIsArchived] is one of the two archive errors. *)
Lemma CheckIsArchived_errors (s : Session) (l : List.t) (err : Error) :
  CheckIsArchived s l = Some err ->
  negb (IsErrNamespaceIsArchived (Err err)) && negb (IsErrListIsArchived (Err err))
  = false.
Proof.
  unfold CheckIsArchived, Namespace_CheckIsArchived.
  repeat match goal with
         | |- context [if ?b then _ else _] => destruct b
         end; intros [= <-]; reflexivity.
Qed.

(** [ReadOne] leaves the id, the namespace, the identifier, the colour, the
    background file and the favorite flag of the list as they are. *)
Lemma ReadOne_keeps (c : Collaborators) (l : List.t) (s : Session) (a : Auth) :
  List.ID (fst (ReadOne c l s a)) = List.ID l
  /\ List.NamespaceID (fst (ReadOne c l s a)) = List.NamespaceID l
  /\ List.Identifier (fst (ReadOne c l s a)) = List.Identifier l
  /\ List.HexColor (fst (ReadOne c l s a)) = List.HexColor l
  /\ List.BackgroundFileID (fst (ReadOne c l s a)) = List.BackgroundFileID l
  /\ List.IsFavorite (fst (ReadOne c l s a)) = List.IsFavorite l.
Proof.
  unfold ReadOne.
  repeat break_match; cbn; repeat split.
Qed.

(** When it returns no error, [ReadOne] has the list archived when it was
    passed as archived or [CheckIsArchived] has an error for it. *)
Lemma ReadOne_IsArchived (c : Collaborators) (l l' : List.t) (s : Session)
  (a : Auth) :
  List.ID l <> List.ID (FavoritesPseudoList c) ->
  ReadOne c l s a = (l', None) ->
  List.IsArchived l'
  = List.IsArchived l
    || match CheckIsArchived s l with
       | Some _ => true
       | None => false
       end.
Proof.
  intros Hfav. apply Z.eqb_neq in Hfav. unfold ReadOne. rewrite Hfav.
  destruct (0 <? _).
  - destruct (getSavedFilterSimpleByID c s _) as [err|sf]; [discriminate|].
    destruct (GetUserByID c s _) as [owner [err|]]; [discriminate|].
    change (CheckIsArchived s (List.with_Owner owner (with_SavedFilter sf l)))
      with (CheckIsArchived s l).
    change (List.IsArchived (List.with_Owner owner (with_SavedFilter sf l)))
      with (List.IsArchived l).
    destruct (List.IsArchived l) eqn:Harch; cbn [negb orb].
    + repeat break_match; intros [= <-]; cbn; rewrite ?Harch; reflexivity.
    + destruct (CheckIsArchived s l) as [err|] eqn:Hcheck.
      * rewrite (CheckIsArchived_errors s l err Hcheck).
        repeat break_match; intros [= <-]; cbn; rewrite ?Harch; reflexivity.
      * repeat break_match; intros [= <-]; cbn; rewrite ?Harch; reflexivity.
  - destruct (GetUserByID c s _) as [owner [err|]]; [discriminate|].
    change (CheckIsArchived s (List.with_Owner owner l))
      with (CheckIsArchived s l).
    change (List.IsArchived (List.with_Owner owner l))
      with (List.IsArchived l).
    destruct (List.IsArchived l) eqn:Harch; cbn [negb orb].
    + repeat break_match; intros [= <-]; cbn; rewrite ?Harch; reflexivity.
    + destruct (CheckIsArchived s l) as [err|] eqn:Hcheck.
      * rewrite (CheckIsArchived_errors s l err Hcheck).
        repeat break_match; intros [= <-]; cbn; rewrite ?Harch; reflexivity.
      * repeat break_match; intros [= <-]; cbn; rewrite ?Harch; reflexivity.
Qed.

(** [CheckIsArchived] for a stored list, by what is archived. *)
Lemma CheckIsArchived_stored (s : Session) (l row : List.t)
  (ns : option Namespace.t) :
  List.ID l <> 0 ->
  list_row s (List.ID l) row ->
  namespace_row s (List.NamespaceID row) ns ->
  (forall n, ns = Some n -> Namespace.ID n <> 0) ->
  match CheckIsArchived s l with
  | Some _ => true
  | None => false
  end
  = List.IsArchived row
    || match ns with
       | Some n => Namespace.IsArchived n
       | None => false
       end.
Proof.
  intros Hid Hrow Hns Hnz.
  assert (Hrid' : (List.ID row =? List.ID l) = true).
  { assert (Hin : In row (filter (fun r => List.ID r =? List.ID l) (list_ s)))
      by (rewrite Hrow; now left).
    now apply filter_In in Hin. }
  apply Z.eqb_eq in Hrid' as Hrid.
  unfold CheckIsArchived. apply Z.eqb_neq in Hid. rewrite Hid.
  rewrite (CheckIsArchived_rows_resolved s l row ns Hrow Hns).
  destruct (List.IsArchived row) eqn:Hla.
  - destruct ns as [n|]; cbn; rewrite Hrid, Hid, Hla; reflexivity.
  - destruct ns as [n|]; [|reflexivity].
    specialize (Hnz n eq_refl). apply Z.eqb_neq in Hnz.
    destruct (Namespace.IsArchived n) eqn:Hna; cbn; [|reflexivity].
    rewrite Hla, Hnz, Hna, andb_false_r. reflexivity.
Qed.

Lemma Forall2_same {A : Type} (R : A -> A -> Prop) (rows : list A) :
  (forall a, R a a) -> Forall2 R rows rows.
Proof. intros HR. induction rows; constructor; auto. Qed.

Lemma Forall2_map_r {A : Type} (R : A -> A -> Prop) (f : A -> A)
  (rows : list A) :
  (forall a, R a (f a)) -> Forall2 R rows (map f rows).
Proof. intros HR. induction rows; cbn; constructor; auto. Qed.

End ReadOneFacts.

Section ListWrites.
Import PkgModels.
Import ListModel.
Import ListInvariants.
Import Stored.
Import MoreFixtures.Lists.

(** X20.  Writing a list keeps the identifiers unique: if no two stored
    lists with different ids share a non-empty identifier, and no stored list
    has the id 0, the same holds of the identifiers after
    [CreateOrUpdateList], after [Update] and after [Create], whatever they
    return. *)
Theorem writes_keep_identifiers_unique :
  forall (c : Collaborators) (s : Session) (l : List.t) (a : Auth),
    identifiers_unique s ->
    ids_nonzero s ->
    identifiers_unique (fst (fst (CreateOrUpdateList c s l a)))
    /\ identifiers_unique (fst (fst (Update c l s a)))
    /\ identifiers_unique (fst (fst (Create c l s a))).
Proof.
  intros c s l a Hu Hnz.
  assert (H : forall list,
             identifiers_unique (fst (fst (CreateOrUpdateList c s list a)))).
  { intros list.
    destruct (CreateOrUpdateList_store c s list a) as [->|[Hfree ->]];
      [exact Hu|].
    now apply written_keeps_identifiers_unique. }
  split; [apply H|]. split.
  - rewrite Update_store. apply H.
  - destruct (Create_store c l s a) as [->|[doer [_ ->]]];
      [exact Hu | apply H].
Qed.

(** On the store with the lists "inbox" and "later": renaming the inbox. *)
Lemma writes_keep_identifiers_unique_witness :
  identifiers_unique s_lists
  /\ ids_nonzero s_lists
  /\ identifiers_unique
       (fst (fst (Update plain inbox_renamed s_lists (AuthUser erin)))).
Proof.
  assert (Hu : identifiers_unique s_lists).
  { intros r1 r2 H1 H2 _.
    destruct H1 as [<-|[<-|[]]], H2 as [<-|[<-|[]]];
      cbn; intros; congruence. }
  assert (Hnz : ids_nonzero s_lists).
  { intros row [<-|[<-|[]]]; cbn; lia. }
  split; [exact Hu|]. split; [exact Hnz|].
  exact (proj1 (proj2 (writes_keep_identifiers_unique plain s_lists
                         inbox_renamed (AuthUser erin) Hu Hnz))).
Defined.

(** X21.  [Update] of a list with another id than 0 keeps the list table
    row by row: every stored list keeps its id, its owner, its namespace and
    its background file, whatever the incoming list has there; a list with
    another id is unchanged; the description is unchanged when the incoming
    one is empty.  The users, namespaces, photos, team members and grants
    are left as they were.  This holds whether or not an error is
    returned. *)
Theorem Update_changes_only_its_columns :
  forall (c : Collaborators) (s : Session) (l : List.t) (a : Auth),
    List.ID l <> 0 ->
    Forall2 (kept_by_update (List.ID l) (List.Description l))
      (list_ s) (list_ (fst (fst (Update c l s a))))
    /\ same_other_tables s (fst (fst (Update c l s a))).
Proof.
  intros c s l a Hid. rewrite Update_store.
  destruct (CreateOrUpdateList_store c s l a) as [->|[_ ->]].
  - split; [|apply same_other_tables_refl].
    apply Forall2_same. intros row. repeat split.
  - apply Z.eqb_neq in Hid. rewrite Hid.
    split; [|apply same_other_tables_with_list_].
    cbn [list_ with_list_]. apply Forall2_map_r. intros row.
    destruct (List.ID row =? List.ID l) eqn:E.
    + apply Z.eqb_eq in E. repeat split; cbn.
      * intros Hne. contradiction.
      * intros ->. reflexivity.
    + repeat split.
Qed.

(** Renaming the inbox with an owner and a namespace of the caller's
    choosing: the stored owner and namespace stay. *)
Lemma Update_changes_only_its_columns_witness :
  List.ID inbox_renamed <> 0
  /\ Forall2 (kept_by_update (List.ID inbox_renamed)
                (List.Description inbox_renamed))
       (list_ s_lists)
       (list_ (fst (fst (Update plain inbox_renamed s_lists (AuthUser erin)))))
  /\ same_other_tables s_lists
       (fst (fst (Update plain inbox_renamed s_lists (AuthUser erin)))).
Proof.
  assert (Hid : List.ID inbox_renamed <> 0) by (cbn; lia).
  split; [exact Hid|].
  exact (Update_changes_only_its_columns plain s_lists inbox_renamed
           (AuthUser erin) Hid).
Defined.

(** X22.  After an [Update] of a list with another id than 0 that returns
    no error, a list with that id is stored, and every stored list with that
    id has the title, the archived flag, the identifier, the colour and the
    favorite flag of the incoming list, and its description when that is not
    empty.  The list handed back has the id and identifier of the incoming
    list, and the namespace and the background file of a list that was
    stored under that id before. *)
Theorem Update_writes_the_named_columns :
  forall (c : Collaborators) (s : Session) (l : List.t) (a : Auth),
    List.ID l <> 0 ->
    snd (Update c l s a) = None ->
    list_rows (fst (fst (Update c l s a))) (List.ID l) <> []
    /\ Forall (written_by_update l)
         (list_rows (fst (fst (Update c l s a))) (List.ID l))
    /\ List.ID (snd (fst (Update c l s a))) = List.ID l
    /\ List.Identifier (snd (fst (Update c l s a))) = List.Identifier l
    /\ exists row,
        In row (list_ s)
        /\ List.ID row = List.ID l
        /\ List.NamespaceID (snd (fst (Update c l s a))) = List.NamespaceID row
        /\ List.BackgroundFileID (snd (fst (Update c l s a)))
           = List.BackgroundFileID row.
Proof.
  intros c s l a Hid. unfold Update.
  destruct (CreateOrUpdateList c s l a) as [[s' l'] [err|]] eqn:Hcu;
    [discriminate|].
  intros _. cbn [fst snd].
  destruct (CreateOrUpdateList_updated c s s' l l' a Hcu Hid)
    as [-> [row (Hin & Hrow & Hread)]].
  assert (Hrid : (List.ID row =? List.ID l) = true) by now apply Z.eqb_eq.
  split.
  { intros Hnil.
    assert (Hin' : In (setListCols l row)
                     (list_rows
                        (with_list_
                           (map
                              (fun row =>
                                 if List.ID row =? List.ID l
                                 then setListCols l row
                                 else row)
                              (list_ s))
                           s)
                        (List.ID l))).
    { apply filter_In. split; [|exact Hrid].
      cbn [list_ with_list_]. apply in_map_iff. exists row.
      now rewrite Hrid. }
    rewrite Hnil in Hin'. destruct Hin'. }
  split.
  { apply Forall_forall. intros row' Hin'. apply filter_In in Hin'.
    destruct Hin' as [Hin' Hid']. cbn [list_ with_list_] in Hin'.
    apply in_map_iff in Hin'. destruct Hin' as [r [<- Hr]].
    destruct (List.ID r =? List.ID l) eqn:E.
    - repeat split. cbn. intros Hd.
      destruct (String.eqb (List.Description l) "") eqn:Hempty;
        [|reflexivity].
      apply String.eqb_eq in Hempty. contradiction.
    - rewrite E in Hid'. discriminate. }
  pose proof (ReadOne_keeps c (List.scan (setListCols l row))
                (with_list_
                   (map
                      (fun row =>
                         if List.ID row =? List.ID l
                         then setListCols l row
                         else row)
                      (list_ s))
                   s)
                a) as Hkeeps.
  rewrite Hread in Hkeeps. cbn [fst] in Hkeeps.
  destruct Hkeeps as (Hk1 & Hk2 & Hk3 & _ & Hk5 & _).
  split; [rewrite Hk1; exact Hrow|].
  split; [exact Hk3|].
  exists row. repeat split; assumption.
Qed.

Lemma Update_writes_the_named_columns_witness :
  List.ID inbox_renamed <> 0
  /\ snd (Update plain inbox_renamed s_lists (AuthUser erin)) = None
  /\ list_rows (fst (fst (Update plain inbox_renamed s_lists (AuthUser erin))))
       (List.ID inbox_renamed)
     <> []
  /\ Forall (written_by_update inbox_renamed)
       (list_rows
          (fst (fst (Update plain inbox_renamed s_lists (AuthUser erin))))
          (List.ID inbox_renamed)).
Proof.
  assert (Hid : List.ID inbox_renamed <> 0) by (cbn; lia).
  assert (Hok : snd (Update plain inbox_renamed s_lists (AuthUser erin)) = None)
    by reflexivity.
  split; [exact Hid|]. split; [exact Hok|].
  pose proof (Update_writes_the_named_columns plain s_lists inbox_renamed
                (AuthUser erin) Hid Hok) as H.
  split; [exact (proj1 H) | exact (proj1 (proj2 H))].
Defined.

(** X23.  [Update] of a list whose id, other than 0, no stored list has
    returns an error and leaves the store and the list object as they
    were: it does not create the list. *)
Theorem Update_of_a_list_not_stored :
  forall (c : Collaborators) (s : Session) (l : List.t) (a : Auth),
    List.ID l <> 0 ->
    (forall row, In row (list_ s) -> List.ID row <> List.ID l) ->
    exists err, Update c l s a = (s, l, Some err).
Proof.
  intros c s l a Hid Hnone. unfold Update.
  destruct (CreateOrUpdateList_not_stored c s l a Hid Hnone) as [err ->].
  now exists err.
Qed.

Lemma Update_of_a_list_not_stored_witness :
  exists err,
    Update plain (mkListI 9 "x" "" "" 0 1 false) s_lists (AuthUser erin)
    = (s_lists, mkListI 9 "x" "" "" 0 1 false, Some err).
Proof.
  apply (Update_of_a_list_not_stored plain s_lists
           (mkListI 9 "x" "" "" 0 1 false) (AuthUser erin)).
  - cbn. lia.
  - intros row [<-|[<-|[]]]; cbn; lia.
Defined.

(** X24.  [Create] leaves the users, namespaces, photos, team members and
    grants as they were, and the list table as it was or with one row more
    at its end: no stored list is changed, also when the caller passes the
    id of a stored list.  The new row has the doer as owner, whatever owner
    the caller passed, and the namespace, title, description, identifier and
    archived flag of the incoming list.  When [Create] returns no error, the
    row was added.  (The first bucket is made by [Bucket.Create], whose
    table the session does not hold.) *)
Theorem Create_appends_one_list_of_the_doer :
  forall (c : Collaborators) (s : Session) (l : List.t) (a : Auth),
    same_other_tables s (fst (fst (Create c l s a)))
    /\ (list_ (fst (fst (Create c l s a))) = list_ s
        \/ one_list_created c l s a (fst (fst (Create c l s a))))
    /\ (snd (Create c l s a) = None
        -> one_list_created c l s a (fst (fst (Create c l s a)))).
Proof.
  intros c s l a.
  assert (Hnew : forall doer,
             GetFromAuth c a = inr doer ->
             one_list_created c l s a
               (with_list_
                  (list_ s
                   ++ [List.scan
                         (with_ID
                            (lastInsertID c s
                               (with_ID 0
                                  (with_owner (User.ID doer) (Some doer) l)))
                            (with_ID 0
                               (with_owner (User.ID doer) (Some doer) l)))])
                  s)).
  { intros doer Hdoer. exists doer. eexists. split; [exact Hdoer|].
    split; [reflexivity|]. repeat split. }
  unfold Create. destruct (CheckIsArchived s l).
  { cbn [fst snd]. split; [apply same_other_tables_refl|].
    split; [now left | discriminate]. }
  destruct (GetFromAuth c a) as [err|doer] eqn:Hdoer.
  { cbn [fst snd]. split; [apply same_other_tables_refl|].
    split; [now left | discriminate]. }
  pose proof (CreateOrUpdateList_store c s
                (with_ID 0 (with_owner (User.ID doer) (Some doer) l)) a)
    as Hstore.
  pose proof (CreateOrUpdateList_inserted c s) as Hins.
  destruct (CreateOrUpdateList c s _ a) as [[s' l'] [err|]] eqn:Hcu;
    cbn [fst snd] in *.
  - destruct Hstore as [->|[_ ->]].
    + split; [apply same_other_tables_refl|].
      split; [now left | discriminate].
    + cbn. split; [apply same_other_tables_with_list_|].
      split; [right; now apply Hnew | discriminate].
  - specialize (Hins s' _ l' a Hcu eq_refl). subst s'.
    destruct (BucketCreate c _ (List.ID l') a); cbn [fst snd];
      (split; [apply same_other_tables_with_list_|]);
      (split; [right | intros _]; now apply Hnew).
Qed.

(** X25.  [ReadOne] on a stored list other than the favorites list, when it
    returns no error, hands the list back as archived exactly when it was
    passed as archived, or the stored list is archived, or the namespace of
    the stored list is; the id, the namespace id, the identifier and the
    background file of the list object are left as passed. *)
Theorem ReadOne_reports_what_is_archived :
  forall (c : Collaborators) (s : Session) (a : Auth) (l l' row : List.t)
    (ns : option Namespace.t),
    List.ID l <> List.ID (FavoritesPseudoList c) ->
    List.ID l <> 0 ->
    list_row s (List.ID l) row ->
    namespace_row s (List.NamespaceID row) ns ->
    (forall n, ns = Some n -> Namespace.ID n <> 0) ->
    ReadOne c l s a = (l', None) ->
    List.IsArchived l'
    = List.IsArchived l
      || (List.IsArchived row
          || match ns with
             | Some n => Namespace.IsArchived n
             | None => false
             end)
    /\ List.ID l' = List.ID l
    /\ List.NamespaceID l' = List.NamespaceID l
    /\ List.Identifier l' = List.Identifier l
    /\ List.BackgroundFileID l' = List.BackgroundFileID l.
Proof.
  intros c s a l l' row ns Hfav Hid Hrow Hns Hnz Hread.
  split.
  - rewrite (ReadOne_IsArchived c l l' s a Hfav Hread).
    now rewrite (CheckIsArchived_stored s l row ns Hid Hrow Hns Hnz).
  - pose proof (ReadOne_keeps c l s a) as Hkeeps.
    rewrite Hread in Hkeeps. cbn [fst] in Hkeeps. tauto.
Qed.

(** List 1 of the archive store is not archived, its namespace is: it is
    read as archived. *)
Lemma ReadOne_reports_what_is_archived_witness :
  List.IsArchived
    (fst (ReadOne plain (Fixtures.Lists.mkList 1 "in old" 1 1 false 0)
            Fixtures.Lists.s_archive (AuthUser Fixtures.Lists.alice)))
  = true.
Proof.
  exact (proj1
           (ReadOne_reports_what_is_archived plain Fixtures.Lists.s_archive
              (AuthUser Fixtures.Lists.alice)
              (Fixtures.Lists.mkList 1 "in old" 1 1 false 0)
              (fst (ReadOne plain (Fixtures.Lists.mkList 1 "in old" 1 1 false 0)
                      Fixtures.Lists.s_archive
                      (AuthUser Fixtures.Lists.alice)))
              (Fixtures.Lists.mkList 1 "in old" 1 1 false 0)
              (Some (Namespace.mk 1 "old" 1 true))
              ltac:(cbn; lia)
              ltac:(cbn; lia)
              eq_refl
              eq_refl
              ltac:(intros n [= <-]; cbn; lia)
              eq_refl)).
Defined.

End ListWrites.

Section ListIdentifiers.
Import PkgModels.
Import ListModel.
Import MoreFixtures.Lists.

(** X26.  A taken identifier is refused: when the namespace check passes
    and another stored list (one with another id) has the non-empty
    identifier of the incoming list, [CreateOrUpdateList] and [Update]
    return [ErrListIdentifierIsNotUnique] for that identifier and leave the
    store and the list object as they were. *)
Theorem taken_identifier_is_refused :
  forall (c : Collaborators) (s : Session) (l row : List.t) (a : Auth),
    (List.NamespaceID l = 0
     \/ List.NamespaceID l = FavoritesPseudoNamespaceID c
     \/ GetNamespaceByID c s (List.NamespaceID l) = None) ->
    List.Identifier l <> ""%string ->
    In row (list_ s) ->
    List.Identifier row = List.Identifier l ->
    List.ID row <> List.ID l ->
    CreateOrUpdateList c s l a
    = (s, l, Some (ErrListIdentifierIsNotUnique (List.Identifier l)))
    /\ Update c l s a
       = (s, l, Some (ErrListIdentifierIsNotUnique (List.Identifier l))).
Proof.
  intros c s l row a Hns Hident Hin Hsame Hother.
  assert (Hcu : CreateOrUpdateList c s l a
                = (s, l,
                   Some (ErrListIdentifierIsNotUnique (List.Identifier l)))).
  { unfold CreateOrUpdateList.
    assert (Hcheck : (if negb (List.NamespaceID l =? 0)
                         && negb (List.NamespaceID l
                                  =? FavoritesPseudoNamespaceID c)
                      then GetNamespaceByID c s (List.NamespaceID l)
                      else None) = None).
    { destruct Hns as [H0|[Hfav|Hknown]].
      - apply Z.eqb_eq in H0. now rewrite H0.
      - apply Z.eqb_eq in Hfav. now rewrite Hfav, andb_false_r.
      - rewrite Hknown. now destruct (_ && _). }
    rewrite Hcheck.
    assert (Hnonempty : String.eqb (List.Identifier l) "" = false)
      by now apply String.eqb_neq.
    assert (Htaken : SQL.exists_
                       (SQL.where_
                          (fun row =>
                             String.eqb (List.Identifier row) (List.Identifier l)
                             && negb (List.ID row =? List.ID l))
                          (list_ s)) = true).
    { apply exists_where_iff. exists row. split; [exact Hin|].
      apply andb_true_iff. split; [now apply String.eqb_eq|].
      now apply negb_true_iff, Z.eqb_neq. }
    now rewrite Hnonempty, Htaken. }
  split; [exact Hcu|]. unfold Update. now rewrite Hcu.
Qed.

(** Sending list 2 with the identifier of list 1. *)
Lemma taken_identifier_is_refused_witness :
  Update plain later_as_inbox s_lists (AuthUser erin)
  = (s_lists, later_as_inbox, Some (ErrListIdentifierIsNotUnique "IN")).
Proof.
  exact (proj2
           (taken_identifier_is_refused plain s_lists later_as_inbox
              (mkListI 1 "inbox" "IN" "what comes in" 5 1 false)
              (AuthUser erin)
              (or_intror (or_intror eq_refl))
              ltac:(discriminate)
              (or_introl eq_refl)
              eq_refl
              ltac:(cbn; lia))).
Defined.

End ListIdentifiers.
